(** * marsa11y: the line-based accessibility engine, embedded and verified

    A shallow embedding of the TypeScript sources of the checker: the
    aggregator of src/accessibilityChecker.ts, the six family checkers it
    drives, the five family checkers that stand alone, and the alt-text
    repair workflow of src/altTagAutoFixer.ts; followed by the properties
    of the specification settled against it.

    Strings are JavaScript strings: finite sequences of UTF-16 code units.
    [String.prototype.length], [includes], [trim], [split], [indexOf] and
    [substring] all work on code units, so the embedding does too. *)

From Stdlib Require Import List String Ascii NArith ZArith Bool Arith Lia Sorted.
Import ListNotations.

(* ================================================================== *)
(** * JavaScript strings *)
(* ================================================================== *)

Module JS.

(** A UTF-16 code unit. *)
Definition char := N.

Definition jsstring := list char.

Definition chr (a : ascii) : char := N_of_ascii a.

(** QUOTATION MARK and APOSTROPHE. *)
Definition dquote : char := 34%N.
Definition squote : char := 39%N.

(** A source literal made of Basic Latin characters.  The sources quote
    attribute values with the double quote; in the literals of this file
    that code unit is written [~], a character no literal of the sources
    contains. *)
Definition unit_of (a : ascii) : char :=
  if N.eqb (N_of_ascii a) 126 then dquote else N_of_ascii a.

Definition lit (s : string) : jsstring :=
  map unit_of (list_ascii_of_string s).

Fixpoint jseq (a b : jsstring) : bool :=
  match a, b with
  | [], [] => true
  | x :: a', y :: b' => N.eqb x y && jseq a' b'
  | _, _ => false
  end.

(** ECMAScript WhiteSpace and LineTerminator code points: what
    [String.prototype.trim] strips and what [\s] matches. *)
Definition isWhiteSpace (c : char) : bool :=
  (N.leb 9 c && N.leb c 13)        (* TAB, LF, VT, FF, CR *)
  || N.eqb c 32                    (* SPACE *)
  || N.eqb c 160                   (* NO-BREAK SPACE *)
  || N.eqb c 5760                  (* OGHAM SPACE MARK *)
  || (N.leb 8192 c && N.leb c 8202) (* EN QUAD .. HAIR SPACE *)
  || N.eqb c 8232 || N.eqb c 8233  (* LINE / PARAGRAPH SEPARATOR *)
  || N.eqb c 8239                  (* NARROW NO-BREAK SPACE *)
  || N.eqb c 8287                  (* MEDIUM MATHEMATICAL SPACE *)
  || N.eqb c 12288                 (* IDEOGRAPHIC SPACE *)
  || N.eqb c 65279.                (* ZERO WIDTH NO-BREAK SPACE *)

(** ECMAScript LineTerminator: what [.] refuses to match. *)
Definition isLineTerminator (c : char) : bool :=
  N.eqb c 10 || N.eqb c 13 || N.eqb c 8232 || N.eqb c 8233.

Fixpoint trimStart (s : jsstring) : jsstring :=
  match s with
  | c :: s' => if isWhiteSpace c then trimStart s' else s
  | [] => []
  end.

Definition trimEnd (s : jsstring) : jsstring := rev (trimStart (rev s)).

Definition trim (s : jsstring) : jsstring := trimEnd (trimStart s).

(** [s.startsWith(p)]. *)
Fixpoint startsWith (s p : jsstring) {struct p} : bool :=
  match p, s with
  | [], _ => true
  | x :: p', y :: s' => N.eqb x y && startsWith s' p'
  | _ :: _, [] => false
  end.

(** [s.includes(p)]. *)
Fixpoint includes (s p : jsstring) : bool :=
  startsWith s p ||
  match s with
  | [] => false
  | _ :: s' => includes s' p
  end.

(** [s.length]. *)
Definition strlen (s : jsstring) : nat := List.length s.

(** [s.split('\n')]: never empty, one more piece than line feeds. *)
Fixpoint split_lf (s : jsstring) : list jsstring :=
  match s with
  | [] => [[]]
  | c :: s' =>
      if N.eqb c 10 then [] :: split_lf s'
      else match split_lf s' with
           | l :: ls => (c :: l) :: ls
           | [] => [[c]]
           end
  end.

(** [s.indexOf(p, from)] with [-1] for "not found"; a negative [from]
    counts as 0, as in ECMAScript. *)
Fixpoint indexOf_nat (s p : jsstring) (i : nat) : Z :=
  if startsWith s p then Z.of_nat i
  else match s with
       | [] => (-1)%Z
       | _ :: s' => indexOf_nat s' p (S i)
       end.

Definition indexOf (s p : jsstring) (from : Z) : Z :=
  let k := Z.to_nat from in
  if Nat.ltb (strlen s) k then
    (* position past the end: only the empty pattern is found, at length *)
    match p with [] => Z.of_nat (strlen s) | _ => (-1)%Z end
  else indexOf_nat (skipn k s) p k.

(** [s.substring(a, b)] and [s.substring(a)] for non-NaN arguments. *)
Definition clampIndex (s : jsstring) (i : Z) : nat :=
  Nat.min (Z.to_nat i) (strlen s).

Definition substring2 (s : jsstring) (a b : Z) : jsstring :=
  let a' := clampIndex s a in
  let b' := clampIndex s b in
  let lo := Nat.min a' b' in
  let hi := Nat.max a' b' in
  firstn (hi - lo) (skipn lo s).

Definition substring1 (s : jsstring) (a : Z) : jsstring :=
  skipn (clampIndex s a) s.

(** Decimal digits of a natural number, for template literals that
    interpolate a number. *)
Fixpoint digits_fuel (fuel n : nat) (acc : jsstring) : jsstring :=
  match fuel with
  | O => acc
  | S fuel' =>
      let d := N.of_nat (n mod 10) in
      let acc' := (48 + d)%N :: acc in
      if Nat.ltb n 10 then acc' else digits_fuel fuel' (n / 10) acc'
  end.

Definition numberToString (n : nat) : jsstring := digits_fuel (S n) n [].

(** [parseInt] on a run of decimal digits; anything else stops the scan.
    [None] stands for NaN. *)
Definition digitValue (c : char) : option nat :=
  if N.leb 48 c && N.leb c 57 then Some (N.to_nat (c - 48)) else None.

Fixpoint parseDigits (s : jsstring) (acc : nat) : nat :=
  match s with
  | c :: s' => match digitValue c with
               | Some d => parseDigits s' (10 * acc + d)
               | None => acc
               end
  | [] => acc
  end.

Definition parseInt (s : jsstring) : option nat :=
  match trimStart s with
  | c :: _ => match digitValue c with
              | Some _ => Some (parseDigits (trimStart s) 0)
              | None => None
              end
  | [] => None
  end.

(** [String.prototype.toLowerCase] on text written in Basic Latin: the
    letters A-Z move to a-z and nothing else changes.  (On other code
    units the host applies the Unicode case mapping, which the checkers
    take as given.) *)
Definition toLowerCaseBasicLatin (s : jsstring) : jsstring :=
  map (fun c => if N.leb 65 c && N.leb c 90 then (c + 32)%N else c) s.

(** LINE FEED. *)
Definition LF : jsstring := [10%N].

End JS.

Export JS.

Open Scope string_scope.
Open Scope list_scope.

Notation "$ s" := (lit s) (at level 1, s at level 0, format "$ s").

(* ================================================================== *)
(** * Regular expressions *)
(* ================================================================== *)

(** The patterns the checkers use: literals, character classes, greedy and
    lazy repetition of a class, and a single capturing group.  Matching is
    the ECMAScript backtracking discipline: leftmost start, alternatives
    tried in priority order (greedy: longest first, lazy: shortest first). *)

Module Regex.

Inductive regex : Type :=
| Chr (c : char)                     (* a literal code unit *)
| Cls (p : char -> bool)             (* a class, one code unit *)
| Star (p : char -> bool)            (* class*   *)
| StarLazy (p : char -> bool)        (* class*?  *)
| Plus (p : char -> bool)            (* class+   *)
| Seq (r1 r2 : regex)
| Group (r : regex).                 (* ( ... ), capture 1 *)

(** The state handed to a continuation: the rest of the input after what
    was consumed, and capture 1 if the group has been closed. *)
Definition cont (A : Type) := jsstring -> option jsstring -> option A.

Section Repeat.
Context {A : Type}.
Variable p : char -> bool.

Fixpoint greedy (s : jsstring) (k : jsstring -> option A) : option A :=
  match s with
  | c :: s' =>
      if p c then
        match greedy s' k with
        | Some r => Some r
        | None => k s
        end
      else k s
  | [] => k s
  end.

Fixpoint lazy (s : jsstring) (k : jsstring -> option A) : option A :=
  match k s with
  | Some r => Some r
  | None =>
      match s with
      | c :: s' => if p c then lazy s' k else None
      | [] => None
      end
  end.
End Repeat.

Fixpoint run {A : Type} (r : regex) (s : jsstring) (cap : option jsstring)
         (k : cont A) : option A :=
  match r with
  | Chr c =>
      match s with
      | x :: s' => if N.eqb x c then k s' cap else None
      | [] => None
      end
  | Cls p =>
      match s with
      | x :: s' => if p x then k s' cap else None
      | [] => None
      end
  | Star p => greedy p s (fun s' => k s' cap)
  | StarLazy p => lazy p s (fun s' => k s' cap)
  | Plus p =>
      match s with
      | x :: s' => if p x then greedy p s' (fun s'' => k s'' cap) else None
      | [] => None
      end
  | Seq r1 r2 => run r1 s cap (fun s1 cap1 => run r2 s1 cap1 k)
  | Group r0 =>
      run r0 s cap (fun s' _ => k s' (Some (firstn (strlen s - strlen s') s)))
  end.

(** A successful match: [m[0]], capture 1 and the input left after the
    match. *)
Record found := { whole : jsstring; capture1 : option jsstring; rest : jsstring }.

Definition matchAt (s : jsstring) (r : regex) : option found :=
  run r s None
      (fun s' cap => Some {| whole := firstn (strlen s - strlen s') s;
                             capture1 := cap;
                             rest := s' |}).

(** [s.match(r)] without the [g] flag: the leftmost match. *)
Fixpoint exec (s : jsstring) (r : regex) : option found :=
  match matchAt s r with
  | Some m => Some m
  | None =>
      match s with
      | [] => None
      | _ :: s' => exec s' r
      end
  end.

(** Truthiness of [s.match(r)]. *)
Definition matches (s : jsstring) (r : regex) : bool :=
  match exec s r with
  | Some _ => true
  | None => false
  end.

(** [m[1]] of a successful match whose group took part. *)
Definition group1 (m : found) : jsstring :=
  match capture1 m with Some c => c | None => [] end.

(** [(s.match(r_with_g_flag) || []).length]: successive non-overlapping
    matches; after an empty match the scan moves on by one code unit. *)
Fixpoint countAll (fuel : nat) (s : jsstring) (r : regex) : nat :=
  match fuel with
  | O => 0
  | S fuel' =>
      match exec s r with
      | None => 0
      | Some m =>
          match whole m, rest m with
          | [], [] => 1
          | [], _ :: next => S (countAll fuel' next r)
          | _ :: _, next => S (countAll fuel' next r)
          end
      end
  end.

Definition matchCount (s : jsstring) (r : regex) : nat :=
  countAll (S (strlen s)) s r.

(** Building blocks. *)
Fixpoint str (s : jsstring) : regex :=
  match s with
  | [] => Star (fun _ => false)
  | [c] => Chr c
  | c :: s' => Seq (Chr c) (str s')
  end.

Definition oneOf (cs : jsstring) : char -> bool :=
  fun c => existsb (N.eqb c) cs.

Definition noneOf (cs : jsstring) : char -> bool :=
  fun c => negb (oneOf cs c).

Definition between (lo hi : ascii) : char -> bool :=
  fun c => N.leb (chr lo) c && N.leb c (chr hi).

(** [.] *)
Definition dot : char -> bool := fun c => negb (isLineTerminator c).

(** A Basic Latin letter under the [i] flag. Canonicalisation never maps
    a code unit above 127 onto one below 128, so only the two ASCII cases
    of the letter match. *)
Definition ci (a : ascii) : regex :=
  let c := chr a in
  if N.leb 97 c && N.leb c 122 then Cls (fun x => N.eqb x c || N.eqb x (c - 32))
  else if N.leb 65 c && N.leb c 90 then Cls (fun x => N.eqb x c || N.eqb x (c + 32))
  else Chr c.

Fixpoint str_ci (s : list ascii) : regex :=
  match s with
  | [] => Star (fun _ => false)
  | [a] => ci a
  | a :: s' => Seq (ci a) (str_ci s')
  end.

Fixpoint sequence (rs : list regex) : regex :=
  match rs with
  | [] => Star (fun _ => false)
  | [r] => r
  | r :: rs' => Seq r (sequence rs')
  end.

End Regex.

Import Regex.

(** The class of the two quote characters. *)
Definition quote : char -> bool := oneOf [dquote; squote].

(* ================================================================== *)
(** * Issues *)
(* ================================================================== *)

(** [vscode.Range(startLine, startCharacter, endLine, endCharacter)]. *)
Record Range := mkRange {
  startLine : nat;
  startCharacter : nat;
  endLine : nat;
  endCharacter : nat
}.

(** [interface AccessibilityIssue] of accessibilityChecker.ts. *)
Record AccessibilityIssue := {
  line : nat;
  issue : jsstring;
  severity : jsstring;
  range : Range
}.

(** The loop every family runner ends with:
    [checks.forEach(check => { if (check) { issues.push(check); } })]
    run on an empty [issues] array. *)
Definition pushChecks (checks : list (option AccessibilityIssue))
  : list AccessibilityIssue :=
  fold_left
    (fun issues check =>
       match check with
       | Some found_issue => issues ++ [found_issue]
       | None => issues
       end)
    checks [].

(* ================================================================== *)
(** * Image family (class ImageChecker, imageChecker.ts) *)
(* ================================================================== *)

Module ImageChecker.

Definition checkImageAltAttributes (line : jsstring) (lineNumber : nat)
  : option AccessibilityIssue :=
  let trimmedLine := trim line in
  if includes trimmedLine $"<img" && negb (includes trimmedLine $"alt=") then
    let range := mkRange lineNumber 0 lineNumber (strlen line) in
    Some {| line := lineNumber + 1;
            issue := $"Missing alt attribute on image....";
            severity := $"HIGH";
            range := range |}
  else None.

Definition checkEmptyAltAttributes (line : jsstring) (lineNumber : nat)
  : option AccessibilityIssue :=
  let trimmedLine := trim line in
  if includes trimmedLine $"alt=~~" || includes trimmedLine $"alt=''" then
    let range := mkRange lineNumber 0 lineNumber (strlen line) in
    Some {| line := lineNumber + 1;
            issue := $"Empty alt attribute - consider if image is decorative or needs description";
            severity := $"MEDIUM";
            range := range |}
  else None.

Definition checkImages (line : jsstring) (lineNumber : nat)
  : list AccessibilityIssue :=
  let checks := [
    checkImageAltAttributes line lineNumber;
    checkEmptyAltAttributes line lineNumber
  ] in
  pushChecks checks.

End ImageChecker.

(* ================================================================== *)
(** * Form family (formElementsChecker.ts) *)
(* ================================================================== *)

Module FormElementsChecker.

Definition checkFormInputLabels (line : jsstring) (lineNumber : nat)
  : option AccessibilityIssue :=
  let trimmedLine := trim line in
  if (includes trimmedLine $"<input" || includes trimmedLine $"<textarea"
      || includes trimmedLine $"<select")
     && negb (includes trimmedLine $"aria-label")
     && negb (includes trimmedLine $"aria-labelledby")
     && negb (includes trimmedLine $"id=")
     && negb (includes trimmedLine $"placeholder=") then
    let range := mkRange lineNumber 0 lineNumber (strlen line) in
    Some {| line := lineNumber + 1;
            issue := $"Form input missing label, aria-label, or aria-labelledby";
            severity := $"HIGH";
            range := range |}
  else None.

Definition checkFormLabels (line : jsstring) (lineNumber : nat)
  : option AccessibilityIssue :=
  let trimmedLine := trim line in
  if includes trimmedLine $"<label" && negb (includes trimmedLine $"for=") then
    let range := mkRange lineNumber 0 lineNumber (strlen line) in
    Some {| line := lineNumber + 1;
            issue := $"Label element missing for attribute";
            severity := $"MEDIUM";
            range := range |}
  else None.

Definition checkFormElements (line : jsstring) (lineNumber : nat)
  : list AccessibilityIssue :=
  let checks := [
    checkFormInputLabels line lineNumber;
    checkFormLabels line lineNumber
  ] in
  pushChecks checks.

End FormElementsChecker.

(* ================================================================== *)
(** * "Other" family (otherAccessibilityChecker.ts) *)
(* ================================================================== *)

Module OtherAccessibilityChecker.

Definition checkHeadingStructure (line : jsstring) (lineNumber : nat)
           (fullText : jsstring) : option AccessibilityIssue :=
  let trimmedLine := trim line in
  if includes trimmedLine $"<h1>" || includes trimmedLine $"<h2>"
     || includes trimmedLine $"<h3>" || includes trimmedLine $"<h4>"
     || includes trimmedLine $"<h5>" || includes trimmedLine $"<h6>" then
    if includes trimmedLine $"<h1>" && negb (includes fullText $"<h1>") then
      let range := mkRange lineNumber 0 lineNumber (strlen line) in
      Some {| line := lineNumber + 1;
              issue := $"Multiple h1 tags found - page should have only one h1";
              severity := $"MEDIUM";
              range := range |}
    else None
  else None.

Definition checkHtmlLangAttribute (line : jsstring) (lineNumber : nat)
  : option AccessibilityIssue :=
  let trimmedLine := trim line in
  if includes trimmedLine $"<html" && negb (includes trimmedLine $"lang=") then
    let range := mkRange lineNumber 0 lineNumber (strlen line) in
    Some {| line := lineNumber + 1;
            issue := $"Missing lang attribute on html tag";
            severity := $"HIGH";
            range := range |}
  else None.

Definition checkKeyboardAccessibility (line : jsstring) (lineNumber : nat)
  : option AccessibilityIssue :=
  let trimmedLine := trim line in
  if (includes trimmedLine $"<div" || includes trimmedLine $"<span")
     && includes trimmedLine $"onclick"
     && negb (includes trimmedLine $"tabindex")
     && negb (includes trimmedLine $"role=") then
    let range := mkRange lineNumber 0 lineNumber (strlen line) in
    Some {| line := lineNumber + 1;
            issue := $"Clickable div/span without keyboard accessibility - add tabindex and role";
            severity := $"HIGH";
            range := range |}
  else None.

Definition checkColorOnlyInformation (line : jsstring) (lineNumber : nat)
  : option AccessibilityIssue :=
  let trimmedLine := trim line in
  if includes trimmedLine $"color:" || includes trimmedLine $"background-color:" then
    let range := mkRange lineNumber 0 lineNumber (strlen line) in
    Some {| line := lineNumber + 1;
            issue := $"Color styling detected - ensure information is not conveyed by color alone";
            severity := $"LOW";
            range := range |}
  else None.

Definition checkFocusIndicators (line : jsstring) (lineNumber : nat)
  : option AccessibilityIssue :=
  let trimmedLine := trim line in
  if includes trimmedLine $":focus" && includes trimmedLine $"outline: none" then
    let range := mkRange lineNumber 0 lineNumber (strlen line) in
    Some {| line := lineNumber + 1;
            issue := $"Focus outline removed without alternative focus indicator";
            severity := $"HIGH";
            range := range |}
  else None.

Definition checkOtherAccessibility (line : jsstring) (lineNumber : nat)
           (fullText : jsstring) : list AccessibilityIssue :=
  let checks := [
    checkHeadingStructure line lineNumber fullText;
    checkHtmlLangAttribute line lineNumber;
    checkKeyboardAccessibility line lineNumber;
    checkColorOnlyInformation line lineNumber;
    checkFocusIndicators line lineNumber
  ] in
  pushChecks checks.

End OtherAccessibilityChecker.

(* ================================================================== *)
(** * ARIA label and role family (ariaLabelRoleChecker.ts) *)
(* ================================================================== *)

(** [/^\s*$/.test(s)] *)
Definition isBlank (s : jsstring) : bool := forallb isWhiteSpace s.

(** [/name=[~']([^~']+)[~']/] for an attribute [name] (with [~] for the
    double quote, as in the literals). *)
Definition quotedAttribute (name : jsstring) : regex :=
  sequence [str (name ++ $"="); Cls quote; Group (Plus (fun c => negb (quote c))); Cls quote].

(** [/<button[^>]*>(.*?)<\/button>/] *)
Definition re_button_content : regex :=
  sequence [str $"<button"; Star (noneOf $">"); Chr (chr ">");
       Group (StarLazy dot); str $"</button>"].

(** [/<a[^>]*>(.*?)<\/a>/] *)
Definition re_link_content : regex :=
  sequence [str $"<a"; Star (noneOf $">"); Chr (chr ">");
       Group (StarLazy dot); str $"</a>"].

(** [/>([^<]+)</] *)
Definition re_text_between_tags : regex :=
  sequence [Chr (chr ">"); Group (Plus (noneOf $"<")); Chr (chr "<")].

Module AriaLabelRoleChecker.

Definition VALID_ROLES : list jsstring := [
  $"alert"; $"alertdialog"; $"application"; $"article"; $"banner"; $"button"; $"cell"; $"checkbox";
  $"columnheader"; $"combobox"; $"complementary"; $"contentinfo"; $"definition"; $"dialog"; $"directory";
  $"document"; $"feed"; $"figure"; $"form"; $"grid"; $"gridcell"; $"group"; $"heading"; $"img"; $"link";
  $"list"; $"listbox"; $"listitem"; $"log"; $"main"; $"marquee"; $"math"; $"menu"; $"menubar"; $"menuitem";
  $"menuitemcheckbox"; $"menuitemradio"; $"navigation"; $"none"; $"note"; $"option"; $"presentation";
  $"progressbar"; $"radio"; $"radiogroup"; $"region"; $"row"; $"rowgroup"; $"rowheader"; $"scrollbar";
  $"search"; $"separator"; $"slider"; $"spinbutton"; $"status"; $"switch"; $"tab"; $"table"; $"tablist";
  $"tabpanel"; $"textbox"; $"timer"; $"toolbar"; $"tooltip"; $"tree"; $"treegrid"; $"treeitem"
].

Definition INTERACTIVE_ELEMENTS : list jsstring := [
  $"button"; $"input"; $"select"; $"textarea"; $"a"; $"area"; $"summary"
].

Definition SEMANTIC_ELEMENTS : list jsstring := [
  $"button"; $"input"; $"select"; $"textarea"; $"a"; $"nav"; $"main"; $"header"; $"footer";
  $"section"; $"article"; $"aside"
].

Definition checkMissingAriaLabel (line : jsstring) (lineNumber : nat)
  : option AccessibilityIssue :=
  let trimmedLine := trim line in
  let hasInteractiveElement :=
    existsb (fun element =>
               includes trimmedLine ($"<" ++ element)
               || includes trimmedLine ($"<" ++ element ++ $" "))
            INTERACTIVE_ELEMENTS in
  if hasInteractiveElement then
    let hasAriaLabel :=
      includes trimmedLine $"aria-label" || includes trimmedLine $"aria-labelledby" in
    let hasTitle := includes trimmedLine $"title=" in
    let hasAlt := includes trimmedLine $"alt=" in
    let hasVisibleText := false in
    let hasVisibleText :=
      if includes trimmedLine $"<button" then
        match exec trimmedLine re_button_content with
        | Some buttonMatch =>
            if Nat.ltb 0 (strlen (trim (group1 buttonMatch))) then true
            else hasVisibleText
        | None => hasVisibleText
        end
      else hasVisibleText in
    let hasVisibleText :=
      if includes trimmedLine $"<a" then
        match exec trimmedLine re_link_content with
        | Some linkMatch =>
            if Nat.ltb 0 (strlen (trim (group1 linkMatch))) then true
            else hasVisibleText
        | None => hasVisibleText
        end
      else hasVisibleText in
    let hasAccessibleName := hasAriaLabel || hasTitle || hasAlt || hasVisibleText in
    if negb hasAccessibleName then
      let range := mkRange lineNumber 0 lineNumber (strlen line) in
      Some {| line := lineNumber + 1;
              issue := $"Interactive element missing accessible name (aria-label, aria-labelledby, or visible text)";
              severity := $"HIGH";
              range := range |}
    else None
  else None.

Definition checkEmptyAriaLabel (line : jsstring) (lineNumber : nat)
  : option AccessibilityIssue :=
  let trimmedLine := trim line in
  if includes trimmedLine $"aria-label=~~" || includes trimmedLine $"aria-label=''"
     || includes trimmedLine $"aria-label=~ ~" || includes trimmedLine $"aria-label=' '" then
    let range := mkRange lineNumber 0 lineNumber (strlen line) in
    Some {| line := lineNumber + 1;
            issue := $"Empty or whitespace-only aria-label provides no accessible name";
            severity := $"HIGH";
            range := range |}
  else None.

Definition checkRedundantAriaLabel (line : jsstring) (lineNumber : nat)
  : option AccessibilityIssue :=
  let trimmedLine := trim line in
  if (includes trimmedLine $"<button" || includes trimmedLine $"<a")
     && includes trimmedLine $"aria-label"
     && includes trimmedLine $">"
     && includes trimmedLine $"</" then
    match exec trimmedLine re_text_between_tags with
    | Some textMatch =>
        if Nat.ltb 0 (strlen (trim (group1 textMatch))) then
          let range := mkRange lineNumber 0 lineNumber (strlen line) in
          Some {| line := lineNumber + 1;
                  issue := $"Redundant aria-label when visible text already provides accessible name";
                  severity := $"MEDIUM";
                  range := range |}
        else None
    | None => None
    end
  else None.

Section CaseMapping.

(** [String.prototype.toLowerCase], the host's Unicode case mapping. *)
Variable toLowerCase : jsstring -> jsstring.

Definition checkInvalidRole (line : jsstring) (lineNumber : nat)
  : option AccessibilityIssue :=
  let trimmedLine := trim line in
  if includes trimmedLine $"role=" then
    match exec trimmedLine (quotedAttribute $"role") with
    | Some roleMatch =>
        let role := toLowerCase (group1 roleMatch) in
        if negb (existsb (jseq role) VALID_ROLES) then
          let range := mkRange lineNumber 0 lineNumber (strlen line) in
          Some {| line := lineNumber + 1;
                  issue := $"Invalid ARIA role ~" ++ role ++ $"~ - not a valid ARIA role";
                  severity := $"HIGH";
                  range := range |}
        else None
    | None => None
    end
  else None.

Definition checkRedundantRole (line : jsstring) (lineNumber : nat)
  : option AccessibilityIssue :=
  let trimmedLine := trim line in
  if includes trimmedLine $"role=" then
    match exec trimmedLine (quotedAttribute $"role") with
    | Some roleMatch =>
        let role := toLowerCase (group1 roleMatch) in
        if (includes trimmedLine $"<button" && jseq role $"button")
           || (includes trimmedLine $"<nav" && jseq role $"navigation")
           || (includes trimmedLine $"<main" && jseq role $"main")
           || (includes trimmedLine $"<header" && jseq role $"banner")
           || (includes trimmedLine $"<footer" && jseq role $"contentinfo")
           || (includes trimmedLine $"<section" && jseq role $"region")
           || (includes trimmedLine $"<article" && jseq role $"article")
           || (includes trimmedLine $"<aside" && jseq role $"complementary") then
          let range := mkRange lineNumber 0 lineNumber (strlen line) in
          Some {| line := lineNumber + 1;
                  issue := $"Redundant role=~" ++ role
                           ++ $"~ on semantic element - element already has implicit role";
                  severity := $"LOW";
                  range := range |}
        else None
    | None => None
    end
  else None.

Definition checkIncorrectAriaExpanded (line : jsstring) (lineNumber : nat)
  : option AccessibilityIssue :=
  let trimmedLine := trim line in
  if includes trimmedLine $"aria-expanded=" then
    match exec trimmedLine (quotedAttribute $"aria-expanded") with
    | Some expandedMatch =>
        let value := toLowerCase (group1 expandedMatch) in
        if negb (jseq value $"true") && negb (jseq value $"false") then
          let range := mkRange lineNumber 0 lineNumber (strlen line) in
          Some {| line := lineNumber + 1;
                  issue := $"Invalid aria-expanded value ~" ++ value
                           ++ $"~ - must be ~true~ or ~false~";
                  severity := $"HIGH";
                  range := range |}
        else None
    | None => None
    end
  else None.

End CaseMapping.

Definition checkMissingAriaLabelledbyReference (line : jsstring) (lineNumber : nat)
           (fullText : jsstring) : option AccessibilityIssue :=
  let trimmedLine := trim line in
  if includes trimmedLine $"aria-labelledby=" then
    match exec trimmedLine (quotedAttribute $"aria-labelledby") with
    | Some labelledbyMatch =>
        let referencedId := group1 labelledbyMatch in
        if negb (includes fullText ($"id=~" ++ referencedId ++ $"~"))
           && negb (includes fullText ($"id='" ++ referencedId ++ $"'")) then
          let range := mkRange lineNumber 0 lineNumber (strlen line) in
          Some {| line := lineNumber + 1;
                  issue := $"aria-labelledby references non-existent element with id=~"
                           ++ referencedId ++ $"~";
                  severity := $"HIGH";
                  range := range |}
        else None
    | None => None
    end
  else None.

Definition checkMissingAriaDescribedbyReference (line : jsstring) (lineNumber : nat)
           (fullText : jsstring) : option AccessibilityIssue :=
  let trimmedLine := trim line in
  if includes trimmedLine $"aria-describedby=" then
    match exec trimmedLine (quotedAttribute $"aria-describedby") with
    | Some describedbyMatch =>
        let referencedId := group1 describedbyMatch in
        if negb (includes fullText ($"id=~" ++ referencedId ++ $"~"))
           && negb (includes fullText ($"id='" ++ referencedId ++ $"'")) then
          let range := mkRange lineNumber 0 lineNumber (strlen line) in
          Some {| line := lineNumber + 1;
                  issue := $"aria-describedby references non-existent element with id=~"
                           ++ referencedId ++ $"~";
                  severity := $"HIGH";
                  range := range |}
        else None
    | None => None
    end
  else None.

Definition checkMissingAriaExpanded (line : jsstring) (lineNumber : nat)
  : option AccessibilityIssue :=
  let trimmedLine := trim line in
  if (includes trimmedLine $"role=~button~" || includes trimmedLine $"role=~menuitem~")
     && includes trimmedLine $"onclick"
     && negb (includes trimmedLine $"aria-expanded") then
    let range := mkRange lineNumber 0 lineNumber (strlen line) in
    Some {| line := lineNumber + 1;
            issue := $"Collapsible element missing aria-expanded attribute";
            severity := $"MEDIUM";
            range := range |}
  else None.

Definition checkMissingAriaHiddenOnDecorative (line : jsstring) (lineNumber : nat)
  : option AccessibilityIssue :=
  let trimmedLine := trim line in
  if includes trimmedLine $"<img"
     && (includes trimmedLine $"decorative" || includes trimmedLine $"ornament"
         || includes trimmedLine $"spacer" || includes trimmedLine $"divider")
     && negb (includes trimmedLine $"aria-hidden=~true~") then
    let range := mkRange lineNumber 0 lineNumber (strlen line) in
    Some {| line := lineNumber + 1;
            issue := $"Decorative image should have aria-hidden=~true~";
            severity := $"MEDIUM";
            range := range |}
  else None.

Definition checkConflictingAriaHiddenAndRole (line : jsstring) (lineNumber : nat)
  : option AccessibilityIssue :=
  let trimmedLine := trim line in
  if includes trimmedLine $"aria-hidden=~true~" && includes trimmedLine $"role=" then
    let range := mkRange lineNumber 0 lineNumber (strlen line) in
    Some {| line := lineNumber + 1;
            issue := $"Element with aria-hidden=~true~ should not have a role attribute";
            severity := $"HIGH";
            range := range |}
  else None.

Definition checkMissingAriaDisabled (line : jsstring) (lineNumber : nat)
  : option AccessibilityIssue :=
  let trimmedLine := trim line in
  if (includes trimmedLine $"disabled" || includes trimmedLine $"readonly")
     && negb (includes trimmedLine $"aria-disabled")
     && (includes trimmedLine $"<input" || includes trimmedLine $"<button"
         || includes trimmedLine $"<select") then
    let range := mkRange lineNumber 0 lineNumber (strlen line) in
    Some {| line := lineNumber + 1;
            issue := $"Disabled element should have aria-disabled=~true~ for screen readers";
            severity := $"MEDIUM";
            range := range |}
  else None.

Definition checkMissingAriaRequired (line : jsstring) (lineNumber : nat)
  : option AccessibilityIssue :=
  let trimmedLine := trim line in
  if (includes trimmedLine $"required" || includes trimmedLine $"aria-required=~true~")
     && negb (includes trimmedLine $"aria-required")
     && (includes trimmedLine $"<input" || includes trimmedLine $"<select"
         || includes trimmedLine $"<textarea") then
    let range := mkRange lineNumber 0 lineNumber (strlen line) in
    Some {| line := lineNumber + 1;
            issue := $"Required form element should have aria-required=~true~";
            severity := $"MEDIUM";
            range := range |}
  else None.

Definition checkMissingAriaInvalid (line : jsstring) (lineNumber : nat)
  : option AccessibilityIssue :=
  let trimmedLine := trim line in
  if (includes trimmedLine $"error" || includes trimmedLine $"invalid"
      || includes trimmedLine $"class=~error~")
     && negb (includes trimmedLine $"aria-invalid")
     && (includes trimmedLine $"<input" || includes trimmedLine $"<select"
         || includes trimmedLine $"<textarea") then
    let range := mkRange lineNumber 0 lineNumber (strlen line) in
    Some {| line := lineNumber + 1;
            issue := $"Form element with validation error should have aria-invalid=~true~";
            severity := $"MEDIUM";
            range := range |}
  else None.

Definition checkEmptyButtonElements (line : jsstring) (lineNumber : nat)
  : option AccessibilityIssue :=
  let trimmedLine := trim line in
  if includes trimmedLine $"<button" && includes trimmedLine $"</button>" then
    match exec trimmedLine re_button_content with
    | Some buttonMatch =>
        let content := trim (group1 buttonMatch) in
        if Nat.eqb (strlen content) 0 || isBlank content then
          let hasAccessibleName :=
            includes trimmedLine $"aria-label"
            || includes trimmedLine $"aria-labelledby"
            || includes trimmedLine $"title=" in
          if negb hasAccessibleName then
            let range := mkRange lineNumber 0 lineNumber (strlen line) in
            Some {| line := lineNumber + 1;
                    issue := $"Empty button element needs accessible name (aria-label, aria-labelledby, or visible text)";
                    severity := $"HIGH";
                    range := range |}
          else None
        else None
    | None => None
    end
  else None.

Definition checkAriaLabelAndRole (toLowerCase : jsstring -> jsstring)
           (line : jsstring) (lineNumber : nat) (fullText : jsstring)
  : list AccessibilityIssue :=
  let checks := [
    checkMissingAriaLabel line lineNumber;
    checkEmptyAriaLabel line lineNumber;
    checkRedundantAriaLabel line lineNumber;
    checkInvalidRole toLowerCase line lineNumber;
    checkRedundantRole toLowerCase line lineNumber;
    checkMissingAriaLabelledbyReference line lineNumber fullText;
    checkMissingAriaDescribedbyReference line lineNumber fullText;
    checkMissingAriaExpanded line lineNumber;
    checkIncorrectAriaExpanded toLowerCase line lineNumber;
    checkMissingAriaHiddenOnDecorative line lineNumber;
    checkConflictingAriaHiddenAndRole line lineNumber;
    checkMissingAriaDisabled line lineNumber;
    checkMissingAriaRequired line lineNumber;
    checkMissingAriaInvalid line lineNumber;
    checkEmptyButtonElements line lineNumber
  ] in
  pushChecks checks.

End AriaLabelRoleChecker.

(* ================================================================== *)
(** * Tab index family (tabIndexChecker.ts) *)
(* ================================================================== *)

(** A detector body is a sequence of [if (...) { return issue; }] blocks
    closed by [return null]: the first block that returns decides. *)
Definition returning {A : Type} (block rest_of_body : option A) : option A :=
  match block with
  | Some result => Some result
  | None => rest_of_body
  end.

Definition digit : char -> bool := between "0" "9".

(** [/tabindex=[~'](-[0-9]+)[~']/] *)
Definition re_negative_tabindex : regex :=
  sequence [str $"tabindex="; Cls quote;
       Group (Seq (Chr (chr "-")) (Plus digit)); Cls quote].

(** [/tabindex=[~'](N)[~']/] where the group [N] is [[1-9][0-9]*]. *)
Definition re_positive_tabindex : regex :=
  sequence [str $"tabindex="; Cls quote;
       Group (Seq (Cls (between "1" "9")) (Star digit)); Cls quote].

Module TabIndexChecker.

Definition NATURALLY_FOCUSABLE : list jsstring := [
  $"button"; $"input"; $"select"; $"textarea"; $"a"; $"area"; $"summary"; $"details"
].

Definition NON_FOCUSABLE : list jsstring := [
  $"div"; $"span"; $"p"; $"h1"; $"h2"; $"h3"; $"h4"; $"h5"; $"h6"; $"img"; $"br"; $"hr"
].

Definition SHOULD_BE_FOCUSABLE : list jsstring := [
  $"div[role=~button~]"; $"div[role=~link~]"; $"div[role=~menuitem~]";
  $"div[role=~tab~]"; $"div[role=~option~]"; $"div[role=~checkbox~]";
  $"span[role=~button~]"; $"span[role=~link~]"; $"span[role=~menuitem~]";
  $"span[role=~tab~]"; $"span[role=~option~]"; $"span[role=~checkbox~]"
].

Definition checkNegativeTabIndex (line : jsstring) (lineNumber : nat)
  : option AccessibilityIssue :=
  let trimmedLine := trim line in
  match exec trimmedLine re_negative_tabindex with
  | Some negativeTabIndexMatch =>
      let tabIndexValue := group1 negativeTabIndexMatch in
      let range := mkRange lineNumber 0 lineNumber (strlen line) in
      Some {| line := lineNumber + 1;
              issue := $"Negative tabindex=~" ++ tabIndexValue
                       ++ $"~ removes element from tab order - ensure this is intentional";
              severity := $"HIGH";
              range := range |}
  | None => None
  end.

Definition checkTabIndexZeroOnNonInteractive (line : jsstring) (lineNumber : nat)
  : option AccessibilityIssue :=
  let trimmedLine := trim line in
  if includes trimmedLine $"tabindex=~0~" || includes trimmedLine $"tabindex='0'" then
    let isNonInteractive :=
      existsb (fun element =>
                 includes trimmedLine ($"<" ++ element)
                 && negb (includes trimmedLine $"role="))
              NON_FOCUSABLE in
    if isNonInteractive then
      let range := mkRange lineNumber 0 lineNumber (strlen line) in
      Some {| line := lineNumber + 1;
              issue := $"Non-interactive element with tabindex=~0~ - add role attribute or use semantic element";
              severity := $"HIGH";
              range := range |}
    else None
  else None.

Definition checkMissingTabIndexOnCustomInteractive (line : jsstring) (lineNumber : nat)
  : option AccessibilityIssue :=
  let trimmedLine := trim line in
  let hasInteractiveRole :=
    includes trimmedLine $"role=~button~"
    || includes trimmedLine $"role=~link~"
    || includes trimmedLine $"role=~menuitem~"
    || includes trimmedLine $"role=~tab~"
    || includes trimmedLine $"role=~option~"
    || includes trimmedLine $"role=~checkbox~" in
  if hasInteractiveRole && negb (includes trimmedLine $"tabindex=") then
    let range := mkRange lineNumber 0 lineNumber (strlen line) in
    Some {| line := lineNumber + 1;
            issue := $"Custom interactive element missing tabindex - add tabindex=~0~ for keyboard accessibility";
            severity := $"HIGH";
            range := range |}
  else None.

Definition checkRedundantTabIndexOnFocusable (line : jsstring) (lineNumber : nat)
  : option AccessibilityIssue :=
  let trimmedLine := trim line in
  let isNaturallyFocusable :=
    existsb (fun element => includes trimmedLine ($"<" ++ element))
            NATURALLY_FOCUSABLE in
  if isNaturallyFocusable && includes trimmedLine $"tabindex=" then
    let range := mkRange lineNumber 0 lineNumber (strlen line) in
    Some {| line := lineNumber + 1;
            issue := $"Redundant tabindex on naturally focusable element - remove unless changing tab order";
            severity := $"MEDIUM";
            range := range |}
  else None.

Definition checkPositiveTabIndex (line : jsstring) (lineNumber : nat)
  : option AccessibilityIssue :=
  let trimmedLine := trim line in
  match exec trimmedLine re_positive_tabindex with
  | Some positiveTabIndexMatch =>
      let tabIndexValue := group1 positiveTabIndexMatch in
      let range := mkRange lineNumber 0 lineNumber (strlen line) in
      Some {| line := lineNumber + 1;
              issue := $"Positive tabindex=~" ++ tabIndexValue
                       ++ $"~ disrupts natural tab order - use tabindex=~0~ or negative values only";
              severity := $"MEDIUM";
              range := range |}
  | None => None
  end.

Definition checkMissingTabIndexOnClickable (line : jsstring) (lineNumber : nat)
  : option AccessibilityIssue :=
  let trimmedLine := trim line in
  if (includes trimmedLine $"onclick" || includes trimmedLine $"onkeydown")
     && negb (includes trimmedLine $"tabindex=")
     && (includes trimmedLine $"<div" || includes trimmedLine $"<span") then
    let range := mkRange lineNumber 0 lineNumber (strlen line) in
    Some {| line := lineNumber + 1;
            issue := $"Clickable element missing tabindex - add tabindex=~0~ for keyboard accessibility";
            severity := $"MEDIUM";
            range := range |}
  else None.

Definition checkDisabledElementWithTabIndex (line : jsstring) (lineNumber : nat)
  : option AccessibilityIssue :=
  let trimmedLine := trim line in
  if (includes trimmedLine $"disabled" || includes trimmedLine $"aria-disabled=~true~")
     && includes trimmedLine $"tabindex=" then
    let range := mkRange lineNumber 0 lineNumber (strlen line) in
    Some {| line := lineNumber + 1;
            issue := $"Disabled element should not be focusable - remove tabindex or use tabindex=~-1~";
            severity := $"MEDIUM";
            range := range |}
  else None.

Definition checkTabIndexOnHiddenElement (line : jsstring) (lineNumber : nat)
  : option AccessibilityIssue :=
  let trimmedLine := trim line in
  if (includes trimmedLine $"hidden" || includes trimmedLine $"aria-hidden=~true~"
      || includes trimmedLine $"style=~display: none~"
      || includes trimmedLine $"style=~visibility: hidden~")
     && includes trimmedLine $"tabindex=" then
    let range := mkRange lineNumber 0 lineNumber (strlen line) in
    Some {| line := lineNumber + 1;
            issue := $"Hidden element should not be focusable - remove tabindex or use tabindex=~-1~";
            severity := $"MEDIUM";
            range := range |}
  else None.

Definition checkTabIndexOnDecorativeElement (line : jsstring) (lineNumber : nat)
  : option AccessibilityIssue :=
  let trimmedLine := trim line in
  if (includes trimmedLine $"decorative" || includes trimmedLine $"ornament"
      || includes trimmedLine $"spacer" || includes trimmedLine $"divider")
     && includes trimmedLine $"tabindex=" then
    let range := mkRange lineNumber 0 lineNumber (strlen line) in
    Some {| line := lineNumber + 1;
            issue := $"Decorative element should not be focusable - remove tabindex or use tabindex=~-1~";
            severity := $"LOW";
            range := range |}
  else None.

Definition checkInconsistentTabIndexUsage (line : jsstring) (lineNumber : nat)
  : option AccessibilityIssue :=
  let trimmedLine := trim line in
  if includes trimmedLine $"tabindex=" then
    match exec trimmedLine (quotedAttribute $"tabindex") with
    | Some tabIndexMatch =>
        let tabIndexValue := group1 tabIndexMatch in
        if jseq tabIndexValue $"1" || jseq tabIndexValue $"2" || jseq tabIndexValue $"3" then
          let range := mkRange lineNumber 0 lineNumber (strlen line) in
          Some {| line := lineNumber + 1;
                  issue := $"Low positive tabindex=~" ++ tabIndexValue
                           ++ $"~ may cause confusion - consider using tabindex=~0~ or negative values";
                  severity := $"LOW";
                  range := range |}
        else None
    | None => None
    end
  else None.

Definition checkMissingTabIndexOnModalTrigger (line : jsstring) (lineNumber : nat)
  : option AccessibilityIssue :=
  let trimmedLine := trim line in
  if (includes trimmedLine $"data-toggle=~modal~"
      || includes trimmedLine $"data-bs-toggle=~modal~"
      || (includes trimmedLine $"onclick" && includes trimmedLine $"modal"))
     && negb (includes trimmedLine $"tabindex=")
     && (includes trimmedLine $"<div" || includes trimmedLine $"<span") then
    let range := mkRange lineNumber 0 lineNumber (strlen line) in
    Some {| line := lineNumber + 1;
            issue := $"Modal trigger element missing tabindex - add tabindex=~0~ for keyboard accessibility";
            severity := $"MEDIUM";
            range := range |}
  else None.

Definition checkTabIndexOnPresentationRole (line : jsstring) (lineNumber : nat)
  : option AccessibilityIssue :=
  let trimmedLine := trim line in
  if includes trimmedLine $"role=~presentation~" && includes trimmedLine $"tabindex=" then
    let range := mkRange lineNumber 0 lineNumber (strlen line) in
    Some {| line := lineNumber + 1;
            issue := $"Element with role=~presentation~ should not be focusable - remove tabindex";
            severity := $"HIGH";
            range := range |}
  else None.

Definition checkTabIndexOnNoneRole (line : jsstring) (lineNumber : nat)
  : option AccessibilityIssue :=
  let trimmedLine := trim line in
  if includes trimmedLine $"role=~none~" && includes trimmedLine $"tabindex=" then
    let range := mkRange lineNumber 0 lineNumber (strlen line) in
    Some {| line := lineNumber + 1;
            issue := $"Element with role=~none~ should not be focusable - remove tabindex";
            severity := $"HIGH";
            range := range |}
  else None.

Definition checkTabIndexOnAriaHidden (line : jsstring) (lineNumber : nat)
  : option AccessibilityIssue :=
  let trimmedLine := trim line in
  if includes trimmedLine $"aria-hidden=~true~" && includes trimmedLine $"tabindex=" then
    let range := mkRange lineNumber 0 lineNumber (strlen line) in
    Some {| line := lineNumber + 1;
            issue := $"Element with aria-hidden=~true~ should not be focusable - remove tabindex";
            severity := $"HIGH";
            range := range |}
  else None.

Definition checkMissingTabIndexOnCustomFormControl (line : jsstring) (lineNumber : nat)
  : option AccessibilityIssue :=
  let trimmedLine := trim line in
  if (includes trimmedLine $"role=~combobox~"
      || includes trimmedLine $"role=~slider~"
      || includes trimmedLine $"role=~spinbutton~")
     && negb (includes trimmedLine $"tabindex=") then
    let range := mkRange lineNumber 0 lineNumber (strlen line) in
    Some {| line := lineNumber + 1;
            issue := $"Custom form control missing tabindex - add tabindex=~0~ for keyboard accessibility";
            severity := $"MEDIUM";
            range := range |}
  else None.

Definition checkTabIndexOnNonInteractiveElement (line : jsstring) (lineNumber : nat)
  : option AccessibilityIssue :=
  let trimmedLine := trim line in
  if (includes trimmedLine $"<p" || includes trimmedLine $"<h1"
      || includes trimmedLine $"<h2" || includes trimmedLine $"<h3"
      || includes trimmedLine $"<h4" || includes trimmedLine $"<h5"
      || includes trimmedLine $"<h6" || includes trimmedLine $"<img")
     && includes trimmedLine $"tabindex="
     && negb (includes trimmedLine $"role=") then
    let range := mkRange lineNumber 0 lineNumber (strlen line) in
    Some {| line := lineNumber + 1;
            issue := $"Non-interactive element with tabindex - consider if this element should be focusable";
            severity := $"LOW";
            range := range |}
  else None.

Definition checkTabIndex (line : jsstring) (lineNumber : nat)
  : list AccessibilityIssue :=
  let checks := [
    (* HIGH priority - mandatory checks *)
    checkNegativeTabIndex line lineNumber;
    checkTabIndexZeroOnNonInteractive line lineNumber;
    checkMissingTabIndexOnCustomInteractive line lineNumber;
    checkTabIndexOnPresentationRole line lineNumber;
    checkTabIndexOnNoneRole line lineNumber;
    checkTabIndexOnAriaHidden line lineNumber;
    (* MEDIUM priority checks *)
    checkRedundantTabIndexOnFocusable line lineNumber;
    checkPositiveTabIndex line lineNumber;
    checkMissingTabIndexOnClickable line lineNumber;
    checkDisabledElementWithTabIndex line lineNumber;
    checkTabIndexOnHiddenElement line lineNumber;
    checkMissingTabIndexOnModalTrigger line lineNumber;
    checkMissingTabIndexOnCustomFormControl line lineNumber;
    (* LOW priority checks *)
    checkTabIndexOnDecorativeElement line lineNumber;
    checkInconsistentTabIndexUsage line lineNumber;
    checkTabIndexOnNonInteractiveElement line lineNumber
  ] in
  pushChecks checks.

End TabIndexChecker.

(* ================================================================== *)
(** * Semantic HTML family (semanticHtmlChecker.ts) *)
(* ================================================================== *)

(** [/<h1[^>]*>/g] *)
Definition re_h1_open : regex :=
  sequence [str $"<h1"; Star (noneOf $">"); Chr (chr ">")].

(** [/<h([1-6])[^>]*>/] *)
Definition re_heading_open : regex :=
  sequence [str $"<h"; Group (Cls (between "1" "6")); Star (noneOf $">"); Chr (chr ">")].

(** [/<button[^>]*>.*<\/button>/] *)
Definition re_button_element : regex :=
  sequence [str $"<button"; Star (noneOf $">"); Chr (chr ">"); Star dot; str $"</button>"].

(** [/<a[^>]*>.*<\/a>/] *)
Definition re_link_element : regex :=
  sequence [str $"<a"; Star (noneOf $">"); Chr (chr ">"); Star dot; str $"</a>"].

(** RIGHTWARDS ARROW, U+2192, of the heading message. *)
Definition arrow : jsstring := [8594%N].

(** [x > 1] on a number that may be NaN. *)
Definition greaterThanOne (x : option nat) : bool :=
  match x with
  | Some n => Nat.ltb 1 n
  | None => false
  end.

(** Interpolation of a number that may be NaN into a template literal. *)
Definition showNumber (x : option nat) : jsstring :=
  match x with
  | Some n => numberToString n
  | None => $"NaN"
  end.

Module SemanticHtmlChecker.

Definition checkHeadingHierarchy (line : jsstring) (lineNumber : nat)
           (fullText : jsstring) : option AccessibilityIssue :=
  let trimmedLine := trim line in
  returning
    (if includes trimmedLine $"<h1>" then
       let h1Count := matchCount fullText re_h1_open in
       if Nat.ltb 1 h1Count then
         let range := mkRange lineNumber 0 lineNumber (strlen line) in
         Some {| line := lineNumber + 1;
                 issue := $"Multiple h1 tags found - page should have only one h1 for proper document structure";
                 severity := $"HIGH";
                 range := range |}
       else None
     else None)
    (match exec trimmedLine re_heading_open with
     | Some headingMatch =>
         let currentLevel := parseInt (group1 headingMatch) in
         let range := mkRange lineNumber 0 lineNumber (strlen line) in
         if greaterThanOne currentLevel then
           Some {| line := lineNumber + 1;
                   issue := $"Heading h" ++ showNumber currentLevel
                            ++ $" detected - ensure proper heading hierarchy (h1 "
                            ++ arrow ++ $" h2 " ++ arrow ++ $" h3, etc.)";
                   severity := $"MEDIUM";
                   range := range |}
         else None
     | None => None
     end).

Definition checkHtmlLangAttribute (line : jsstring) (lineNumber : nat)
  : option AccessibilityIssue :=
  let trimmedLine := trim line in
  if includes trimmedLine $"<html" && negb (includes trimmedLine $"lang=") then
    let range := mkRange lineNumber 0 lineNumber (strlen line) in
    Some {| line := lineNumber + 1;
            issue := $"Missing lang attribute on html tag - required for screen readers and language detection";
            severity := $"HIGH";
            range := range |}
  else None.

Definition checkListStructure (line : jsstring) (lineNumber : nat)
  : option AccessibilityIssue :=
  let trimmedLine := trim line in
  returning
    (if includes trimmedLine $"<li>" && negb (includes trimmedLine $"<ul")
        && negb (includes trimmedLine $"<ol") then
       let range := mkRange lineNumber 0 lineNumber (strlen line) in
       Some {| line := lineNumber + 1;
               issue := $"List item (li) found without proper list container (ul/ol)";
               severity := $"HIGH";
               range := range |}
     else None)
    (if includes trimmedLine $"<ul" && includes trimmedLine $"<ol" then
       let range := mkRange lineNumber 0 lineNumber (strlen line) in
       Some {| line := lineNumber + 1;
               issue := $"Mixed list types (ul and ol) in same line - ensure proper nesting";
               severity := $"MEDIUM";
               range := range |}
     else None).

Definition checkTableStructure (line : jsstring) (lineNumber : nat)
  : option AccessibilityIssue :=
  let trimmedLine := trim line in
  returning
    (if includes trimmedLine $"<td>" && negb (includes trimmedLine $"<table")
        && negb (includes trimmedLine $"<tr") then
       let range := mkRange lineNumber 0 lineNumber (strlen line) in
       Some {| line := lineNumber + 1;
               issue := $"Table cell (td) found without proper table structure (table > tr > td)";
               severity := $"HIGH";
               range := range |}
     else None)
    (returning
       (if includes trimmedLine $"<th>" && negb (includes trimmedLine $"<table")
           && negb (includes trimmedLine $"<tr") then
          let range := mkRange lineNumber 0 lineNumber (strlen line) in
          Some {| line := lineNumber + 1;
                  issue := $"Table header (th) found without proper table structure (table > tr > th)";
                  severity := $"HIGH";
                  range := range |}
        else None)
       (if includes trimmedLine $"<table" && negb (includes trimmedLine $"caption")
           && negb (includes trimmedLine $"summary") then
          let range := mkRange lineNumber 0 lineNumber (strlen line) in
          Some {| line := lineNumber + 1;
                  issue := $"Table missing caption or summary - add caption for table description";
                  severity := $"MEDIUM";
                  range := range |}
        else None)).

Definition checkFormStructure (line : jsstring) (lineNumber : nat)
  : option AccessibilityIssue :=
  let trimmedLine := trim line in
  returning
    (if (includes trimmedLine $"<input" || includes trimmedLine $"<select"
         || includes trimmedLine $"<textarea")
        && negb (includes trimmedLine $"aria-label")
        && negb (includes trimmedLine $"aria-labelledby")
        && negb (includes trimmedLine $"<label") then
       let range := mkRange lineNumber 0 lineNumber (strlen line) in
       Some {| line := lineNumber + 1;
               issue := $"Form control missing label - add label, aria-label, or aria-labelledby";
               severity := $"HIGH";
               range := range |}
     else None)
    (if includes trimmedLine $"<fieldset" && negb (includes trimmedLine $"<legend") then
       let range := mkRange lineNumber 0 lineNumber (strlen line) in
       Some {| line := lineNumber + 1;
               issue := $"Fieldset missing legend - add legend to describe fieldset purpose";
               severity := $"HIGH";
               range := range |}
     else None).

Definition checkButtonUsage (line : jsstring) (lineNumber : nat)
  : option AccessibilityIssue :=
  let trimmedLine := trim line in
  returning
    (if (includes trimmedLine $"<div" || includes trimmedLine $"<span")
        && includes trimmedLine $"onclick"
        && negb (includes trimmedLine $"role=~button~") then
       let range := mkRange lineNumber 0 lineNumber (strlen line) in
       Some {| line := lineNumber + 1;
               issue := $"Use semantic button element instead of div/span with onclick for better accessibility";
               severity := $"HIGH";
               range := range |}
     else None)
    (if includes trimmedLine $"<button"
        && negb (includes trimmedLine $"aria-label")
        && negb (includes trimmedLine $"aria-labelledby")
        && negb (matches trimmedLine re_button_element) then
       let range := mkRange lineNumber 0 lineNumber (strlen line) in
       Some {| line := lineNumber + 1;
               issue := $"Button missing accessible text - add text content or aria-label";
               severity := $"HIGH";
               range := range |}
     else None).

Definition checkLinkUsage (line : jsstring) (lineNumber : nat)
  : option AccessibilityIssue :=
  let trimmedLine := trim line in
  returning
    (if includes trimmedLine $"<a"
        && negb (includes trimmedLine $"aria-label")
        && negb (includes trimmedLine $"aria-labelledby")
        && negb (matches trimmedLine re_link_element) then
       let range := mkRange lineNumber 0 lineNumber (strlen line) in
       Some {| line := lineNumber + 1;
               issue := $"Link missing accessible text - add text content or aria-label";
               severity := $"HIGH";
               range := range |}
     else None)
    (if includes trimmedLine $"<a"
        && (includes trimmedLine $">click here<" || includes trimmedLine $">read more<"
            || includes trimmedLine $">here<" || includes trimmedLine $">more<") then
       let range := mkRange lineNumber 0 lineNumber (strlen line) in
       Some {| line := lineNumber + 1;
               issue := $"Link text is not descriptive - use meaningful link text instead of ~click here~ or ~read more~";
               severity := $"MEDIUM";
               range := range |}
     else None).

Definition checkLandmarkUsage (line : jsstring) (lineNumber : nat)
  : option AccessibilityIssue :=
  let trimmedLine := trim line in
  returning
    (if includes trimmedLine $"<body" && negb (includes trimmedLine $"role=~main~")
        && negb (includes trimmedLine $"<main") then
       let range := mkRange lineNumber 0 lineNumber (strlen line) in
       Some {| line := lineNumber + 1;
               issue := $"Page missing main landmark - add <main> or role=~main~ for primary content";
               severity := $"MEDIUM";
               range := range |}
     else None)
    (if includes trimmedLine $"<main" || includes trimmedLine $"role=~main~" then
       let range := mkRange lineNumber 0 lineNumber (strlen line) in
       Some {| line := lineNumber + 1;
               issue := $"Main landmark detected - ensure only one main landmark per page";
               severity := $"MEDIUM";
               range := range |}
     else None).

Definition checkSectioningElements (line : jsstring) (lineNumber : nat)
  : option AccessibilityIssue :=
  let trimmedLine := trim line in
  if (includes trimmedLine $"<section" || includes trimmedLine $"<article")
     && negb (includes trimmedLine $"<h1") && negb (includes trimmedLine $"<h2")
     && negb (includes trimmedLine $"<h3") && negb (includes trimmedLine $"<h4")
     && negb (includes trimmedLine $"<h5") && negb (includes trimmedLine $"<h6") then
    let range := mkRange lineNumber 0 lineNumber (strlen line) in
    Some {| line := lineNumber + 1;
            issue := $"Section/article should have a heading to describe its purpose";
            severity := $"MEDIUM";
            range := range |}
  else None.

Definition checkNavigationStructure (line : jsstring) (lineNumber : nat)
  : option AccessibilityIssue :=
  let trimmedLine := trim line in
  if includes trimmedLine $"<nav" && negb (includes trimmedLine $"<ul")
     && negb (includes trimmedLine $"<ol") then
    let range := mkRange lineNumber 0 lineNumber (strlen line) in
    Some {| line := lineNumber + 1;
            issue := $"Navigation should use list structure (ul/ol) for better screen reader support";
            severity := $"MEDIUM";
            range := range |}
  else None.

Definition checkDocumentStructure (line : jsstring) (lineNumber : nat)
           (fullText : jsstring) : option AccessibilityIssue :=
  let trimmedLine := trim line in
  returning
    (if includes trimmedLine $"<head" && negb (includes fullText $"<title>") then
       let range := mkRange lineNumber 0 lineNumber (strlen line) in
       Some {| line := lineNumber + 1;
               issue := $"Document missing title element - add <title> for page identification";
               severity := $"HIGH";
               range := range |}
     else None)
    (if includes trimmedLine $"<head" && negb (includes fullText $"viewport") then
       let range := mkRange lineNumber 0 lineNumber (strlen line) in
       Some {| line := lineNumber + 1;
               issue := $"Missing viewport meta tag - add for responsive design and mobile accessibility";
               severity := $"MEDIUM";
               range := range |}
     else None).

Definition checkSemanticHtml (line : jsstring) (lineNumber : nat)
           (fullText : jsstring) : list AccessibilityIssue :=
  let checks := [
    checkHeadingHierarchy line lineNumber fullText;
    checkHtmlLangAttribute line lineNumber;
    checkListStructure line lineNumber;
    checkTableStructure line lineNumber;
    checkFormStructure line lineNumber;
    checkButtonUsage line lineNumber;
    checkLinkUsage line lineNumber;
    checkLandmarkUsage line lineNumber;
    checkSectioningElements line lineNumber;
    checkNavigationStructure line lineNumber;
    checkDocumentStructure line lineNumber fullText
  ] in
  pushChecks checks.

End SemanticHtmlChecker.

(* ================================================================== *)
(** * Keyboard navigation family (keyboardNavigationChecker.ts) *)
(* ================================================================== *)

Module KeyboardNavigationChecker.

Definition checkKeyboardAccessibility (line : jsstring) (lineNumber : nat)
  : option AccessibilityIssue :=
  let trimmedLine := trim line in
  if (includes trimmedLine $"<div" || includes trimmedLine $"<span")
     && includes trimmedLine $"onclick"
     && negb (includes trimmedLine $"onkeydown")
     && negb (includes trimmedLine $"onkeyup")
     && negb (includes trimmedLine $"onkeypress")
     && negb (includes trimmedLine $"tabindex=") then
    let range := mkRange lineNumber 0 lineNumber (strlen line) in
    Some {| line := lineNumber + 1;
            issue := $"Clickable element missing keyboard support - add onkeydown/onkeyup handlers or use semantic button element";
            severity := $"HIGH";
            range := range |}
  else None.

Definition checkKeyboardTrap (line : jsstring) (lineNumber : nat)
  : option AccessibilityIssue :=
  let trimmedLine := trim line in
  if includes trimmedLine $"tabindex="
     && (includes trimmedLine $"tabindex=~0~" || includes trimmedLine $"tabindex='0'") then
    if includes trimmedLine $"role=~dialog~" || includes trimmedLine $"role=~alertdialog~"
       || includes trimmedLine $"modal" || includes trimmedLine $"popup" then
      let range := mkRange lineNumber 0 lineNumber (strlen line) in
      Some {| line := lineNumber + 1;
              issue := $"Modal/dialog element detected - ensure keyboard trap is properly managed with Escape key";
              severity := $"HIGH";
              range := range |}
    else None
  else None.

Definition checkMissingKeyboardHandlers (line : jsstring) (lineNumber : nat)
  : option AccessibilityIssue :=
  let trimmedLine := trim line in
  if includes trimmedLine $"onclick"
     && negb (includes trimmedLine $"onkeydown")
     && negb (includes trimmedLine $"onkeyup")
     && negb (includes trimmedLine $"onkeypress")
     && (includes trimmedLine $"<div" || includes trimmedLine $"<span") then
    let range := mkRange lineNumber 0 lineNumber (strlen line) in
    Some {| line := lineNumber + 1;
            issue := $"Interactive element missing keyboard event handlers - add onkeydown/onkeyup for accessibility";
            severity := $"HIGH";
            range := range |}
  else None.

Definition checkKeyboardNavigationOrder (line : jsstring) (lineNumber : nat)
  : option AccessibilityIssue :=
  let trimmedLine := trim line in
  match exec trimmedLine re_positive_tabindex with
  | Some positiveTabIndexMatch =>
      let tabIndexValue := group1 positiveTabIndexMatch in
      let range := mkRange lineNumber 0 lineNumber (strlen line) in
      Some {| line := lineNumber + 1;
              issue := $"Positive tabindex=~" ++ tabIndexValue
                       ++ $"~ disrupts natural keyboard navigation order - use tabindex=~0~ or negative values";
              severity := $"HIGH";
              range := range |}
  | None => None
  end.

Definition checkMissingSkipLinks (line : jsstring) (lineNumber : nat)
           (fullText : jsstring) : option AccessibilityIssue :=
  let trimmedLine := trim line in
  if includes trimmedLine $"<body" && negb (includes fullText $"skip")
     && negb (includes fullText $"skip-link") then
    let range := mkRange lineNumber 0 lineNumber (strlen line) in
    Some {| line := lineNumber + 1;
            issue := $"Page missing skip links - add skip links for keyboard navigation to main content";
            severity := $"MEDIUM";
            range := range |}
  else None.

Definition checkKeyboardShortcuts (line : jsstring) (lineNumber : nat)
  : option AccessibilityIssue :=
  let trimmedLine := trim line in
  if includes trimmedLine $"onkeydown"
     && (includes trimmedLine $"keyCode" || includes trimmedLine $"key"
         || includes trimmedLine $"which") then
    let range := mkRange lineNumber 0 lineNumber (strlen line) in
    Some {| line := lineNumber + 1;
            issue := $"Keyboard shortcut detected - ensure users can turn off or remap shortcuts";
            severity := $"MEDIUM";
            range := range |}
  else None.

Definition checkAriaKeyboardNavigation (line : jsstring) (lineNumber : nat)
  : option AccessibilityIssue :=
  let trimmedLine := trim line in
  if includes trimmedLine $"role="
     && (includes trimmedLine $"role=~menu~" || includes trimmedLine $"role=~menubar~"
         || includes trimmedLine $"role=~tablist~" || includes trimmedLine $"role=~grid~") then
    if negb (includes trimmedLine $"tabindex=") && negb (includes trimmedLine $"onkeydown") then
      let range := mkRange lineNumber 0 lineNumber (strlen line) in
      Some {| line := lineNumber + 1;
              issue := $"ARIA role requires keyboard navigation - add proper keyboard event handlers";
              severity := $"HIGH";
              range := range |}
    else None
  else None.

Definition checkFormKeyboardNavigation (line : jsstring) (lineNumber : nat)
  : option AccessibilityIssue :=
  let trimmedLine := trim line in
  if (includes trimmedLine $"<select" || includes trimmedLine $"<input")
     && negb (includes trimmedLine $"tabindex=")
     && negb (includes trimmedLine $"disabled") then
    let range := mkRange lineNumber 0 lineNumber (strlen line) in
    Some {| line := lineNumber + 1;
            issue := $"Form element should be keyboard accessible - ensure proper tabindex and keyboard support";
            severity := $"MEDIUM";
            range := range |}
  else None.

Definition checkKeyboardNavigation (line : jsstring) (lineNumber : nat)
           (fullText : jsstring) : list AccessibilityIssue :=
  let checks := [
    checkKeyboardAccessibility line lineNumber;
    checkKeyboardTrap line lineNumber;
    checkMissingKeyboardHandlers line lineNumber;
    checkKeyboardNavigationOrder line lineNumber;
    checkMissingSkipLinks line lineNumber fullText;
    checkKeyboardShortcuts line lineNumber;
    checkAriaKeyboardNavigation line lineNumber;
    checkFormKeyboardNavigation line lineNumber
  ] in
  pushChecks checks.

End KeyboardNavigationChecker.

(* ================================================================== *)
(** * Focus management family (focusManagementChecker.ts) *)
(* ================================================================== *)

Module FocusManagementChecker.

Definition checkFocusOrder (line : jsstring) (lineNumber : nat)
  : option AccessibilityIssue :=
  let trimmedLine := trim line in
  match exec trimmedLine re_positive_tabindex with
  | Some positiveTabIndexMatch =>
      let tabIndexValue := group1 positiveTabIndexMatch in
      let range := mkRange lineNumber 0 lineNumber (strlen line) in
      Some {| line := lineNumber + 1;
              issue := $"Positive tabindex=~" ++ tabIndexValue
                       ++ $"~ disrupts natural focus order - use tabindex=~0~ or negative values";
              severity := $"HIGH";
              range := range |}
  | None => None
  end.

Definition checkFocusTrap (line : jsstring) (lineNumber : nat)
  : option AccessibilityIssue :=
  let trimmedLine := trim line in
  if includes trimmedLine $"role=~dialog~" || includes trimmedLine $"role=~alertdialog~"
     || includes trimmedLine $"modal" || includes trimmedLine $"popup" then
    if negb (includes trimmedLine $"onkeydown") && negb (includes trimmedLine $"onkeyup") then
      let range := mkRange lineNumber 0 lineNumber (strlen line) in
      Some {| line := lineNumber + 1;
              issue := $"Modal/dialog element missing focus trap management - add keyboard handlers for focus control";
              severity := $"HIGH";
              range := range |}
    else None
  else None.

Definition checkMissingFocusIndicators (line : jsstring) (lineNumber : nat)
  : option AccessibilityIssue :=
  let trimmedLine := trim line in
  if includes trimmedLine $":focus"
     && (includes trimmedLine $"outline: none" || includes trimmedLine $"outline: 0") then
    let range := mkRange lineNumber 0 lineNumber (strlen line) in
    Some {| line := lineNumber + 1;
            issue := $"Focus outline removed - ensure alternative focus indicator is provided";
            severity := $"HIGH";
            range := range |}
  else None.

Definition checkDynamicFocusManagement (line : jsstring) (lineNumber : nat)
  : option AccessibilityIssue :=
  let trimmedLine := trim line in
  if includes trimmedLine $"innerHTML" || includes trimmedLine $"appendChild"
     || includes trimmedLine $"insertBefore" || includes trimmedLine $"replaceChild" then
    let range := mkRange lineNumber 0 lineNumber (strlen line) in
    Some {| line := lineNumber + 1;
            issue := $"Dynamic content manipulation detected - ensure focus management when content changes";
            severity := $"MEDIUM";
            range := range |}
  else None.

Definition checkAriaFocusManagement (line : jsstring) (lineNumber : nat)
  : option AccessibilityIssue :=
  let trimmedLine := trim line in
  if includes trimmedLine $"role="
     && (includes trimmedLine $"role=~menu~" || includes trimmedLine $"role=~menubar~"
         || includes trimmedLine $"role=~tablist~" || includes trimmedLine $"role=~grid~"
         || includes trimmedLine $"role=~tree~" || includes trimmedLine $"role=~listbox~") then
    if negb (includes trimmedLine $"aria-activedescendant")
       && negb (includes trimmedLine $"tabindex=") then
      let range := mkRange lineNumber 0 lineNumber (strlen line) in
      Some {| line := lineNumber + 1;
              issue := $"ARIA component missing focus management - add aria-activedescendant or proper tabindex";
              severity := $"HIGH";
              range := range |}
    else None
  else None.

Definition checkFormFocusManagement (line : jsstring) (lineNumber : nat)
  : option AccessibilityIssue :=
  let trimmedLine := trim line in
  if (includes trimmedLine $"<input" || includes trimmedLine $"<select"
      || includes trimmedLine $"<textarea")
     && (includes trimmedLine $"error" || includes trimmedLine $"invalid"
         || includes trimmedLine $"required") then
    if negb (includes trimmedLine $"aria-invalid")
       && negb (includes trimmedLine $"aria-describedby") then
      let range := mkRange lineNumber 0 lineNumber (strlen line) in
      Some {| line := lineNumber + 1;
              issue := $"Form validation missing focus management - add aria-invalid and aria-describedby for error states";
              severity := $"MEDIUM";
              range := range |}
    else None
  else None.

Definition checkSPAFocusManagement (line : jsstring) (lineNumber : nat)
  : option AccessibilityIssue :=
  let trimmedLine := trim line in
  if includes trimmedLine $"router" || includes trimmedLine $"navigate"
     || includes trimmedLine $"history.pushState"
     || includes trimmedLine $"history.replaceState" then
    let range := mkRange lineNumber 0 lineNumber (strlen line) in
    Some {| line := lineNumber + 1;
            issue := $"SPA navigation detected - ensure focus management when route changes";
            severity := $"MEDIUM";
            range := range |}
  else None.

Definition checkCollapsibleFocusManagement (line : jsstring) (lineNumber : nat)
  : option AccessibilityIssue :=
  let trimmedLine := trim line in
  if includes trimmedLine $"aria-expanded" || includes trimmedLine $"collapsible"
     || includes trimmedLine $"accordion" || includes trimmedLine $"dropdown" then
    if negb (includes trimmedLine $"onkeydown") && negb (includes trimmedLine $"onkeyup") then
      let range := mkRange lineNumber 0 lineNumber (strlen line) in
      Some {| line := lineNumber + 1;
              issue := $"Collapsible content missing keyboard focus management - add keyboard handlers";
              severity := $"MEDIUM";
              range := range |}
    else None
  else None.

Definition checkTableFocusManagement (line : jsstring) (lineNumber : nat)
  : option AccessibilityIssue :=
  let trimmedLine := trim line in
  if includes trimmedLine $"<table"
     && (includes trimmedLine $"sortable" || includes trimmedLine $"filterable"
         || includes trimmedLine $"editable" || includes trimmedLine $"selectable") then
    if negb (includes trimmedLine $"role=") && negb (includes trimmedLine $"tabindex=") then
      let range := mkRange lineNumber 0 lineNumber (strlen line) in
      Some {| line := lineNumber + 1;
              issue := $"Interactive table missing focus management - add proper ARIA roles and tabindex";
              severity := $"MEDIUM";
              range := range |}
    else None
  else None.

Definition checkFocusManagement (line : jsstring) (lineNumber : nat)
  : list AccessibilityIssue :=
  let checks := [
    checkFocusOrder line lineNumber;
    checkFocusTrap line lineNumber;
    checkMissingFocusIndicators line lineNumber;
    checkDynamicFocusManagement line lineNumber;
    checkAriaFocusManagement line lineNumber;
    checkFormFocusManagement line lineNumber;
    checkSPAFocusManagement line lineNumber;
    checkCollapsibleFocusManagement line lineNumber;
    checkTableFocusManagement line lineNumber
  ] in
  pushChecks checks.

End FocusManagementChecker.

(* ================================================================== *)
(** * Input purpose family (inputPurposeChecker.ts) *)
(* ================================================================== *)

Module InputPurposeChecker.

Definition AUTOCOMPLETE_VALUES : list jsstring := [
  $"name"; $"honorific-prefix"; $"given-name"; $"additional-name"; $"family-name"; $"honorific-suffix";
  $"nickname"; $"email"; $"username"; $"new-password"; $"current-password"; $"one-time-code";
  $"organization-title"; $"organization"; $"street-address"; $"address-line1"; $"address-line2";
  $"address-line3"; $"address-level1"; $"address-level2"; $"address-level3"; $"address-level4";
  $"country"; $"country-name"; $"postal-code"; $"cc-name"; $"cc-given-name"; $"cc-additional-name";
  $"cc-family-name"; $"cc-number"; $"cc-exp"; $"cc-exp-month"; $"cc-exp-year"; $"cc-csc"; $"cc-type";
  $"transaction-currency"; $"transaction-amount"; $"language"; $"bday"; $"bday-day"; $"bday-month";
  $"bday-year"; $"sex"; $"tel"; $"tel-country-code"; $"tel-national"; $"tel-area-code"; $"tel-local";
  $"tel-local-prefix"; $"tel-local-suffix"; $"tel-extension"; $"url"; $"photo"; $"webauthn"
].

Definition checkMissingAutocomplete (line : jsstring) (lineNumber : nat)
  : option AccessibilityIssue :=
  let trimmedLine := trim line in
  if (includes trimmedLine $"<input" || includes trimmedLine $"<select"
      || includes trimmedLine $"<textarea")
     && negb (includes trimmedLine $"autocomplete=")
     && negb (includes trimmedLine $"disabled")
     && negb (includes trimmedLine $"readonly") then
    let range := mkRange lineNumber 0 lineNumber (strlen line) in
    Some {| line := lineNumber + 1;
            issue := $"Form input missing autocomplete attribute - add autocomplete for user information fields";
            severity := $"HIGH";
            range := range |}
  else None.

Definition checkInvalidAutocomplete (line : jsstring) (lineNumber : nat)
  : option AccessibilityIssue :=
  let trimmedLine := trim line in
  if includes trimmedLine $"autocomplete=" then
    match exec trimmedLine (quotedAttribute $"autocomplete") with
    | Some autocompleteMatch =>
        let value := group1 autocompleteMatch in
        if negb (jseq value $"off") && negb (existsb (jseq value) AUTOCOMPLETE_VALUES) then
          let range := mkRange lineNumber 0 lineNumber (strlen line) in
          Some {| line := lineNumber + 1;
                  issue := $"Invalid autocomplete value ~" ++ value
                           ++ $"~ - use standard autocomplete values or ~off~";
                  severity := $"HIGH";
                  range := range |}
        else None
    | None => None
    end
  else None.

Definition checkInputTypeAutocompleteMismatch (line : jsstring) (lineNumber : nat)
  : option AccessibilityIssue :=
  let trimmedLine := trim line in
  if includes trimmedLine $"<input" && includes trimmedLine $"autocomplete=" then
    let typeMatch := exec trimmedLine (quotedAttribute $"type") in
    let autocompleteMatch := exec trimmedLine (quotedAttribute $"autocomplete") in
    match typeMatch, autocompleteMatch with
    | Some typeMatch, Some autocompleteMatch =>
        let inputType := group1 typeMatch in
        let autocompleteValue := group1 autocompleteMatch in
        returning
          (if jseq inputType $"email" && negb (includes autocompleteValue $"email") then
             let range := mkRange lineNumber 0 lineNumber (strlen line) in
             Some {| line := lineNumber + 1;
                     issue := $"Email input should have autocomplete=~email~ or related email field";
                     severity := $"MEDIUM";
                     range := range |}
           else None)
          (if jseq inputType $"password" && negb (includes autocompleteValue $"password") then
             let range := mkRange lineNumber 0 lineNumber (strlen line) in
             Some {| line := lineNumber + 1;
                     issue := $"Password input should have autocomplete=~current-password~ or ~new-password~";
                     severity := $"MEDIUM";
                     range := range |}
           else None)
    | _, _ => None
    end
  else None.

Section CaseMapping.

Variable toLowerCase : jsstring -> jsstring.

Definition checkPersonalInformationFields (line : jsstring) (lineNumber : nat)
  : option AccessibilityIssue :=
  let trimmedLine := trim line in
  if includes trimmedLine $"<input"
     && (includes trimmedLine $"name=" || includes trimmedLine $"id=")
     && negb (includes trimmedLine $"autocomplete=") then
    let fieldName := toLowerCase trimmedLine in
    if includes fieldName $"name" || includes fieldName $"email"
       || includes fieldName $"phone" || includes fieldName $"address"
       || includes fieldName $"city" || includes fieldName $"state"
       || includes fieldName $"zip" || includes fieldName $"country"
       || includes fieldName $"birth" || includes fieldName $"gender"
       || includes fieldName $"age" then
      let range := mkRange lineNumber 0 lineNumber (strlen line) in
      Some {| line := lineNumber + 1;
              issue := $"Personal information field missing autocomplete attribute - add appropriate autocomplete value";
              severity := $"HIGH";
              range := range |}
    else None
  else None.

Definition checkFinancialFields (line : jsstring) (lineNumber : nat)
  : option AccessibilityIssue :=
  let trimmedLine := trim line in
  if includes trimmedLine $"<input"
     && (includes trimmedLine $"name=" || includes trimmedLine $"id=")
     && negb (includes trimmedLine $"autocomplete=") then
    let fieldName := toLowerCase trimmedLine in
    if includes fieldName $"card" || includes fieldName $"credit"
       || includes fieldName $"debit" || includes fieldName $"cvv"
       || includes fieldName $"cvc" || includes fieldName $"expiry"
       || includes fieldName $"amount" || includes fieldName $"currency" then
      let range := mkRange lineNumber 0 lineNumber (strlen line) in
      Some {| line := lineNumber + 1;
              issue := $"Financial field missing autocomplete attribute - add appropriate autocomplete value";
              severity := $"HIGH";
              range := range |}
    else None
  else None.

Definition checkAuthenticationFields (line : jsstring) (lineNumber : nat)
  : option AccessibilityIssue :=
  let trimmedLine := trim line in
  if includes trimmedLine $"<input"
     && (includes trimmedLine $"name=" || includes trimmedLine $"id=")
     && negb (includes trimmedLine $"autocomplete=") then
    let fieldName := toLowerCase trimmedLine in
    if includes fieldName $"username" || includes fieldName $"login"
       || includes fieldName $"password" || includes fieldName $"otp"
       || includes fieldName $"verification" || includes fieldName $"code" then
      let range := mkRange lineNumber 0 lineNumber (strlen line) in
      Some {| line := lineNumber + 1;
              issue := $"Authentication field missing autocomplete attribute - add appropriate autocomplete value";
              severity := $"HIGH";
              range := range |}
    else None
  else None.

Definition checkContactFields (line : jsstring) (lineNumber : nat)
  : option AccessibilityIssue :=
  let trimmedLine := trim line in
  if includes trimmedLine $"<input"
     && (includes trimmedLine $"name=" || includes trimmedLine $"id=")
     && negb (includes trimmedLine $"autocomplete=") then
    let fieldName := toLowerCase trimmedLine in
    if includes fieldName $"phone" || includes fieldName $"tel"
       || includes fieldName $"mobile" || includes fieldName $"fax"
       || includes fieldName $"website" || includes fieldName $"url" then
      let range := mkRange lineNumber 0 lineNumber (strlen line) in
      Some {| line := lineNumber + 1;
              issue := $"Contact field missing autocomplete attribute - add appropriate autocomplete value";
              severity := $"MEDIUM";
              range := range |}
    else None
  else None.

Definition checkAddressFields (line : jsstring) (lineNumber : nat)
  : option AccessibilityIssue :=
  let trimmedLine := trim line in
  if includes trimmedLine $"<input"
     && (includes trimmedLine $"name=" || includes trimmedLine $"id=")
     && negb (includes trimmedLine $"autocomplete=") then
    let fieldName := toLowerCase trimmedLine in
    if includes fieldName $"street" || includes fieldName $"address"
       || includes fieldName $"city" || includes fieldName $"state"
       || includes fieldName $"province" || includes fieldName $"zip"
       || includes fieldName $"postal" || includes fieldName $"country" then
      let range := mkRange lineNumber 0 lineNumber (strlen line) in
      Some {| line := lineNumber + 1;
              issue := $"Address field missing autocomplete attribute - add appropriate autocomplete value";
              severity := $"HIGH";
              range := range |}
    else None
  else None.

Definition checkAutocompleteOffOnUserFields (line : jsstring) (lineNumber : nat)
  : option AccessibilityIssue :=
  let trimmedLine := trim line in
  if includes trimmedLine $"autocomplete=~off~" || includes trimmedLine $"autocomplete='off'" then
    let fieldName := toLowerCase trimmedLine in
    if includes fieldName $"name" || includes fieldName $"email"
       || includes fieldName $"phone" || includes fieldName $"address"
       || includes fieldName $"birth" || includes fieldName $"gender" then
      let range := mkRange lineNumber 0 lineNumber (strlen line) in
      Some {| line := lineNumber + 1;
              issue := $"User information field has autocomplete=~off~ - consider using appropriate autocomplete value";
              severity := $"MEDIUM";
              range := range |}
    else None
  else None.

Definition checkInputPurpose (line : jsstring) (lineNumber : nat)
  : list AccessibilityIssue :=
  let checks := [
    checkMissingAutocomplete line lineNumber;
    checkInvalidAutocomplete line lineNumber;
    checkInputTypeAutocompleteMismatch line lineNumber;
    checkPersonalInformationFields line lineNumber;
    checkFinancialFields line lineNumber;
    checkAuthenticationFields line lineNumber;
    checkContactFields line lineNumber;
    checkAddressFields line lineNumber;
    checkAutocompleteOffOnUserFields line lineNumber
  ] in
  pushChecks checks.

End CaseMapping.

End InputPurposeChecker.

(* ================================================================== *)
(** * Label and name consistency family (labelNameConsistencyChecker.ts) *)
(* ================================================================== *)

(** Truthiness of a string. *)
Definition nonEmpty (s : jsstring) : bool :=
  match s with
  | [] => false
  | _ :: _ => true
  end.

Module LabelNameConsistencyChecker.

(** The visible text the first and third detectors extract: the content
    of the button if the line has one, else of the link if it has one,
    else the empty string. *)
Definition visibleTextOf (trimmedLine : jsstring) : jsstring :=
  let visibleText := $"" in
  if includes trimmedLine $"<button" then
    match exec trimmedLine re_button_content with
    | Some buttonMatch => trim (group1 buttonMatch)
    | None => visibleText
    end
  else if includes trimmedLine $"<a" then
    match exec trimmedLine re_link_content with
    | Some linkMatch => trim (group1 linkMatch)
    | None => visibleText
    end
  else visibleText.

(** The [hasVisibleText] flag of the second detector. *)
Definition hasVisibleTextOf (trimmedLine : jsstring) : bool :=
  let hasVisibleText := false in
  if includes trimmedLine $"<button" then
    match exec trimmedLine re_button_content with
    | Some buttonMatch =>
        if Nat.ltb 0 (strlen (trim (group1 buttonMatch))) then true else hasVisibleText
    | None => hasVisibleText
    end
  else if includes trimmedLine $"<a" then
    match exec trimmedLine re_link_content with
    | Some linkMatch =>
        if Nat.ltb 0 (strlen (trim (group1 linkMatch))) then true else hasVisibleText
    | None => hasVisibleText
    end
  else hasVisibleText.

Section CaseMapping.

Variable toLowerCase : jsstring -> jsstring.

Definition checkLabelNameConsistencyIssue (line : jsstring) (lineNumber : nat)
  : option AccessibilityIssue :=
  let trimmedLine := trim line in
  if includes trimmedLine $"aria-label="
     && (includes trimmedLine $"<button" || includes trimmedLine $"<a"
         || includes trimmedLine $"<input") then
    let visibleText := visibleTextOf trimmedLine in
    match exec trimmedLine (quotedAttribute $"aria-label") with
    | Some ariaLabelMatch =>
        if nonEmpty visibleText then
          let ariaLabelValue := trim (group1 ariaLabelMatch) in
          if negb (includes (toLowerCase ariaLabelValue) (toLowerCase visibleText))
             && negb (includes (toLowerCase visibleText) (toLowerCase ariaLabelValue)) then
            let range := mkRange lineNumber 0 lineNumber (strlen line) in
            Some {| line := lineNumber + 1;
                    issue := $"Label-name inconsistency - aria-label should contain the visible text or be consistent with it";
                    severity := $"HIGH";
                    range := range |}
          else None
        else None
    | None => None
    end
  else None.

Definition checkRedundantAccessibleNames (line : jsstring) (lineNumber : nat)
  : option AccessibilityIssue :=
  let trimmedLine := trim line in
  if includes trimmedLine $"aria-label="
     && (includes trimmedLine $"<button" || includes trimmedLine $"<a") then
    let visibleText := visibleTextOf trimmedLine in
    match exec trimmedLine (quotedAttribute $"aria-label") with
    | Some ariaLabelMatch =>
        if nonEmpty visibleText then
          let ariaLabelValue := trim (group1 ariaLabelMatch) in
          if jseq (toLowerCase ariaLabelValue) (toLowerCase visibleText) then
            let range := mkRange lineNumber 0 lineNumber (strlen line) in
            Some {| line := lineNumber + 1;
                    issue := $"Redundant accessible name - aria-label is identical to visible text";
                    severity := $"MEDIUM";
                    range := range |}
          else None
        else None
    | None => None
    end
  else None.

End CaseMapping.

Definition checkMissingAccessibleNames (line : jsstring) (lineNumber : nat)
  : option AccessibilityIssue :=
  let trimmedLine := trim line in
  if (includes trimmedLine $"<button" || includes trimmedLine $"<a"
      || includes trimmedLine $"<input")
     && negb (includes trimmedLine $"aria-label")
     && negb (includes trimmedLine $"aria-labelledby")
     && negb (includes trimmedLine $"title=") then
    let hasVisibleText := hasVisibleTextOf trimmedLine in
    if negb hasVisibleText then
      let range := mkRange lineNumber 0 lineNumber (strlen line) in
      Some {| line := lineNumber + 1;
              issue := $"Interactive element missing accessible name - add aria-label, aria-labelledby, or visible text";
              severity := $"HIGH";
              range := range |}
    else None
  else None.

Definition checkConflictingAccessibleNames (line : jsstring) (lineNumber : nat)
  : option AccessibilityIssue :=
  let trimmedLine := trim line in
  if includes trimmedLine $"aria-label=" && includes trimmedLine $"aria-labelledby=" then
    let range := mkRange lineNumber 0 lineNumber (strlen line) in
    Some {| line := lineNumber + 1;
            issue := $"Conflicting accessible names - element has both aria-label and aria-labelledby";
            severity := $"HIGH";
            range := range |}
  else None.

Definition checkEmptyAccessibleNames (line : jsstring) (lineNumber : nat)
  : option AccessibilityIssue :=
  let trimmedLine := trim line in
  if includes trimmedLine $"aria-label=~~" || includes trimmedLine $"aria-label=''"
     || includes trimmedLine $"aria-label=~ ~" || includes trimmedLine $"aria-label=' '" then
    let range := mkRange lineNumber 0 lineNumber (strlen line) in
    Some {| line := lineNumber + 1;
            issue := $"Empty accessible name - aria-label is empty or contains only whitespace";
            severity := $"HIGH";
            range := range |}
  else None.

Definition checkAccessibleNamesOnNonInteractive (line : jsstring) (lineNumber : nat)
  : option AccessibilityIssue :=
  let trimmedLine := trim line in
  if includes trimmedLine $"aria-label="
     && (includes trimmedLine $"<div" || includes trimmedLine $"<span"
         || includes trimmedLine $"<p")
     && negb (includes trimmedLine $"role=")
     && negb (includes trimmedLine $"tabindex=") then
    let range := mkRange lineNumber 0 lineNumber (strlen line) in
    Some {| line := lineNumber + 1;
            issue := $"Non-interactive element with aria-label - add role attribute or use semantic element";
            severity := $"MEDIUM";
            range := range |}
  else None.

Definition checkFormElementAccessibleNames (line : jsstring) (lineNumber : nat)
  : option AccessibilityIssue :=
  let trimmedLine := trim line in
  if (includes trimmedLine $"<input" || includes trimmedLine $"<select"
      || includes trimmedLine $"<textarea")
     && negb (includes trimmedLine $"aria-label")
     && negb (includes trimmedLine $"aria-labelledby")
     && negb (includes trimmedLine $"title=")
     && negb (includes trimmedLine $"placeholder=") then
    if negb (includes trimmedLine $"id=") || negb (includes trimmedLine $"for=") then
      let range := mkRange lineNumber 0 lineNumber (strlen line) in
      Some {| line := lineNumber + 1;
              issue := $"Form element missing accessible name - add label, aria-label, or aria-labelledby";
              severity := $"HIGH";
              range := range |}
    else None
  else None.

Definition checkCustomControlAccessibleNames (line : jsstring) (lineNumber : nat)
  : option AccessibilityIssue :=
  let trimmedLine := trim line in
  if includes trimmedLine $"role="
     && (includes trimmedLine $"role=~button~" || includes trimmedLine $"role=~link~"
         || includes trimmedLine $"role=~menuitem~" || includes trimmedLine $"role=~tab~"
         || includes trimmedLine $"role=~option~" || includes trimmedLine $"role=~checkbox~")
     && negb (includes trimmedLine $"aria-label")
     && negb (includes trimmedLine $"aria-labelledby") then
    let hasVisibleText := false in
    let hasVisibleText :=
      if includes trimmedLine $">" && includes trimmedLine $"</" then
        match exec trimmedLine re_text_between_tags with
        | Some textMatch =>
            if Nat.ltb 0 (strlen (trim (group1 textMatch))) then true else hasVisibleText
        | None => hasVisibleText
        end
      else hasVisibleText in
    if negb hasVisibleText then
      let range := mkRange lineNumber 0 lineNumber (strlen line) in
      Some {| line := lineNumber + 1;
              issue := $"Custom control missing accessible name - add aria-label, aria-labelledby, or visible text";
              severity := $"HIGH";
              range := range |}
    else None
  else None.

Definition checkImageAccessibleNames (line : jsstring) (lineNumber : nat)
  : option AccessibilityIssue :=
  let trimmedLine := trim line in
  if includes trimmedLine $"<img"
     && negb (includes trimmedLine $"alt=")
     && negb (includes trimmedLine $"aria-label=")
     && negb (includes trimmedLine $"aria-labelledby=") then
    let range := mkRange lineNumber 0 lineNumber (strlen line) in
    Some {| line := lineNumber + 1;
            issue := $"Image missing accessible name - add alt, aria-label, or aria-labelledby";
            severity := $"HIGH";
            range := range |}
  else None.

Definition checkLabelNameConsistency (toLowerCase : jsstring -> jsstring)
           (line : jsstring) (lineNumber : nat) : list AccessibilityIssue :=
  let checks := [
    checkLabelNameConsistencyIssue toLowerCase line lineNumber;
    checkMissingAccessibleNames line lineNumber;
    checkRedundantAccessibleNames toLowerCase line lineNumber;
    checkConflictingAccessibleNames line lineNumber;
    checkEmptyAccessibleNames line lineNumber;
    checkAccessibleNamesOnNonInteractive line lineNumber;
    checkFormElementAccessibleNames line lineNumber;
    checkCustomControlAccessibleNames line lineNumber;
    checkImageAccessibleNames line lineNumber
  ] in
  pushChecks checks.

End LabelNameConsistencyChecker.

(* ================================================================== *)
(** * Color contrast family (class ColorContrastChecker) *)
(* ================================================================== *)

Module ColorContrastChecker.

Definition checkColorContrastIssue (line : jsstring) (lineNumber : nat)
  : option AccessibilityIssue :=
  let trimmedLine := trim line in
  returning
    (if includes trimmedLine $"color:" || includes trimmedLine $"background-color:" then
       let range := mkRange lineNumber 0 lineNumber (strlen line) in
       Some {| line := lineNumber + 1;
               issue := $"Color contrast validation needed - ensure text has sufficient contrast ratio (4.5:1 for normal text, 3:1 for large text)";
               severity := $"HIGH";
               range := range |}
     else None)
    (if includes trimmedLine $"style="
        && (includes trimmedLine $"color:" || includes trimmedLine $"background-color:") then
       let range := mkRange lineNumber 0 lineNumber (strlen line) in
       Some {| line := lineNumber + 1;
               issue := $"Inline color styles detected - verify contrast ratio meets WCAG 2.1 AA standards";
               severity := $"HIGH";
               range := range |}
     else None).

Definition checkColorOnlyInformation (line : jsstring) (lineNumber : nat)
  : option AccessibilityIssue :=
  let trimmedLine := trim line in
  if includes trimmedLine $"color:"
     && (includes trimmedLine $"red" || includes trimmedLine $"green"
         || includes trimmedLine $"blue" || includes trimmedLine $"yellow")
     && negb (includes trimmedLine $"aria-label")
     && negb (includes trimmedLine $"title=") then
    let range := mkRange lineNumber 0 lineNumber (strlen line) in
    Some {| line := lineNumber + 1;
            issue := $"Color-only information detected - ensure information is not conveyed by color alone";
            severity := $"HIGH";
            range := range |}
  else None.

Definition checkNonTextContrast (line : jsstring) (lineNumber : nat)
  : option AccessibilityIssue :=
  let trimmedLine := trim line in
  if includes trimmedLine $"border:" || includes trimmedLine $"outline:"
     || includes trimmedLine $"box-shadow:" || includes trimmedLine $"background:" then
    let range := mkRange lineNumber 0 lineNumber (strlen line) in
    Some {| line := lineNumber + 1;
            issue := $"UI component styling detected - ensure sufficient contrast ratio (3:1) for visual elements";
            severity := $"MEDIUM";
            range := range |}
  else None.

Definition checkFocusIndicatorContrast (line : jsstring) (lineNumber : nat)
  : option AccessibilityIssue :=
  let trimmedLine := trim line in
  if includes trimmedLine $":focus" || includes trimmedLine $":focus-visible" then
    if includes trimmedLine $"outline: none" || includes trimmedLine $"outline: 0" then
      let range := mkRange lineNumber 0 lineNumber (strlen line) in
      Some {| line := lineNumber + 1;
              issue := $"Focus outline removed - ensure alternative focus indicator has sufficient contrast";
              severity := $"HIGH";
              range := range |}
    else None
  else None.

Definition checkTextSpacing (line : jsstring) (lineNumber : nat)
  : option AccessibilityIssue :=
  let trimmedLine := trim line in
  if includes trimmedLine $"line-height:" || includes trimmedLine $"letter-spacing:"
     || includes trimmedLine $"word-spacing:" || includes trimmedLine $"text-indent:" then
    let range := mkRange lineNumber 0 lineNumber (strlen line) in
    Some {| line := lineNumber + 1;
            issue := $"Text spacing detected - ensure content remains accessible when spacing is adjusted";
            severity := $"MEDIUM";
            range := range |}
  else None.

Definition checkColorContrastIssues (line : jsstring) (lineNumber : nat)
  : list AccessibilityIssue :=
  let checks := [
    checkColorContrastIssue line lineNumber;
    checkColorOnlyInformation line lineNumber;
    checkNonTextContrast line lineNumber;
    checkFocusIndicatorContrast line lineNumber;
    checkTextSpacing line lineNumber
  ] in
  pushChecks checks.

End ColorContrastChecker.

(* ================================================================== *)
(** * The aggregator (accessibilityChecker.ts) *)
(* ================================================================== *)

(** [vscode.DiagnosticSeverity]. *)
Inductive DiagnosticSeverity : Type :=
| Error
| Warning
| Information
| Hint.

(** [vscode.Diagnostic] with its [source] field. *)
Record Diagnostic := {
  diagRange : Range;
  message : jsstring;
  diagSeverity : DiagnosticSeverity;
  source : jsstring
}.

(** [array.forEach((element, index) => ...)] threading the state the
    callback mutates. *)
Fixpoint forEachIndexed {A S : Type} (f : S -> A -> nat -> S)
         (xs : list A) (index : nat) (st : S) : S :=
  match xs with
  | [] => st
  | x :: xs' => forEachIndexed f xs' (index + 1) (f st x index)
  end.

Module AccessibilityChecker.

Definition createDiagnostic (range : Range) (message : jsstring)
           (severity : DiagnosticSeverity) : Diagnostic :=
  {| diagRange := range;
     message := message;
     diagSeverity := severity;
     source := $"MARSA11Y Checker" |}.

Definition getSeverity (severity : jsstring) : DiagnosticSeverity :=
  if jseq severity $"HIGH" then Error
  else if jseq severity $"MEDIUM" then Warning
  else if jseq severity $"LOW" then Information
  else Information.

(** What a run leaves behind: the [issues] array and the diagnostics
    handed to [diagnosticCollection.set]. *)
Record Outcome := {
  issues : list AccessibilityIssue;
  diagnostics : list Diagnostic
}.

Section CaseMapping.

Variable toLowerCase : jsstring -> jsstring.

Definition checkAccessibilityIssues (text : jsstring) : Outcome :=
  let lines := split_lf text in
  forEachIndexed
    (fun st line index =>
       let lineNumber := index in
       let imageIssues := ImageChecker.checkImages line lineNumber in
       let formIssues := FormElementsChecker.checkFormElements line lineNumber in
       let otherIssues :=
         OtherAccessibilityChecker.checkOtherAccessibility line lineNumber text in
       let ariaRoleIssues :=
         AriaLabelRoleChecker.checkAriaLabelAndRole toLowerCase line lineNumber text in
       let tabIndexIssues := TabIndexChecker.checkTabIndex line lineNumber in
       let semanticHtmlIssues :=
         SemanticHtmlChecker.checkSemanticHtml line lineNumber text in
       let allIssues :=
         imageIssues ++ formIssues ++ otherIssues ++ ariaRoleIssues
         ++ tabIndexIssues ++ semanticHtmlIssues in
       fold_left
         (fun st' found_issue =>
            {| issues := issues st' ++ [found_issue];
               diagnostics :=
                 diagnostics st'
                 ++ [createDiagnostic (range found_issue) (issue found_issue)
                                      (getSeverity (severity found_issue))] |})
         allIssues st)
    lines 0 {| issues := []; diagnostics := [] |}.

End CaseMapping.

End AccessibilityChecker.

(* ================================================================== *)
(** * The alt-text repair workflow (altTagAutoFixer.ts) *)
(* ================================================================== *)

(** Truthiness of a value of type [string | undefined]. *)
Definition truthy (x : option jsstring) : bool :=
  match x with
  | Some (_ :: _) => true
  | Some [] => false
  | None => false
  end.

(** Interpolation of a [string | undefined] into a template literal. *)
Definition showOptional (x : option jsstring) : jsstring :=
  match x with
  | Some s => s
  | None => $"undefined"
  end.

(** [/<img[^>]*src=[~']([^~']+)[~'][^>]*>/i] *)
Definition re_img_src : regex :=
  sequence [str_ci (list_ascii_of_string "<img"); Star (noneOf $">");
       str_ci (list_ascii_of_string "src="); Cls quote;
       Group (Plus (fun c => negb (quote c))); Cls quote;
       Star (noneOf $">"); Chr (chr ">")].

(** [xs.slice(a, b)] for [0 <= a]. *)
Definition slice {A : Type} (xs : list A) (a b : nat) : list A :=
  firstn (b - a) (skipn a xs).

(** [parts.join(sep)]. *)
Fixpoint join (parts : list jsstring) (sep : jsstring) : jsstring :=
  match parts with
  | [] => []
  | [p] => p
  | p :: more => p ++ sep ++ join more sep
  end.

Module AltTagAutoFixer.

Record AltFixResult := {
  success : bool;
  altText : option jsstring;
  error : option jsstring
}.

(** How the awaited [chat.completions.create] call ends: it throws (the
    promise rejects, or the response has no [choices] to index), or it
    yields [completion.choices[0]?.message?.content], which may be
    undefined. *)
Inductive Completion : Type :=
| Rejected (reason : jsstring)
| Fulfilled (content : option jsstring).

(** The collaborators outside the extension: the setting
    [marsa11yfix.openaiApiKey], the [OpenAI] constructor ([Some reason]
    when it throws) and the completion endpoint, as a function of the
    user prompt (the system message and the sampling parameters are
    constants of the request). *)
Record Service := {
  openaiApiKey : option jsstring;
  newOpenAI : jsstring -> option jsstring;
  createCompletion : jsstring -> Completion
}.

(** What the workflow can change: the cached client (the static field
    [openai]), the error messages shown to the user, and -- through the
    host only -- the lines of the open document. *)
Record Session := {
  openai : bool;
  errorMessages : list jsstring;
  documentLines : list jsstring
}.

Definition showErrorMessage (text : jsstring) (st : Session) : Session :=
  {| openai := openai st;
     errorMessages := errorMessages st ++ [text];
     documentLines := documentLines st |}.

(** One [edit.replace(document.uri, range, newText)]. *)
Record Replace := {
  uri : jsstring;
  replaced : Range;
  newText : jsstring
}.

Definition WorkspaceEdit := list Replace.

Section Workflow.

Variable service : Service.

Definition initializeOpenAI (st : Session) : bool * Session :=
  if openai st then (true, st)
  else
    let apiKey := openaiApiKey service in
    if negb (truthy apiKey) then
      (false,
       showErrorMessage
         $"OpenAI API key not found. Please set marsa11yfix.openaiApiKey in your VS Code settings."
         st)
    else
      match newOpenAI service (showOptional apiKey) with
      | None =>
          (true, {| openai := true;
                    errorMessages := errorMessages st;
                    documentLines := documentLines st |})
      | Some thrown =>
          (false,
           showErrorMessage ($"Failed to initialize OpenAI client: " ++ thrown) st)
      end.

Definition buildPrompt (imageSrc : jsstring) (context : option jsstring)
  : jsstring :=
  let prompt := $"Generate alt text for this image: " ++ imageSrc in
  let prompt :=
    if truthy context then prompt ++ [10%N; 10%N] ++ $"Context: " ++ showOptional context
    else prompt in
  prompt ++ [10%N; 10%N]
         ++ $"Provide a concise, descriptive alt text that describes what the image shows. If the image is purely decorative, return ~decorative~.".

Definition generateAltText (imageSrc : jsstring) (context : option jsstring)
           (st : Session) : AltFixResult * Session :=
  let (initialized, st) := initializeOpenAI st in
  if negb initialized then
    ({| success := false; altText := None;
        error := Some $"OpenAI not initialized" |}, st)
  else
    let prompt := buildPrompt imageSrc context in
    match createCompletion service prompt with
    | Fulfilled content =>
        let altText := option_map trim content in
        if negb (truthy altText) then
          ({| success := false; altText := None;
              error := Some $"No alt text generated" |}, st)
        else
          ({| success := true; altText := altText; error := None |}, st)
    | Rejected reason =>
        ({| success := false; altText := None;
            error := Some ($"OpenAI API error: " ++ reason) |}, st)
    end.

Definition fixSpecificImageTag (documentUri : jsstring) (lineNumber : nat)
           (lineText : jsstring) (st : Session)
  : option WorkspaceEdit * Session :=
  let trimmedLine := trim lineText in
  if negb (includes trimmedLine $"<img") || includes trimmedLine $"alt=" then
    (None, st)
  else
    match exec trimmedLine re_img_src with
    | None => (None, st)
    | Some imgTagMatch =>
        let imageSrc := group1 imgTagMatch in
        let (result, st) := generateAltText imageSrc None st in
        if negb (success result) || negb (truthy (altText result)) then
          (None,
           showErrorMessage
             ($"Failed to generate alt text: " ++ showOptional (error result)) st)
        else
          let imgTagStart := indexOf lineText $"<img" 0 in
          let imgTagEnd := indexOf lineText $">" imgTagStart in
          if Z.eqb imgTagStart (-1) || Z.eqb imgTagEnd (-1) then (None, st)
          else
            let beforeAlt := substring2 lineText 0 imgTagEnd in
            let afterAlt := substring1 lineText imgTagEnd in
            let newLine :=
              beforeAlt ++ $" alt=~" ++ showOptional (altText result) ++ $"~"
              ++ afterAlt in
            let range := mkRange lineNumber 0 lineNumber (strlen lineText) in
            (Some [{| uri := documentUri; replaced := range; newText := newLine |}],
             st)
    end.

(** The value [getSpecificImagePreview] resolves to when it is not null. *)
Record SpecificPreview := {
  specificImageSrc : jsstring;
  specificAltText : jsstring
}.

Definition getSpecificImagePreview (lineNumber : nat) (lineText : jsstring)
           (st : Session) : option SpecificPreview * Session :=
  let trimmedLine := trim lineText in
  if negb (includes trimmedLine $"<img") || includes trimmedLine $"alt=" then
    (None, st)
  else
    match exec trimmedLine re_img_src with
    | None => (None, st)
    | Some imgTagMatch =>
        let imageSrc := group1 imgTagMatch in
        let (result, st) := generateAltText imageSrc None st in
        if negb (success result) || negb (truthy (altText result)) then (None, st)
        else
          (Some {| specificImageSrc := imageSrc;
                   specificAltText := showOptional (altText result) |},
           st)
    end.

End Workflow.

(** The context handed to the generator for the image on line [i]:
    [lines.slice(Math.max(0, i - 2), i + 3).join(' ').substring(0, 200)]. *)
Definition contextAround (lines : list jsstring) (i : nat) : jsstring :=
  let contextLines := slice lines (Nat.max 0 (i - 2)) (i + 3) in
  substring2 (join contextLines $" ") 0 200.

(** An element of the array [getMissingAltTagsPreview] resolves to. *)
Record Preview := {
  previewLineNumber : nat;
  previewImageSrc : jsstring;
  previewAltText : jsstring
}.

(** The locals the loop of [getMissingAltTagsPreview] updates. *)
Record PreviewRun := {
  previews : list Preview;
  previewSession : Session
}.

(** The locals the loop of [autoFixMissingAltTags] updates. *)
Record FixRun := {
  edit : WorkspaceEdit;
  hasChanges : bool;
  fixSession : Session
}.

Section Batch.

(** The collaborators as they answer while line [i] is processed: each
    line makes at most one request, and nothing ties the answer to one
    request to the answer to another.  The host's [withProgress] runs the
    task it is given once and resolves when the task does; the progress
    notification and the console output are not part of the result. *)
Variable serviceAt : nat -> Service.

Definition getMissingAltTagsPreview (text : jsstring) (st : Session)
  : list Preview * Session :=
  let lines := split_lf text in
  let final :=
    forEachIndexed
      (fun run line i =>
         let trimmedLine := trim line in
         if includes trimmedLine $"<img" && negb (includes trimmedLine $"alt=") then
           match exec trimmedLine re_img_src with
           | Some imgTagMatch =>
               let imageSrc := group1 imgTagMatch in
               let context := contextAround lines i in
               let (result, st) :=
                 generateAltText (serviceAt i) imageSrc (Some context)
                                 (previewSession run) in
               if success result && truthy (altText result) then
                 {| previews :=
                      previews run
                      ++ [{| previewLineNumber := i;
                             previewImageSrc := imageSrc;
                             previewAltText := showOptional (altText result) |}];
                    previewSession := st |}
               else
                 {| previews := previews run; previewSession := st |}
           | None => run
           end
         else run)
      lines 0 {| previews := []; previewSession := st |} in
  (previews final, previewSession final).

Definition autoFixMissingAltTags (documentUri : jsstring) (text : jsstring)
           (st : Session) : option WorkspaceEdit * Session :=
  let lines := split_lf text in
  let final :=
    forEachIndexed
      (fun run line i =>
         let trimmedLine := trim line in
         if includes trimmedLine $"<img" && negb (includes trimmedLine $"alt=") then
           match exec trimmedLine re_img_src with
           | Some imgTagMatch =>
               let imageSrc := group1 imgTagMatch in
               let context := contextAround lines i in
               let (result, st) :=
                 generateAltText (serviceAt i) imageSrc (Some context)
                                 (fixSession run) in
               if success result && truthy (altText result) then
                 let imgTagStart := indexOf line $"<img" 0 in
                 let imgTagEnd := indexOf line $">" imgTagStart in
                 if negb (Z.eqb imgTagStart (-1)) && negb (Z.eqb imgTagEnd (-1)) then
                   let beforeAlt := substring2 line 0 imgTagEnd in
                   let afterAlt := substring1 line imgTagEnd in
                   let newLine :=
                     beforeAlt ++ $" alt=~" ++ showOptional (altText result) ++ $"~"
                     ++ afterAlt in
                   let range := mkRange i 0 i (strlen line) in
                   {| edit :=
                        edit run
                        ++ [{| uri := documentUri; replaced := range;
                               newText := newLine |}];
                      hasChanges := true;
                      fixSession := st |}
                 else
                   {| edit := edit run; hasChanges := hasChanges run; fixSession := st |}
               else
                 {| edit := edit run; hasChanges := hasChanges run; fixSession := st |}
           | None => run
           end
         else run)
      lines 0 {| edit := []; hasChanges := false; fixSession := st |} in
  (if hasChanges final then Some (edit final) else None, fixSession final).

End Batch.


Fixpoint splitEol (s : jsstring) : list jsstring :=
  match s with
  | [] => [[]]
  | c :: s' =>
      if N.eqb c 13 then
        match s' with
        | c' :: s'' => if N.eqb c' 10 then [] :: splitEol s'' else [] :: splitEol s'
        | [] => [] :: splitEol s'
        end
      else if N.eqb c 10 then [] :: splitEol s'
      else match splitEol s' with
           | l :: ls => (c :: l) :: ls
           | [] => [[c]]
           end
  end.

(** The host's validation of a position: a line past the end becomes the
    end of the last line, a character past the end of its line becomes
    the end of that line.  An empty list of lines behaves as the empty
    document, which has one empty line. *)
Definition validatePosition (lines : list jsstring) (l c : nat) : nat * nat :=
  if Nat.ltb l (List.length lines) then (l, Nat.min c (strlen (nth l lines [])))
  else (List.length lines - 1, strlen (nth (List.length lines - 1) lines [])).

Fixpoint appendToLast (pieces : list jsstring) (tail : jsstring) : list jsstring :=
  match pieces with
  | [] => [tail]
  | [p] => [p ++ tail]
  | p :: ps => p :: appendToLast ps tail
  end.

(** [head], the lines of the inserted text, [tail]: the first of the
    lines continues [head] and the last is continued by [tail]. *)
Definition spliced (head : jsstring) (pieces : list jsstring) (tail : jsstring)
  : list jsstring :=
  match appendToLast pieces tail with
  | p :: ps => (head ++ p) :: ps
  | [] => [head]
  end.

(** One replacement on the lines of the document: what stands between
    the two validated ends of the range gives way to the new text, and
    the new text brings its own line breaks.  (A [vscode.Range] is
    ordered; the ranges of this workflow run from the start of a line to
    a column of the same line.) *)
Definition replaceRange (lines : list jsstring) (r : Range) (text : jsstring)
  : list jsstring :=
  let (startL, startC) := validatePosition lines (startLine r) (startCharacter r) in
  let (endL, endC) := validatePosition lines (endLine r) (endCharacter r) in
  firstn startL lines
  ++ spliced (firstn startC (nth startL lines [])) (splitEol text)
             (skipn endC (nth endL lines []))
  ++ skipn (endL + 1) lines.

(** The host's [vscode.workspace.applyEdit].  The replacements of one
    edit refer to the document as it was.  The edits of this workflow
    list whole lines in strictly ascending order (a single one for
    [fixSpecificImageTag]), so that carrying them out from the last to
    the first is carrying them out at once. *)
Definition applyEdit (edit : WorkspaceEdit) (st : Session) : Session :=
  {| openai := openai st;
     errorMessages := errorMessages st;
     documentLines :=
       fold_right (fun r lines => replaceRange lines (replaced r) (newText r))
                  (documentLines st) edit |}.

(** The caller's [if (edit) { await vscode.workspace.applyEdit(edit); }]
    (imageChecker.ts, [autoFixSpecificImage]). *)
Definition applyIfAny (outcome : option WorkspaceEdit * Session) : Session :=
  match fst outcome with
  | Some edit => applyEdit edit (snd outcome)
  | None => snd outcome
  end.

End AltTagAutoFixer.

(* ================================================================== *)
(** * The detector registry *)
(* ================================================================== *)

(** Every detector under one calling convention,
    [(line, lineNumber, fullText) -> issue | null], family by family in the
    order the family runners list them. *)
Definition detector := jsstring -> nat -> jsstring -> option AccessibilityIssue.

Definition imageDetectors : list detector := [
  fun l n _ => ImageChecker.checkImageAltAttributes l n;
  fun l n _ => ImageChecker.checkEmptyAltAttributes l n
].

Definition formDetectors : list detector := [
  fun l n _ => FormElementsChecker.checkFormInputLabels l n;
  fun l n _ => FormElementsChecker.checkFormLabels l n
].

Definition otherDetectors : list detector := [
  fun l n t => OtherAccessibilityChecker.checkHeadingStructure l n t;
  fun l n _ => OtherAccessibilityChecker.checkHtmlLangAttribute l n;
  fun l n _ => OtherAccessibilityChecker.checkKeyboardAccessibility l n;
  fun l n _ => OtherAccessibilityChecker.checkColorOnlyInformation l n;
  fun l n _ => OtherAccessibilityChecker.checkFocusIndicators l n
].

Definition ariaDetectors (toLowerCase : jsstring -> jsstring) : list detector := [
  fun l n _ => AriaLabelRoleChecker.checkMissingAriaLabel l n;
  fun l n _ => AriaLabelRoleChecker.checkEmptyAriaLabel l n;
  fun l n _ => AriaLabelRoleChecker.checkRedundantAriaLabel l n;
  fun l n _ => AriaLabelRoleChecker.checkInvalidRole toLowerCase l n;
  fun l n _ => AriaLabelRoleChecker.checkRedundantRole toLowerCase l n;
  fun l n t => AriaLabelRoleChecker.checkMissingAriaLabelledbyReference l n t;
  fun l n t => AriaLabelRoleChecker.checkMissingAriaDescribedbyReference l n t;
  fun l n _ => AriaLabelRoleChecker.checkMissingAriaExpanded l n;
  fun l n _ => AriaLabelRoleChecker.checkIncorrectAriaExpanded toLowerCase l n;
  fun l n _ => AriaLabelRoleChecker.checkMissingAriaHiddenOnDecorative l n;
  fun l n _ => AriaLabelRoleChecker.checkConflictingAriaHiddenAndRole l n;
  fun l n _ => AriaLabelRoleChecker.checkMissingAriaDisabled l n;
  fun l n _ => AriaLabelRoleChecker.checkMissingAriaRequired l n;
  fun l n _ => AriaLabelRoleChecker.checkMissingAriaInvalid l n;
  fun l n _ => AriaLabelRoleChecker.checkEmptyButtonElements l n
].

Definition tabIndexDetectors : list detector := [
  fun l n _ => TabIndexChecker.checkNegativeTabIndex l n;
  fun l n _ => TabIndexChecker.checkTabIndexZeroOnNonInteractive l n;
  fun l n _ => TabIndexChecker.checkMissingTabIndexOnCustomInteractive l n;
  fun l n _ => TabIndexChecker.checkTabIndexOnPresentationRole l n;
  fun l n _ => TabIndexChecker.checkTabIndexOnNoneRole l n;
  fun l n _ => TabIndexChecker.checkTabIndexOnAriaHidden l n;
  fun l n _ => TabIndexChecker.checkRedundantTabIndexOnFocusable l n;
  fun l n _ => TabIndexChecker.checkPositiveTabIndex l n;
  fun l n _ => TabIndexChecker.checkMissingTabIndexOnClickable l n;
  fun l n _ => TabIndexChecker.checkDisabledElementWithTabIndex l n;
  fun l n _ => TabIndexChecker.checkTabIndexOnHiddenElement l n;
  fun l n _ => TabIndexChecker.checkMissingTabIndexOnModalTrigger l n;
  fun l n _ => TabIndexChecker.checkMissingTabIndexOnCustomFormControl l n;
  fun l n _ => TabIndexChecker.checkTabIndexOnDecorativeElement l n;
  fun l n _ => TabIndexChecker.checkInconsistentTabIndexUsage l n;
  fun l n _ => TabIndexChecker.checkTabIndexOnNonInteractiveElement l n
].

Definition semanticDetectors : list detector := [
  fun l n t => SemanticHtmlChecker.checkHeadingHierarchy l n t;
  fun l n _ => SemanticHtmlChecker.checkHtmlLangAttribute l n;
  fun l n _ => SemanticHtmlChecker.checkListStructure l n;
  fun l n _ => SemanticHtmlChecker.checkTableStructure l n;
  fun l n _ => SemanticHtmlChecker.checkFormStructure l n;
  fun l n _ => SemanticHtmlChecker.checkButtonUsage l n;
  fun l n _ => SemanticHtmlChecker.checkLinkUsage l n;
  fun l n _ => SemanticHtmlChecker.checkLandmarkUsage l n;
  fun l n _ => SemanticHtmlChecker.checkSectioningElements l n;
  fun l n _ => SemanticHtmlChecker.checkNavigationStructure l n;
  fun l n t => SemanticHtmlChecker.checkDocumentStructure l n t
].

Definition keyboardDetectors : list detector := [
  fun l n _ => KeyboardNavigationChecker.checkKeyboardAccessibility l n;
  fun l n _ => KeyboardNavigationChecker.checkKeyboardTrap l n;
  fun l n _ => KeyboardNavigationChecker.checkMissingKeyboardHandlers l n;
  fun l n _ => KeyboardNavigationChecker.checkKeyboardNavigationOrder l n;
  fun l n t => KeyboardNavigationChecker.checkMissingSkipLinks l n t;
  fun l n _ => KeyboardNavigationChecker.checkKeyboardShortcuts l n;
  fun l n _ => KeyboardNavigationChecker.checkAriaKeyboardNavigation l n;
  fun l n _ => KeyboardNavigationChecker.checkFormKeyboardNavigation l n
].

Definition focusDetectors : list detector := [
  fun l n _ => FocusManagementChecker.checkFocusOrder l n;
  fun l n _ => FocusManagementChecker.checkFocusTrap l n;
  fun l n _ => FocusManagementChecker.checkMissingFocusIndicators l n;
  fun l n _ => FocusManagementChecker.checkDynamicFocusManagement l n;
  fun l n _ => FocusManagementChecker.checkAriaFocusManagement l n;
  fun l n _ => FocusManagementChecker.checkFormFocusManagement l n;
  fun l n _ => FocusManagementChecker.checkSPAFocusManagement l n;
  fun l n _ => FocusManagementChecker.checkCollapsibleFocusManagement l n;
  fun l n _ => FocusManagementChecker.checkTableFocusManagement l n
].

Definition inputPurposeDetectors (toLowerCase : jsstring -> jsstring)
  : list detector := [
  fun l n _ => InputPurposeChecker.checkMissingAutocomplete l n;
  fun l n _ => InputPurposeChecker.checkInvalidAutocomplete l n;
  fun l n _ => InputPurposeChecker.checkInputTypeAutocompleteMismatch l n;
  fun l n _ => InputPurposeChecker.checkPersonalInformationFields toLowerCase l n;
  fun l n _ => InputPurposeChecker.checkFinancialFields toLowerCase l n;
  fun l n _ => InputPurposeChecker.checkAuthenticationFields toLowerCase l n;
  fun l n _ => InputPurposeChecker.checkContactFields toLowerCase l n;
  fun l n _ => InputPurposeChecker.checkAddressFields toLowerCase l n;
  fun l n _ => InputPurposeChecker.checkAutocompleteOffOnUserFields toLowerCase l n
].

Definition labelNameDetectors (toLowerCase : jsstring -> jsstring)
  : list detector := [
  fun l n _ => LabelNameConsistencyChecker.checkLabelNameConsistencyIssue toLowerCase l n;
  fun l n _ => LabelNameConsistencyChecker.checkMissingAccessibleNames l n;
  fun l n _ => LabelNameConsistencyChecker.checkRedundantAccessibleNames toLowerCase l n;
  fun l n _ => LabelNameConsistencyChecker.checkConflictingAccessibleNames l n;
  fun l n _ => LabelNameConsistencyChecker.checkEmptyAccessibleNames l n;
  fun l n _ => LabelNameConsistencyChecker.checkAccessibleNamesOnNonInteractive l n;
  fun l n _ => LabelNameConsistencyChecker.checkFormElementAccessibleNames l n;
  fun l n _ => LabelNameConsistencyChecker.checkCustomControlAccessibleNames l n;
  fun l n _ => LabelNameConsistencyChecker.checkImageAccessibleNames l n
].

Definition colorContrastDetectors : list detector := [
  fun l n _ => ColorContrastChecker.checkColorContrastIssue l n;
  fun l n _ => ColorContrastChecker.checkColorOnlyInformation l n;
  fun l n _ => ColorContrastChecker.checkNonTextContrast l n;
  fun l n _ => ColorContrastChecker.checkFocusIndicatorContrast l n;
  fun l n _ => ColorContrastChecker.checkTextSpacing l n
].

(** The families the aggregator runs, in the order of its
    [allIssues] array. *)
Definition aggregatedFamilies (toLowerCase : jsstring -> jsstring)
  : list (list detector) := [
  imageDetectors;
  formDetectors;
  otherDetectors;
  ariaDetectors toLowerCase;
  tabIndexDetectors;
  semanticDetectors
].

(** The families with a runner of their own that the aggregator does not
    call. *)
Definition standaloneFamilies (toLowerCase : jsstring -> jsstring)
  : list (list detector) := [
  keyboardDetectors;
  focusDetectors;
  inputPurposeDetectors toLowerCase;
  labelNameDetectors toLowerCase;
  colorContrastDetectors
].

(** Every detector of the sources. *)
Definition allFamilies (toLowerCase : jsstring -> jsstring)
  : list (list detector) :=
  aggregatedFamilies toLowerCase ++ standaloneFamilies toLowerCase.

(** The non-null results of a list of detectors on one line, in order. *)
Definition present (check : option AccessibilityIssue) : list AccessibilityIssue :=
  match check with
  | Some found_issue => [found_issue]
  | None => []
  end.

Definition runFamily (family : list detector) (line : jsstring) (lineNumber : nat)
           (fullText : jsstring) : list AccessibilityIssue :=
  flat_map (fun d => present (d line lineNumber fullText)) family.

(** The lines of a document with their zero-based indices. *)
Definition indexedFrom {A : Type} (start : nat) (xs : list A) : list (nat * A) :=
  combine (seq start (List.length xs)) xs.

(** An issue anchored to the whole physical line [l] at index [n]. *)
Definition wholeLine (l : jsstring) (n : nat) (i : AccessibilityIssue) : Prop :=
  range i = mkRange n 0 n (strlen l) /\ line i = n + 1.

Definition hasSeverity (level : jsstring) (i : AccessibilityIssue) : bool :=
  jseq (severity i) level.

(** What one line contributes to a run: every aggregated family, in
    order. *)
Definition lineBlock (toLowerCase : jsstring -> jsstring) (fullText : jsstring)
           (entry : nat * jsstring) : list AccessibilityIssue :=
  flat_map (fun family => runFamily family (snd entry) (fst entry) fullText)
           (aggregatedFamilies toLowerCase).

(** An answer of the completion endpoint the workflow cannot use: the
    call failed, or the content is missing or blank. *)
Definition unusable (c : AltTagAutoFixer.Completion) : Prop :=
  match c with
  | AltTagAutoFixer.Rejected _ => True
  | AltTagAutoFixer.Fulfilled None => True
  | AltTagAutoFixer.Fulfilled (Some reply) => trim reply = []
  end.

(** The alt-text generation for the request [prompt] fails: no client can
    be had (none cached, and the credential is missing or the constructor
    throws), or the endpoint has no usable answer to this request. *)
Definition generationFails (service : AltTagAutoFixer.Service)
           (st : AltTagAutoFixer.Session) (prompt : jsstring) : Prop :=
  (AltTagAutoFixer.openai st = false
   /\ (truthy (AltTagAutoFixer.openaiApiKey service) = false
       \/ exists thrown,
           AltTagAutoFixer.newOpenAI service
             (showOptional (AltTagAutoFixer.openaiApiKey service)) = Some thrown))
  \/ unusable (AltTagAutoFixer.createCompletion service prompt).

(** A pattern made of visible characters only: trimming cannot cut into
    an occurrence of it. *)
Definition solid (p : jsstring) : Prop :=
  p <> [] /\ forallb (fun c => negb (isWhiteSpace c)) p = true.

(* ================================================================== *)
(** * What the patterns and the workflow are measured against *)
(* ================================================================== *)

(** The words a pattern matches: [accepts r w before after] says that [r]
    matches exactly the word [w], turning capture 1 from [before] into
    [after]. *)
Fixpoint accepts (r : regex) (w : jsstring) (before after : option jsstring) : Prop :=
  match r with
  | Chr c => w = [c] /\ after = before
  | Cls p => (exists x, w = [x] /\ p x = true) /\ after = before
  | Star p => forallb p w = true /\ after = before
  | StarLazy p => forallb p w = true /\ after = before
  | Plus p => w <> [] /\ forallb p w = true /\ after = before
  | Seq r1 r2 =>
      exists w1 w2 middle,
        w = w1 ++ w2 /\ accepts r1 w1 before middle /\ accepts r2 w2 middle after
  | Group r0 => (exists inner, accepts r0 w before inner) /\ after = Some w
  end.

(** A decimal numeral without a leading zero. *)
Definition positiveNumeral (v : jsstring) : Prop :=
  exists d ds, v = d :: ds /\ between "1" "9" d = true /\ forallb digit ds = true.

(** [text] is [line] with [attribute] inserted just before the first [>]
    that follows the first [<img] of the line. *)
Definition insertedBeforeTagEnd (line attribute text : jsstring) : Prop :=
  exists head tag tail,
    line = head ++ $"<img" ++ tag ++ $">" ++ tail
    /\ includes (head ++ $"<im") $"<img" = false
    /\ includes tag $">" = false
    /\ text = head ++ $"<img" ++ tag ++ attribute ++ $">" ++ tail.

(** The attribute text the workflow inserts for an alt text. *)
Definition altAttribute (alt : jsstring) : jsstring :=
  $" alt=~" ++ alt ++ $"~".

(** The lines of a document the batch workflow sends to the generator:
    [<img] and no [alt=] in the trimmed line, and an image tag with a
    quoted, non-empty [src]. *)
Definition fixable (line : jsstring) : bool :=
  includes (trim line) $"<img"
  && negb (includes (trim line) $"alt=")
  && matches (trim line) re_img_src.

(** [ys] extends [xs] at its end. *)
Definition extends {A : Type} (xs ys : list A) : Prop :=
  exists more, ys = xs ++ more.

(** The diagnostic the aggregator builds for an issue. *)
Definition diagnosticOf (i : AccessibilityIssue) : Diagnostic :=
  AccessibilityChecker.createDiagnostic
    (range i) (issue i) (AccessibilityChecker.getSeverity (severity i)).

(* ================================================================== *)
(** * Facts about the string primitives *)
(* ================================================================== *)

Section StringFacts.

Lemma startsWith_iff (s p : jsstring) :
  startsWith s p = true <-> exists b, s = p ++ b.
Proof.
  revert s; induction p as [|x p IH]; intros s; simpl.
  - split; [intros _; exists s; reflexivity | reflexivity].
  - destruct s as [|y s]; simpl.
    + split; [discriminate | intros [b Hb]; discriminate].
    + rewrite andb_true_iff, N.eqb_eq, IH. split.
      * intros [-> [b ->]]. exists b; reflexivity.
      * intros [b Hb]. injection Hb as -> ->. split; [reflexivity | eauto].
Qed.

Lemma includes_iff (s p : jsstring) :
  includes s p = true <-> exists a b, s = a ++ p ++ b.
Proof.
  induction s as [|c s IH]; simpl.
  - rewrite orb_false_r, startsWith_iff. split.
    + intros [b Hb]. exists [], b. exact Hb.
    + intros [a [b Hb]]. destruct a; simpl in Hb; [eauto | discriminate].
  - rewrite orb_true_iff, IH. split.
    + intros [H | [a [b ->]]].
      * apply startsWith_iff in H. destruct H as [b Hb].
        exists [], b. exact Hb.
      * exists (c :: a), b. reflexivity.
    + intros [a [b Hb]]. destruct a as [|c' a]; simpl in Hb.
      * left. apply startsWith_iff. eauto.
      * right. injection Hb as _ ->. eauto.
Qed.

(** Substring containment is transitive. *)
Lemma includes_trans (s t p : jsstring) :
  includes s t = true -> includes t p = true -> includes s p = true.
Proof.
  rewrite !includes_iff. intros [a [b ->]] [a' [b' ->]].
  exists (a ++ a'), (b' ++ b). now rewrite <- !app_assoc.
Qed.

Lemma trimStart_suffix (s : jsstring) : exists w, s = w ++ trimStart s.
Proof.
  induction s as [|c s [w IH]]; simpl.
  - exists []; reflexivity.
  - destruct (isWhiteSpace c).
    + exists (c :: w). simpl. now rewrite <- IH.
    + exists []. reflexivity.
Qed.

Lemma trimEnd_prefix (s : jsstring) : exists w, s = trimEnd s ++ w.
Proof.
  unfold trimEnd. destruct (trimStart_suffix (rev s)) as [w Hw].
  exists (rev w). rewrite <- rev_app_distr, <- Hw. now rewrite rev_involutive.
Qed.

(** The trimmed text is a contiguous piece of the line. *)
Lemma trim_inside (s : jsstring) : includes s (trim s) = true.
Proof.
  apply includes_iff. unfold trim.
  destruct (trimStart_suffix s) as [w1 H1].
  destruct (trimEnd_prefix (trimStart s)) as [w2 H2].
  exists w1, w2. now rewrite <- H2.
Qed.

Lemma includes_trim_line (s p : jsstring) :
  includes (trim s) p = true -> includes s p = true.
Proof. intros H. exact (includes_trans _ _ _ (trim_inside s) H). Qed.

Lemma solid_rev (p : jsstring) : solid p -> solid (rev p).
Proof.
  intros [Hne Hall]. split.
  - intros H. apply Hne. rewrite <- (rev_involutive p), H. reflexivity.
  - rewrite forallb_forall in *. intros c Hc. apply Hall. now apply in_rev.
Qed.

Lemma trimStart_keeps (p : jsstring) :
  solid p -> forall a b, exists a', trimStart (a ++ p ++ b) = a' ++ p ++ b.
Proof.
  intros [Hne Hall] a b. induction a as [|c a [a' IH]]; simpl.
  - destruct p as [|x p]; [congruence|]. simpl in *.
    apply andb_true_iff in Hall. destruct Hall as [Hx _].
    apply negb_true_iff in Hx. rewrite Hx. exists []. reflexivity.
  - destruct (isWhiteSpace c).
    + exists a'. exact IH.
    + exists (c :: a). reflexivity.
Qed.

Lemma trimEnd_keeps (p : jsstring) :
  solid p -> forall a b, exists b', trimEnd (a ++ p ++ b) = a ++ p ++ b'.
Proof.
  intros Hp a b. unfold trimEnd.
  rewrite !rev_app_distr, <- app_assoc.
  destruct (trimStart_keeps (rev p) (solid_rev p Hp) (rev b) (rev a)) as [b' Hb'].
  rewrite Hb'. exists (rev b').
  now rewrite !rev_app_distr, !rev_involutive, <- app_assoc.
Qed.

(** Trimming cannot cut into an occurrence of a visible pattern. *)
Lemma includes_line_trim (s p : jsstring) :
  solid p -> includes s p = true -> includes (trim s) p = true.
Proof.
  intros Hp. rewrite !includes_iff. intros [a [b ->]]. unfold trim.
  destruct (trimStart_keeps p Hp a b) as [a' ->].
  destruct (trimEnd_keeps p Hp a' b) as [b' ->]. eauto.
Qed.

Lemma includes_trim_eq (s p : jsstring) :
  solid p -> includes (trim s) p = includes s p.
Proof.
  intros Hp. apply eq_true_iff_eq. split.
  - apply includes_trim_line.
  - now apply includes_line_trim.
Qed.

Lemma includes_extend (s p q r : jsstring) :
  includes s (q ++ p ++ r) = true -> includes s p = true.
Proof.
  rewrite !includes_iff. intros [a [b ->]].
  exists (a ++ q), (r ++ b). now rewrite <- !app_assoc.
Qed.

Lemma split_lf_nonempty (text : jsstring) : split_lf text <> [].
Proof.
  destruct text as [|c text]; cbn [split_lf]; [discriminate|].
  destruct (N.eqb c 10); [discriminate|].
  destruct (split_lf text); discriminate.
Qed.

(** The first piece of [split] is a prefix of the text. *)
Lemma split_lf_head (text l0 : jsstring) (ls : list jsstring) :
  split_lf text = l0 :: ls -> exists b, text = l0 ++ b.
Proof.
  revert l0 ls. induction text as [|c text IH]; cbn [split_lf]; intros l0 ls E.
  - injection E as <- <-. exists []. reflexivity.
  - destruct (N.eqb c 10).
    + injection E as <- <-. exists (c :: text). reflexivity.
    + destruct (split_lf text) as [|l1 ls1] eqn:E1.
      * now apply split_lf_nonempty in E1.
      * injection E as <- <-. destruct (IH _ _ eq_refl) as [b ->].
        exists b. reflexivity.
Qed.

(** Every piece of [split] is a contiguous piece of the text. *)
Lemma split_lf_inside (text l : jsstring) :
  In l (split_lf text) -> includes text l = true.
Proof.
  revert l. induction text as [|c text IH]; intros l; cbn [split_lf].
  - intros [<- | []]. reflexivity.
  - destruct (N.eqb c 10).
    + intros [<- | H].
      * apply includes_iff. exists [], (c :: text). reflexivity.
      * apply IH, includes_iff in H. destruct H as [a [b ->]].
        apply includes_iff. exists (c :: a), b. reflexivity.
    + destruct (split_lf text) as [|l0 ls] eqn:E.
      * now apply split_lf_nonempty in E.
      * intros [<- | H].
        -- destruct (split_lf_head _ _ _ E) as [b ->].
           apply includes_iff. exists [], b. reflexivity.
        -- assert (H0 : includes text l = true) by (apply IH; now right).
           apply includes_iff in H0. destruct H0 as [a [b ->]].
           apply includes_iff. exists (c :: a), b. reflexivity.
Qed.

End StringFacts.

(* ================================================================== *)
(** * Facts about the runners *)
(* ================================================================== *)

Lemma jseq_eq (a b : jsstring) : jseq a b = true <-> a = b.
Proof.
  revert b; induction a as [|x a IH]; intros [|y b]; simpl;
    try (split; [discriminate | discriminate]); [tauto|].
  rewrite andb_true_iff, N.eqb_eq, IH. split.
  - intros [-> ->]; reflexivity.
  - intros H; injection H as -> ->; auto.
Qed.

Lemma jseq_neq (a b : jsstring) : a <> b -> jseq a b = false.
Proof.
  intros H. destruct (jseq a b) eqn:E; [|reflexivity].
  apply jseq_eq in E. contradiction.
Qed.

(** The push loop keeps the non-null checks, in order. *)
Lemma pushChecks_present (checks : list (option AccessibilityIssue)) :
  pushChecks checks = flat_map present checks.
Proof.
  unfold pushChecks.
  assert (G : forall acc,
             fold_left
               (fun issues check =>
                  match check with
                  | Some found_issue => issues ++ [found_issue]
                  | None => issues
                  end) checks acc = acc ++ flat_map present checks).
  { induction checks as [|c cs IH]; intros acc; simpl.
    - now rewrite app_nil_r.
    - rewrite IH. destruct c; simpl; [now rewrite <- app_assoc | reflexivity]. }
  exact (G []).
Qed.

Lemma runFamily_map (family : list detector) l n t :
  runFamily family l n t = flat_map present (map (fun d => d l n t) family).
Proof.
  unfold runFamily. induction family as [|d ds IH]; simpl; [reflexivity|].
  now rewrite IH.
Qed.

Lemma In_runFamily (family : list detector) l n t i :
  In i (runFamily family l n t) <-> exists d, In d family /\ d l n t = Some i.
Proof.
  unfold runFamily. rewrite in_flat_map. split.
  - intros [d [Hd Hi]]. exists d. split; [exact Hd|].
    destruct (d l n t); simpl in Hi; [|contradiction].
    destruct Hi as [-> | []]. reflexivity.
  - intros [d [Hd Hi]]. exists d. split; [exact Hd|].
    rewrite Hi. now left.
Qed.

(** Each family runner is its registry run in order. *)
Lemma checkImages_registry l n t :
  ImageChecker.checkImages l n = runFamily imageDetectors l n t.
Proof. unfold ImageChecker.checkImages. now rewrite pushChecks_present, runFamily_map. Qed.

Lemma checkFormElements_registry l n t :
  FormElementsChecker.checkFormElements l n = runFamily formDetectors l n t.
Proof.
  unfold FormElementsChecker.checkFormElements.
  now rewrite pushChecks_present, runFamily_map.
Qed.

Lemma checkOtherAccessibility_registry l n t :
  OtherAccessibilityChecker.checkOtherAccessibility l n t = runFamily otherDetectors l n t.
Proof.
  unfold OtherAccessibilityChecker.checkOtherAccessibility.
  now rewrite pushChecks_present, runFamily_map.
Qed.

Lemma checkAriaLabelAndRole_registry lower l n t :
  AriaLabelRoleChecker.checkAriaLabelAndRole lower l n t
  = runFamily (ariaDetectors lower) l n t.
Proof.
  unfold AriaLabelRoleChecker.checkAriaLabelAndRole.
  now rewrite pushChecks_present, runFamily_map.
Qed.

Lemma checkTabIndex_registry l n t :
  TabIndexChecker.checkTabIndex l n = runFamily tabIndexDetectors l n t.
Proof. unfold TabIndexChecker.checkTabIndex. now rewrite pushChecks_present, runFamily_map. Qed.

Lemma checkSemanticHtml_registry l n t :
  SemanticHtmlChecker.checkSemanticHtml l n t = runFamily semanticDetectors l n t.
Proof.
  unfold SemanticHtmlChecker.checkSemanticHtml.
  now rewrite pushChecks_present, runFamily_map.
Qed.

Lemma checkKeyboardNavigation_registry l n t :
  KeyboardNavigationChecker.checkKeyboardNavigation l n t = runFamily keyboardDetectors l n t.
Proof.
  unfold KeyboardNavigationChecker.checkKeyboardNavigation.
  now rewrite pushChecks_present, runFamily_map.
Qed.

Lemma checkFocusManagement_registry l n t :
  FocusManagementChecker.checkFocusManagement l n = runFamily focusDetectors l n t.
Proof.
  unfold FocusManagementChecker.checkFocusManagement.
  now rewrite pushChecks_present, runFamily_map.
Qed.

Lemma checkInputPurpose_registry lower l n t :
  InputPurposeChecker.checkInputPurpose lower l n
  = runFamily (inputPurposeDetectors lower) l n t.
Proof.
  unfold InputPurposeChecker.checkInputPurpose.
  now rewrite pushChecks_present, runFamily_map.
Qed.

Lemma checkLabelNameConsistency_registry lower l n t :
  LabelNameConsistencyChecker.checkLabelNameConsistency lower l n
  = runFamily (labelNameDetectors lower) l n t.
Proof.
  unfold LabelNameConsistencyChecker.checkLabelNameConsistency.
  now rewrite pushChecks_present, runFamily_map.
Qed.

Lemma checkColorContrastIssues_registry l n t :
  ColorContrastChecker.checkColorContrastIssues l n = runFamily colorContrastDetectors l n t.
Proof.
  unfold ColorContrastChecker.checkColorContrastIssues.
  now rewrite pushChecks_present, runFamily_map.
Qed.

(** ** Spans, detector by detector *)

Create HintDb detectors discriminated.

#[local] Hint Unfold
  ImageChecker.checkImageAltAttributes ImageChecker.checkEmptyAltAttributes
  FormElementsChecker.checkFormInputLabels FormElementsChecker.checkFormLabels
  OtherAccessibilityChecker.checkHeadingStructure
  OtherAccessibilityChecker.checkHtmlLangAttribute
  OtherAccessibilityChecker.checkKeyboardAccessibility
  OtherAccessibilityChecker.checkColorOnlyInformation
  OtherAccessibilityChecker.checkFocusIndicators
  AriaLabelRoleChecker.checkMissingAriaLabel AriaLabelRoleChecker.checkEmptyAriaLabel
  AriaLabelRoleChecker.checkRedundantAriaLabel AriaLabelRoleChecker.checkInvalidRole
  AriaLabelRoleChecker.checkRedundantRole
  AriaLabelRoleChecker.checkMissingAriaLabelledbyReference
  AriaLabelRoleChecker.checkMissingAriaDescribedbyReference
  AriaLabelRoleChecker.checkMissingAriaExpanded
  AriaLabelRoleChecker.checkIncorrectAriaExpanded
  AriaLabelRoleChecker.checkMissingAriaHiddenOnDecorative
  AriaLabelRoleChecker.checkConflictingAriaHiddenAndRole
  AriaLabelRoleChecker.checkMissingAriaDisabled
  AriaLabelRoleChecker.checkMissingAriaRequired
  AriaLabelRoleChecker.checkMissingAriaInvalid
  AriaLabelRoleChecker.checkEmptyButtonElements
  TabIndexChecker.checkNegativeTabIndex
  TabIndexChecker.checkTabIndexZeroOnNonInteractive
  TabIndexChecker.checkMissingTabIndexOnCustomInteractive
  TabIndexChecker.checkTabIndexOnPresentationRole
  TabIndexChecker.checkTabIndexOnNoneRole
  TabIndexChecker.checkTabIndexOnAriaHidden
  TabIndexChecker.checkRedundantTabIndexOnFocusable
  TabIndexChecker.checkPositiveTabIndex
  TabIndexChecker.checkMissingTabIndexOnClickable
  TabIndexChecker.checkDisabledElementWithTabIndex
  TabIndexChecker.checkTabIndexOnHiddenElement
  TabIndexChecker.checkMissingTabIndexOnModalTrigger
  TabIndexChecker.checkMissingTabIndexOnCustomFormControl
  TabIndexChecker.checkTabIndexOnDecorativeElement
  TabIndexChecker.checkInconsistentTabIndexUsage
  TabIndexChecker.checkTabIndexOnNonInteractiveElement
  SemanticHtmlChecker.checkHeadingHierarchy SemanticHtmlChecker.checkHtmlLangAttribute
  SemanticHtmlChecker.checkListStructure SemanticHtmlChecker.checkTableStructure
  SemanticHtmlChecker.checkFormStructure SemanticHtmlChecker.checkButtonUsage
  SemanticHtmlChecker.checkLinkUsage SemanticHtmlChecker.checkLandmarkUsage
  SemanticHtmlChecker.checkSectioningElements
  SemanticHtmlChecker.checkNavigationStructure
  SemanticHtmlChecker.checkDocumentStructure
  KeyboardNavigationChecker.checkKeyboardAccessibility
  KeyboardNavigationChecker.checkKeyboardTrap
  KeyboardNavigationChecker.checkMissingKeyboardHandlers
  KeyboardNavigationChecker.checkKeyboardNavigationOrder
  KeyboardNavigationChecker.checkMissingSkipLinks
  KeyboardNavigationChecker.checkKeyboardShortcuts
  KeyboardNavigationChecker.checkAriaKeyboardNavigation
  KeyboardNavigationChecker.checkFormKeyboardNavigation
  FocusManagementChecker.checkFocusOrder FocusManagementChecker.checkFocusTrap
  FocusManagementChecker.checkMissingFocusIndicators
  FocusManagementChecker.checkDynamicFocusManagement
  FocusManagementChecker.checkAriaFocusManagement
  FocusManagementChecker.checkFormFocusManagement
  FocusManagementChecker.checkSPAFocusManagement
  FocusManagementChecker.checkCollapsibleFocusManagement
  FocusManagementChecker.checkTableFocusManagement
  InputPurposeChecker.checkMissingAutocomplete
  InputPurposeChecker.checkInvalidAutocomplete
  InputPurposeChecker.checkInputTypeAutocompleteMismatch
  InputPurposeChecker.checkPersonalInformationFields
  InputPurposeChecker.checkFinancialFields
  InputPurposeChecker.checkAuthenticationFields
  InputPurposeChecker.checkContactFields
  InputPurposeChecker.checkAddressFields
  InputPurposeChecker.checkAutocompleteOffOnUserFields
  LabelNameConsistencyChecker.checkLabelNameConsistencyIssue
  LabelNameConsistencyChecker.checkMissingAccessibleNames
  LabelNameConsistencyChecker.checkRedundantAccessibleNames
  LabelNameConsistencyChecker.checkConflictingAccessibleNames
  LabelNameConsistencyChecker.checkEmptyAccessibleNames
  LabelNameConsistencyChecker.checkAccessibleNamesOnNonInteractive
  LabelNameConsistencyChecker.checkFormElementAccessibleNames
  LabelNameConsistencyChecker.checkCustomControlAccessibleNames
  LabelNameConsistencyChecker.checkImageAccessibleNames
  ColorContrastChecker.checkColorContrastIssue
  ColorContrastChecker.checkColorOnlyInformation
  ColorContrastChecker.checkNonTextContrast
  ColorContrastChecker.checkFocusIndicatorContrast
  ColorContrastChecker.checkTextSpacing
  returning
  : detectors.

(** Walk through the branches of a detector body that returned an issue. *)
Ltac returned_issue H :=
  autounfold with detectors in H; cbv beta zeta in H;
  repeat match type of H with
         | context [match ?c with _ => _ end] =>
             lazymatch c with
             | context [match _ with _ => _ end] => fail
             | _ => destruct c
             end
         end;
  first [discriminate H | injection H as <-].

Ltac each_detector H :=
  repeat (destruct H as [<- | H]); [.. | contradiction H].

Lemma detector_wholeLine lower (family : list detector) (d : detector) :
  In family (allFamilies lower) -> In d family ->
  forall l n t i, d l n t = Some i -> wholeLine l n i.
Proof.
  unfold allFamilies, aggregatedFamilies, standaloneFamilies.
  cbn [app]. intros Hf Hd l n t i H.
  each_detector Hf; each_detector Hd;
    returned_issue H; split; reflexivity.
Qed.

Lemma aggregated_detector_wholeLine lower (family : list detector) (d : detector) :
  In family (aggregatedFamilies lower) -> In d family ->
  forall l n t i, d l n t = Some i -> wholeLine l n i.
Proof.
  intros Hf. apply (detector_wholeLine lower). unfold allFamilies.
  apply in_or_app. now left.
Qed.

(** ** The aggregation loop *)

Section Aggregation.

Variable toLowerCase : jsstring -> jsstring.
Variable text : jsstring.

Lemma push_all_issues (allIssues : list AccessibilityIssue) st :
  AccessibilityChecker.issues
    (fold_left
       (fun st' found_issue =>
          {| AccessibilityChecker.issues :=
               AccessibilityChecker.issues st' ++ [found_issue];
             AccessibilityChecker.diagnostics :=
               AccessibilityChecker.diagnostics st'
               ++ [AccessibilityChecker.createDiagnostic
                     (range found_issue) (issue found_issue)
                     (AccessibilityChecker.getSeverity (severity found_issue))] |})
       allIssues st)
  = AccessibilityChecker.issues st ++ allIssues.
Proof.
  revert st. induction allIssues as [|i rest_issues IH]; intros st; simpl.
  - now rewrite app_nil_r.
  - rewrite IH. simpl. now rewrite <- app_assoc.
Qed.

Lemma lineBlock_families index l :
  lineBlock toLowerCase text (index, l)
  = ImageChecker.checkImages l index
    ++ FormElementsChecker.checkFormElements l index
    ++ OtherAccessibilityChecker.checkOtherAccessibility l index text
    ++ AriaLabelRoleChecker.checkAriaLabelAndRole toLowerCase l index text
    ++ TabIndexChecker.checkTabIndex l index
    ++ SemanticHtmlChecker.checkSemanticHtml l index text.
Proof.
  unfold lineBlock, aggregatedFamilies. cbn [flat_map fst snd].
  rewrite app_nil_r.
  now rewrite (checkImages_registry l index text),
              (checkFormElements_registry l index text),
              checkOtherAccessibility_registry, checkAriaLabelAndRole_registry,
              (checkTabIndex_registry l index text), checkSemanticHtml_registry.
Qed.

Lemma lineBlock_wholeLine index l i :
  In i (lineBlock toLowerCase text (index, l)) -> wholeLine l index i.
Proof.
  unfold lineBlock. rewrite in_flat_map. intros [family [Hf Hi]].
  apply In_runFamily in Hi. destruct Hi as [d [Hd Hi]].
  eapply aggregated_detector_wholeLine; eauto.
Qed.

Lemma indexedFrom_cons {A : Type} k (x : A) xs :
  indexedFrom k (x :: xs) = (k, x) :: indexedFrom (k + 1) xs.
Proof. unfold indexedFrom. simpl. now rewrite Nat.add_1_r. Qed.

Lemma In_indexedFrom {A : Type} (xs : list A) k index x :
  In (index, x) (indexedFrom k xs) <->
  k <= index /\ nth_error xs (index - k) = Some x.
Proof.
  revert k. induction xs as [|y ys IH]; intros k.
  - unfold indexedFrom. simpl. split; [contradiction|].
    intros [_ H]. now destruct (index - k).
  - rewrite indexedFrom_cons. simpl. rewrite IH. split.
    + intros [H | [Hle Hnth]].
      * injection H as <- <-. split; [lia|]. now rewrite Nat.sub_diag.
      * split; [lia|]. replace (index - k) with (S (index - (k + 1))) by lia.
        exact Hnth.
    + intros [Hle Hnth]. destruct (Nat.eq_dec k index) as [<- | Hne].
      * left. rewrite Nat.sub_diag in Hnth. simpl in Hnth. congruence.
      * right. split; [lia|].
        replace (index - k) with (S (index - (k + 1))) in Hnth by lia.
        exact Hnth.
Qed.

Lemma forEach_issues (lines : list jsstring) k st :
  AccessibilityChecker.issues
    (forEachIndexed
       (fun st line index =>
          let lineNumber := index in
          let imageIssues := ImageChecker.checkImages line lineNumber in
          let formIssues := FormElementsChecker.checkFormElements line lineNumber in
          let otherIssues :=
            OtherAccessibilityChecker.checkOtherAccessibility line lineNumber text in
          let ariaRoleIssues :=
            AriaLabelRoleChecker.checkAriaLabelAndRole toLowerCase line lineNumber text in
          let tabIndexIssues := TabIndexChecker.checkTabIndex line lineNumber in
          let semanticHtmlIssues :=
            SemanticHtmlChecker.checkSemanticHtml line lineNumber text in
          let allIssues :=
            imageIssues ++ formIssues ++ otherIssues ++ ariaRoleIssues
            ++ tabIndexIssues ++ semanticHtmlIssues in
          fold_left
            (fun st' found_issue =>
               {| AccessibilityChecker.issues :=
                    AccessibilityChecker.issues st' ++ [found_issue];
                  AccessibilityChecker.diagnostics :=
                    AccessibilityChecker.diagnostics st'
                    ++ [AccessibilityChecker.createDiagnostic
                          (range found_issue) (issue found_issue)
                          (AccessibilityChecker.getSeverity (severity found_issue))] |})
            allIssues st)
       lines k st)
  = AccessibilityChecker.issues st ++ flat_map (lineBlock toLowerCase text) (indexedFrom k lines).
Proof.
  revert k st. induction lines as [|l ls IH]; intros k st.
  - simpl. now rewrite app_nil_r.
  - cbn [forEachIndexed]. rewrite IH. cbv zeta. rewrite push_all_issues.
    rewrite indexedFrom_cons. cbn [flat_map]. rewrite lineBlock_families.
    now rewrite <- app_assoc.
Qed.

Lemma issues_by_line :
  AccessibilityChecker.issues
    (AccessibilityChecker.checkAccessibilityIssues toLowerCase text)
  = flat_map (lineBlock toLowerCase text) (indexedFrom 0 (split_lf text)).
Proof.
  unfold AccessibilityChecker.checkAccessibilityIssues. cbv zeta.
  now rewrite forEach_issues.
Qed.

Lemma sorted_app (xs ys : list nat) :
  StronglySorted le xs -> StronglySorted le ys ->
  (forall x y, In x xs -> In y ys -> x <= y) ->
  StronglySorted le (xs ++ ys).
Proof.
  induction xs as [|x xs IH]; intros Hx Hy Hxy; simpl; [exact Hy|].
  inversion Hx as [|? ? Hs Hall]; subst. constructor.
  - apply IH; auto. intros; apply Hxy; simpl; auto.
  - apply Forall_app. split; [exact Hall|].
    apply Forall_forall. intros y Hin. apply Hxy; simpl; auto.
Qed.

Lemma constant_sorted (v : nat) (xs : list nat) :
  (forall x, In x xs -> x = v) -> StronglySorted le xs.
Proof.
  induction xs as [|x xs IH]; intros H; constructor.
  - apply IH. intros; apply H; simpl; auto.
  - apply Forall_forall. intros y Hy.
    rewrite (H x), (H y); simpl; auto.
Qed.

Lemma blocks_sorted (lines : list jsstring) k :
  StronglySorted le (map line (flat_map (lineBlock toLowerCase text) (indexedFrom k lines)))
  /\ (forall x, In x (map line (flat_map (lineBlock toLowerCase text) (indexedFrom k lines))) -> k + 1 <= x).
Proof.
  revert k. induction lines as [|l ls IH]; intros k.
  - unfold indexedFrom. simpl. split; [constructor | contradiction].
  - rewrite indexedFrom_cons. cbn [flat_map]. rewrite map_app.
    destruct (IH (k + 1)) as [Hs Hb].
    assert (Hk : forall x, In x (map line (lineBlock toLowerCase text (k, l))) -> x = k + 1).
    { intros x Hx. apply in_map_iff in Hx. destruct Hx as [i [<- Hi]].
      apply lineBlock_wholeLine in Hi. now destruct Hi. }
    split.
    + apply sorted_app; [now apply constant_sorted with (v := k + 1) | exact Hs |].
      intros x y Hx Hy. rewrite (Hk x Hx). specialize (Hb y Hy). lia.
    + intros x Hx. apply in_app_or in Hx. destruct Hx as [Hx | Hx].
      * rewrite (Hk x Hx). lia.
      * specialize (Hb x Hx). lia.
Qed.

End Aggregation.

(** The aggregator runs the six families of [aggregatedFamilies] and no
    other: what a stand-alone runner finds on a line is not part of a run.
    Here the keyboard-navigation runner on a clickable div. *)
Remark standalone_runner_outside_the_run :
  let text := $"<div onclick=~f()~>x</div>" in
  let finding :=
    {| line := 1;
       issue := $"Clickable element missing keyboard support - add onkeydown/onkeyup handlers or use semantic button element";
       severity := $"HIGH";
       range := mkRange 0 0 0 26 |} in
  In finding (KeyboardNavigationChecker.checkKeyboardNavigation text 0 text)
  /\ ~ In finding
       (AccessibilityChecker.issues
          (AccessibilityChecker.checkAccessibilityIssues toLowerCaseBasicLatin text)).
Proof.
  cbv zeta. split.
  - vm_compute. auto.
  - vm_compute. intros H.
    repeat (destruct H as [H | H]; [discriminate H|]). exact H.
Qed.

(** ** The repair workflow *)

Section Repair.

Import AltTagAutoFixer.

Variable service : Service.

Lemma initializeOpenAI_document st :
  documentLines (snd (initializeOpenAI service st)) = documentLines st.
Proof.
  unfold initializeOpenAI. destruct (openai st); [reflexivity|].
  destruct (negb (truthy (openaiApiKey service))); [reflexivity|].
  now destruct (newOpenAI service _).
Qed.

Lemma generateAltText_document imageSrc context st :
  documentLines (snd (generateAltText service imageSrc context st)) = documentLines st.
Proof.
  unfold generateAltText.
  pose proof (initializeOpenAI_document st) as H.
  destruct (initializeOpenAI service st) as [initialized st1]. simpl in H.
  destruct initialized; simpl; [|exact H].
  destruct (createCompletion service _) as [reason | content]; [exact H|].
  now destruct (negb (truthy (option_map trim content))).
Qed.

(** The edit computation never writes to the document. *)
Lemma fixSpecificImageTag_document documentUri n lineText st :
  documentLines (snd (fixSpecificImageTag service documentUri n lineText st))
  = documentLines st.
Proof.
  unfold fixSpecificImageTag. cbv zeta.
  destruct (negb (includes (trim lineText) $"<img") || includes (trim lineText) $"alt=");
    [reflexivity|].
  destruct (exec (trim lineText) re_img_src) as [m|]; [|reflexivity].
  pose proof (generateAltText_document (group1 m) None st) as H.
  destruct (generateAltText service (group1 m) None st) as [result st1]. simpl in H.
  destruct (negb (success result) || negb (truthy (altText result))); [exact H|].
  now destruct (_ || _).
Qed.

Lemma initializeOpenAI_no_client st :
  openai st = false ->
  truthy (openaiApiKey service) = false
  \/ (exists thrown,
        newOpenAI service (showOptional (openaiApiKey service)) = Some thrown) ->
  fst (initializeOpenAI service st) = false.
Proof.
  intros Hclient Hcause. unfold initializeOpenAI. rewrite Hclient.
  destruct Hcause as [Hkey | [thrown Hthrown]].
  - now rewrite Hkey.
  - destruct (negb (truthy (openaiApiKey service))); [reflexivity|].
    now rewrite Hthrown.
Qed.

Lemma generateAltText_fails imageSrc context st :
  generationFails service st (buildPrompt imageSrc context) ->
  success (fst (generateAltText service imageSrc context st)) = false.
Proof.
  intros Hfail. unfold generateAltText.
  destruct (initializeOpenAI service st) as [initialized st1] eqn:Einit.
  destruct Hfail as [[Hclient Hcause] | Hanswer].
  - pose proof (initializeOpenAI_no_client st Hclient Hcause) as H.
    rewrite Einit in H. simpl in H. now rewrite H.
  - destruct initialized; [|reflexivity]. simpl.
    destruct (createCompletion service _) as [reason | [reply|]]; simpl in *.
    + reflexivity.
    + now rewrite Hanswer.
    + reflexivity.
Qed.

End Repair.

(* ================================================================== *)
(** * The properties of the specification *)
(* ================================================================== *)

(** C1, as the code has it. For every document text the aggregator splits
    on line feeds and collects, line by line in ascending index, what each
    of the six family runners it invokes returns -- image, form, other,
    ARIA/role, tab-index, semantic HTML, in that order -- and within a
    family what each detector returns, in the order the family lists them.
    The display line numbers of the result are therefore ascending, and
    every issue a detector of these six families finds on a line of the
    document is in the result. *)
Theorem aggregator_collects_in_order (toLowerCase : jsstring -> jsstring) (text : jsstring) :
  let result :=
    AccessibilityChecker.issues
      (AccessibilityChecker.checkAccessibilityIssues toLowerCase text) in
  result
  = flat_map
      (fun entry =>
         flat_map
           (fun family =>
              flat_map (fun d : detector => present (d (snd entry) (fst entry) text)) family)
           (aggregatedFamilies toLowerCase))
      (indexedFrom 0 (split_lf text))
  /\ StronglySorted le (map line result)
  /\ (forall index l family (d : detector) i,
        nth_error (split_lf text) index = Some l ->
        In family (aggregatedFamilies toLowerCase) ->
        In d family ->
        d l index text = Some i ->
        In i result).
Proof.
  cbv zeta. rewrite issues_by_line. split; [reflexivity|]. split.
  - apply blocks_sorted.
  - intros index l family d i Hl Hf Hd Hi.
    apply in_flat_map. exists (index, l). split.
    + apply In_indexedFrom. split; [lia|]. now rewrite Nat.sub_0_r.
    + unfold lineBlock. apply in_flat_map. exists family. split; [exact Hf|].
      apply In_runFamily. exists d. auto.
Qed.

Lemma aggregator_collects_in_order_witness :
  In {| line := 2;
        issue := $"Missing lang attribute on html tag";
        severity := $"HIGH";
        range := mkRange 1 0 1 6 |}
     (AccessibilityChecker.issues
        (AccessibilityChecker.checkAccessibilityIssues
           toLowerCaseBasicLatin ($"<img src=~x.png~>" ++ LF ++ $"<html>"))).
Proof.
  refine (proj2 (proj2 (aggregator_collects_in_order
                          toLowerCaseBasicLatin
                          ($"<img src=~x.png~>" ++ LF ++ $"<html>")))
                1 $"<html>" otherDetectors
                (fun l n _ => OtherAccessibilityChecker.checkHtmlLangAttribute l n)
                _ _ _ _ _).
  - reflexivity.
  - simpl. auto.
  - simpl. auto.
  - reflexivity.
Defined.

(** C1, as stated, fails: not every family runner of the sources feeds
    the aggregator.  What a detector of the keyboard-navigation family
    finds on a line of the document is missing from the run. *)
Lemma aggregator_skips_standalone_families :
  ~ (forall text index l family (d : detector) i,
        nth_error (split_lf text) index = Some l ->
        In family (allFamilies toLowerCaseBasicLatin) ->
        In d family ->
        d l index text = Some i ->
        In i (AccessibilityChecker.issues
                (AccessibilityChecker.checkAccessibilityIssues
                   toLowerCaseBasicLatin text))).
Proof.
  intros H.
  destruct standalone_runner_outside_the_run as [_ Hout]. apply Hout.
  apply (H $"<div onclick=~f()~>x</div>" 0 $"<div onclick=~f()~>x</div>"
           keyboardDetectors
           (fun l n _ => KeyboardNavigationChecker.checkKeyboardAccessibility l n)).
  - reflexivity.
  - unfold allFamilies, standaloneFamilies. apply in_or_app. right. simpl. auto.
  - simpl. auto.
  - reflexivity.
Qed.

(** C2. A line whose trimmed text contains [<img] and no [alt=] gives
    exactly one image-family issue, HIGH, about the missing alt attribute;
    a line containing an empty alt attribute (either quote style) gives
    exactly one image-family issue, MEDIUM, about the empty alt, and the
    missing-alt detector stays silent on it. *)
Theorem image_family_alt_rules (l : jsstring) (n : nat) :
  (includes (trim l) $"<img" = true ->
   includes (trim l) $"alt=" = false ->
   ImageChecker.checkImages l n
   = [ {| line := n + 1;
          issue := $"Missing alt attribute on image....";
          severity := $"HIGH";
          range := mkRange n 0 n (strlen l) |} ])
  /\ (includes l $"alt=~~" = true \/ includes l $"alt=''" = true ->
      ImageChecker.checkImages l n
      = [ {| line := n + 1;
             issue := $"Empty alt attribute - consider if image is decorative or needs description";
             severity := $"MEDIUM";
             range := mkRange n 0 n (strlen l) |} ]
      /\ ImageChecker.checkImageAltAttributes l n = None).
Proof.
  split.
  - intros Himg Halt.
    assert (E1 : includes (trim l) $"alt=~~" = false).
    { destruct (includes (trim l) $"alt=~~") eqn:E; [|reflexivity].
      apply (includes_extend _ $"alt=" [] [dquote; dquote]) in E. congruence. }
    assert (E2 : includes (trim l) $"alt=''" = false).
    { destruct (includes (trim l) $"alt=''") eqn:E; [|reflexivity].
      apply (includes_extend _ $"alt=" [] [squote; squote]) in E. congruence. }
    unfold ImageChecker.checkImages, ImageChecker.checkImageAltAttributes,
      ImageChecker.checkEmptyAltAttributes.
    cbv zeta. now rewrite Himg, Halt, E1, E2.
  - intros H.
    assert (Hempty : includes (trim l) $"alt=~~" || includes (trim l) $"alt=''" = true).
    { apply orb_true_iff. destruct H as [H | H]; [left | right];
        (apply includes_line_trim; [split; [discriminate | reflexivity] | exact H]). }
    assert (Halt : includes (trim l) $"alt=" = true).
    { apply orb_true_iff in Hempty. destruct Hempty as [E | E].
      - exact (includes_extend _ $"alt=" [] [dquote; dquote] E).
      - exact (includes_extend _ $"alt=" [] [squote; squote] E). }
    unfold ImageChecker.checkImages, ImageChecker.checkImageAltAttributes,
      ImageChecker.checkEmptyAltAttributes.
    cbv zeta. rewrite Halt, Hempty, andb_false_r. split; reflexivity.
Qed.

Lemma image_family_alt_rules_witness :
  ImageChecker.checkImages $"  <img src=~x.png~>" 4
  = [ {| line := 5;
         issue := $"Missing alt attribute on image....";
         severity := $"HIGH";
         range := mkRange 4 0 4 19 |} ]
  /\ (ImageChecker.checkImages $"<img src=~x.png~ alt=''> " 7
      = [ {| line := 8;
             issue := $"Empty alt attribute - consider if image is decorative or needs description";
             severity := $"MEDIUM";
             range := mkRange 7 0 7 25 |} ]
      /\ ImageChecker.checkImageAltAttributes $"<img src=~x.png~ alt=''> " 7 = None).
Proof.
  split.
  - apply (proj1 (image_family_alt_rules $"  <img src=~x.png~>" 4)); reflexivity.
  - apply (proj2 (image_family_alt_rules $"<img src=~x.png~ alt=''> " 7)).
    right. reflexivity.
Defined.

(** C3. The severity classifier is defined on every string: HIGH is the
    error level, MEDIUM the warning level, LOW the informational level,
    and any other string the informational level too; the three defined
    severities have pairwise distinct levels. *)
Theorem getSeverity_total :
  AccessibilityChecker.getSeverity $"HIGH" = Error
  /\ AccessibilityChecker.getSeverity $"MEDIUM" = Warning
  /\ AccessibilityChecker.getSeverity $"LOW" = Information
  /\ (forall s : jsstring,
        s <> $"HIGH" -> s <> $"MEDIUM" -> s <> $"LOW" ->
        AccessibilityChecker.getSeverity s = Information)
  /\ AccessibilityChecker.getSeverity $"HIGH" <> AccessibilityChecker.getSeverity $"MEDIUM"
  /\ AccessibilityChecker.getSeverity $"HIGH" <> AccessibilityChecker.getSeverity $"LOW"
  /\ AccessibilityChecker.getSeverity $"MEDIUM" <> AccessibilityChecker.getSeverity $"LOW".
Proof.
  repeat split; try reflexivity; try discriminate.
  intros s H1 H2 H3. unfold AccessibilityChecker.getSeverity.
  now rewrite (jseq_neq _ _ H1), (jseq_neq _ _ H2), (jseq_neq _ _ H3).
Qed.

Lemma getSeverity_total_witness :
  AccessibilityChecker.getSeverity $"CRITICAL" = Information.
Proof.
  apply (proj1 (proj2 (proj2 (proj2 getSeverity_total)))); discriminate.
Defined.

(** C4. The ARIA family on a button with visible text and on an empty
    button: no issue on the first; on the second the missing-name detector
    and the empty-button detector both report, two HIGH issues. *)
Theorem aria_family_on_buttons (toLowerCase : jsstring -> jsstring)
        (n : nat) (fullText : jsstring) :
  AriaLabelRoleChecker.checkAriaLabelAndRole
    toLowerCase $"<button onclick=~f()~>Click me</button>" n fullText = []
  /\ AriaLabelRoleChecker.checkAriaLabelAndRole
       toLowerCase $"<button onclick=~f()~></button>" n fullText
     = [ {| line := n + 1;
            issue := $"Interactive element missing accessible name (aria-label, aria-labelledby, or visible text)";
            severity := $"HIGH";
            range := mkRange n 0 n 31 |};
         {| line := n + 1;
            issue := $"Empty button element needs accessible name (aria-label, aria-labelledby, or visible text)";
            severity := $"HIGH";
            range := mkRange n 0 n 31 |} ].
Proof. split; vm_compute; reflexivity. Qed.

(** C5. A full run on the one-line document with a div that has
    role=button, an onclick handler and tabindex 5: two issues, both
    MEDIUM (missing aria-expanded, positive tabindex), none HIGH. *)
Theorem engine_on_positive_tabindex_div (toLowerCase : jsstring -> jsstring) :
  toLowerCase $"button" = $"button" ->
  let result :=
    AccessibilityChecker.issues
      (AccessibilityChecker.checkAccessibilityIssues
         toLowerCase $"<div role=~button~ onclick=~f()~ tabindex=~5~>X</div>") in
  result
  = [ {| line := 1;
         issue := $"Collapsible element missing aria-expanded attribute";
         severity := $"MEDIUM";
         range := mkRange 0 0 0 53 |};
      {| line := 1;
         issue := $"Positive tabindex=~5~ disrupts natural tab order - use tabindex=~0~ or negative values only";
         severity := $"MEDIUM";
         range := mkRange 0 0 0 53 |} ]
  /\ filter (hasSeverity $"HIGH") result = []
  /\ List.length (filter (hasSeverity $"MEDIUM") result) = 2.
Proof.
  intros Hlower. cbv zeta.
  assert (E : AccessibilityChecker.issues
                (AccessibilityChecker.checkAccessibilityIssues
                   toLowerCase $"<div role=~button~ onclick=~f()~ tabindex=~5~>X</div>")
              = [ {| line := 1;
                     issue := $"Collapsible element missing aria-expanded attribute";
                     severity := $"MEDIUM";
                     range := mkRange 0 0 0 53 |};
                  {| line := 1;
                     issue := $"Positive tabindex=~5~ disrupts natural tab order - use tabindex=~0~ or negative values only";
                     severity := $"MEDIUM";
                     range := mkRange 0 0 0 53 |} ]).
  { vm_compute in Hlower. vm_compute. rewrite Hlower. vm_compute. reflexivity. }
  rewrite E. repeat split.
Qed.

Lemma engine_on_positive_tabindex_div_witness :
  filter (hasSeverity $"HIGH")
         (AccessibilityChecker.issues
            (AccessibilityChecker.checkAccessibilityIssues
               toLowerCaseBasicLatin
               $"<div role=~button~ onclick=~f()~ tabindex=~5~>X</div>")) = [].
Proof.
  apply (engine_on_positive_tabindex_div toLowerCaseBasicLatin). reflexivity.
Defined.

(** C6. The ARIA family on a button whose aria-label is the word
    "button": one MEDIUM issue, from the redundant-aria-label detector. *)
Theorem aria_family_on_generic_label (toLowerCase : jsstring -> jsstring)
        (n : nat) (fullText : jsstring) :
  AriaLabelRoleChecker.checkAriaLabelAndRole
    toLowerCase $"<button aria-label=~button~>Submit</button>" n fullText
  = [ {| line := n + 1;
         issue := $"Redundant aria-label when visible text already provides accessible name";
         severity := $"MEDIUM";
         range := mkRange n 0 n 43 |} ].
Proof. vm_compute; reflexivity. Qed.

(** C7. The ARIA family on a button with an empty aria-label and visible
    text: the empty-aria-label detector (HIGH) and the redundant-aria-label
    detector (MEDIUM) both report. *)
Theorem aria_family_on_empty_label (toLowerCase : jsstring -> jsstring)
        (n : nat) (fullText : jsstring) :
  AriaLabelRoleChecker.checkAriaLabelAndRole
    toLowerCase $"<button aria-label=~~>Click me</button>" n fullText
  = [ {| line := n + 1;
         issue := $"Empty or whitespace-only aria-label provides no accessible name";
         severity := $"HIGH";
         range := mkRange n 0 n 39 |};
      {| line := n + 1;
         issue := $"Redundant aria-label when visible text already provides accessible name";
         severity := $"MEDIUM";
         range := mkRange n 0 n 39 |} ].
Proof. vm_compute; reflexivity. Qed.

(** C8. The edit computation of the repair workflow returns no edit (null)
    when the target line has no [<img], when it already has [alt=], and
    when the external alt-text generation for the request of this call --
    the prompt built from the image source the pattern captures on the
    line -- fails or answers with nothing usable; the lines of the
    document are then exactly what they were, also after the caller has
    applied the outcome. *)
Theorem fixSpecificImageTag_declines
        (service : AltTagAutoFixer.Service) (documentUri : jsstring) (n : nat)
        (lineText : jsstring) (st : AltTagAutoFixer.Session) :
  includes lineText $"<img" = false
  \/ includes lineText $"alt=" = true
  \/ (forall m,
         exec (trim lineText) re_img_src = Some m ->
         generationFails service st
           (AltTagAutoFixer.buildPrompt (group1 m) None)) ->
  let outcome :=
    AltTagAutoFixer.fixSpecificImageTag service documentUri n lineText st in
  fst outcome = None
  /\ AltTagAutoFixer.documentLines (snd outcome) = AltTagAutoFixer.documentLines st
  /\ AltTagAutoFixer.documentLines (AltTagAutoFixer.applyIfAny outcome)
     = AltTagAutoFixer.documentLines st.
Proof.
  intros H. cbv zeta.
  assert (Hnone : fst (AltTagAutoFixer.fixSpecificImageTag service documentUri n lineText st)
                  = None).
  { unfold AltTagAutoFixer.fixSpecificImageTag. cbv zeta.
    destruct H as [Himg | [Halt | Hfail]].
    - assert (E : includes (trim lineText) $"<img" = false).
      { destruct (includes (trim lineText) $"<img") eqn:E; [|reflexivity].
        apply includes_trim_line in E. congruence. }
      now rewrite E.
    - assert (E : includes (trim lineText) $"alt=" = true).
      { apply includes_line_trim; [split; [discriminate | reflexivity] | exact Halt]. }
      rewrite E, orb_true_r. reflexivity.
    - destruct (negb (includes (trim lineText) $"<img") || includes (trim lineText) $"alt=");
        [reflexivity|].
      destruct (exec (trim lineText) re_img_src) as [m|]; [|reflexivity].
      pose proof (generateAltText_fails service (group1 m) None st (Hfail m eq_refl))
        as Hs.
      destruct (AltTagAutoFixer.generateAltText service (group1 m) None st)
        as [result st1].
      simpl in Hs. rewrite Hs. reflexivity. }
  split; [exact Hnone|]. split.
  - apply fixSpecificImageTag_document.
  - unfold AltTagAutoFixer.applyIfAny. rewrite Hnone.
    apply fixSpecificImageTag_document.
Qed.

Lemma fixSpecificImageTag_declines_witness :
  let service :=
    {| AltTagAutoFixer.openaiApiKey := Some $"sk-test";
       AltTagAutoFixer.newOpenAI := fun _ => None;
       AltTagAutoFixer.createCompletion :=
         fun prompt =>
           if includes prompt $"x.png"
           then AltTagAutoFixer.Rejected $"Error: connect ETIMEDOUT"
           else AltTagAutoFixer.Fulfilled (Some $"A cat on a mat") |} in
  let st :=
    {| AltTagAutoFixer.openai := false;
       AltTagAutoFixer.errorMessages := [];
       AltTagAutoFixer.documentLines := [$"<p>"; $"<img src=~x.png~>"; $"</p>"] |} in
  let outcome :=
    AltTagAutoFixer.fixSpecificImageTag service $"file:///page.html" 1
                                        $"<img src=~x.png~>" st in
  fst outcome = None
  /\ AltTagAutoFixer.documentLines (snd outcome) = [$"<p>"; $"<img src=~x.png~>"; $"</p>"]
  /\ AltTagAutoFixer.documentLines (AltTagAutoFixer.applyIfAny outcome)
     = [$"<p>"; $"<img src=~x.png~>"; $"</p>"].
Proof.
  cbv zeta.
  apply (fixSpecificImageTag_declines
           {| AltTagAutoFixer.openaiApiKey := Some $"sk-test";
              AltTagAutoFixer.newOpenAI := fun _ => None;
              AltTagAutoFixer.createCompletion :=
                fun prompt =>
                  if includes prompt $"x.png"
                  then AltTagAutoFixer.Rejected $"Error: connect ETIMEDOUT"
                  else AltTagAutoFixer.Fulfilled (Some $"A cat on a mat") |}
           $"file:///page.html" 1 $"<img src=~x.png~>"
           {| AltTagAutoFixer.openai := false;
              AltTagAutoFixer.errorMessages := [];
              AltTagAutoFixer.documentLines := [$"<p>"; $"<img src=~x.png~>"; $"</p>"] |}).
  right. right. intros m Hm. vm_compute in Hm. injection Hm as <-.
  right. vm_compute. exact I.
Defined.

(** C9. Whatever a detector reports on a line -- any detector of any
    family of the sources -- spans the whole physical line,
    [(lineNumber, 0, lineNumber, length of the untrimmed line)], and shows
    the line index plus one; so does every issue of a full run, for the
    line of the document it was found on. *)
Theorem every_issue_spans_its_line (toLowerCase : jsstring -> jsstring) :
  (forall family (d : detector) l n t i,
      In family (allFamilies toLowerCase) ->
      In d family ->
      d l n t = Some i ->
      range i = mkRange n 0 n (strlen l) /\ line i = n + 1)
  /\ (forall text i,
        In i (AccessibilityChecker.issues
                (AccessibilityChecker.checkAccessibilityIssues toLowerCase text)) ->
        exists index l,
          nth_error (split_lf text) index = Some l
          /\ range i = mkRange index 0 index (strlen l)
          /\ line i = index + 1).
Proof.
  split.
  - intros family d l n t i Hf Hd Hi.
    exact (detector_wholeLine toLowerCase family d Hf Hd l n t i Hi).
  - intros text i Hi. rewrite issues_by_line in Hi.
    apply in_flat_map in Hi. destruct Hi as [[index l] [Hin Hi]].
    apply In_indexedFrom in Hin. destruct Hin as [_ Hnth].
    rewrite Nat.sub_0_r in Hnth.
    apply lineBlock_wholeLine in Hi. destruct Hi as [Hr Hl].
    exists index, l. auto.
Qed.

Lemma every_issue_spans_its_line_witness :
  range {| line := 3;
           issue := $"Label element missing for attribute";
           severity := $"MEDIUM";
           range := mkRange 2 0 2 22 |}
  = mkRange 2 0 2 (strlen $"   <label>Name</label>")
  /\ line {| line := 3;
             issue := $"Label element missing for attribute";
             severity := $"MEDIUM";
             range := mkRange 2 0 2 22 |} = 2 + 1.
Proof.
  refine (proj1 (every_issue_spans_its_line toLowerCaseBasicLatin)
                formDetectors
                (fun l n _ => FormElementsChecker.checkFormLabels l n)
                $"   <label>Name</label>" 2 [] _ _ _ _).
  - simpl. auto.
  - simpl. auto.
  - reflexivity.
Defined.

(** C10. For a line of the very text the aggregator passes along, the
    heading-structure detector of the "other" family returns null: its
    guard wants [<h1>] in the trimmed line and no [<h1>] in the full text
    at once.  The family therefore never reports its "Multiple h1 tags
    found" issue on such a line. *)
Theorem checkHeadingStructure_unreachable (text l : jsstring) (n : nat) :
  In l (split_lf text) ->
  OtherAccessibilityChecker.checkHeadingStructure l n text = None
  /\ (forall i,
        In i (OtherAccessibilityChecker.checkOtherAccessibility l n text) ->
        issue i <> $"Multiple h1 tags found - page should have only one h1").
Proof.
  intros Hl.
  assert (Hnone : OtherAccessibilityChecker.checkHeadingStructure l n text = None).
  { unfold OtherAccessibilityChecker.checkHeadingStructure. cbv zeta.
    destruct (includes (trim l) $"<h1>") eqn:Eh1.
    - assert (Ht : includes text $"<h1>" = true).
      { apply includes_trans with (t := l); [now apply split_lf_inside|].
        now apply includes_trim_line. }
      rewrite Ht. reflexivity.
    - rewrite andb_false_l. now destruct (_ || _). }
  split; [exact Hnone|].
  intros i Hi. rewrite (checkOtherAccessibility_registry l n text) in Hi.
  apply In_runFamily in Hi. destruct Hi as [d [Hd Hi]].
  unfold otherDetectors in Hd.
  destruct Hd as [<- | Hd]; [congruence|].
  each_detector Hd; returned_issue Hi; simpl; discriminate.
Qed.

Lemma checkHeadingStructure_unreachable_witness :
  OtherAccessibilityChecker.checkHeadingStructure
    $"<h1>One</h1>" 0 ($"<h1>One</h1>" ++ LF ++ $"<h1>Two</h1>") = None
  /\ (forall i,
        In i (OtherAccessibilityChecker.checkOtherAccessibility
                $"<h1>One</h1>" 0 ($"<h1>One</h1>" ++ LF ++ $"<h1>Two</h1>")) ->
        issue i <> $"Multiple h1 tags found - page should have only one h1").
Proof.
  apply (checkHeadingStructure_unreachable
           ($"<h1>One</h1>" ++ LF ++ $"<h1>Two</h1>") $"<h1>One</h1>" 0).
  simpl. auto.
Defined.

(* ================================================================== *)
(** * Further facts: the matcher against the words a pattern accepts *)
(* ================================================================== *)

Section Matcher.

Lemma firstn_consumed (w rest_of : jsstring) :
  firstn (strlen (w ++ rest_of) - strlen rest_of) (w ++ rest_of) = w.
Proof.
  unfold strlen. rewrite length_app.
  replace (List.length w + List.length rest_of - List.length rest_of)
    with (List.length w + 0) by lia.
  rewrite firstn_app_2. simpl. now rewrite app_nil_r.
Qed.

Lemma greedy_sound {A : Type} (p : char -> bool) (s : jsstring)
      (k : jsstring -> option A) (res : A) :
  greedy p s k = Some res ->
  exists w rest_of, s = w ++ rest_of /\ forallb p w = true /\ k rest_of = Some res.
Proof.
  induction s as [|c s IH]; simpl.
  - intros H. exists [], []. auto.
  - destruct (p c) eqn:Hc.
    + destruct (greedy p s k) as [r|] eqn:Hg.
      * intros H. injection H as <-.
        destruct (IH eq_refl) as [w [rest_of [-> [Hw Hk]]]].
        exists (c :: w), rest_of. simpl. rewrite Hc, Hw. auto.
      * intros H. exists [], (c :: s). auto.
    + intros H. exists [], (c :: s). auto.
Qed.

Lemma lazy_sound {A : Type} (p : char -> bool) (s : jsstring)
      (k : jsstring -> option A) (res : A) :
  lazy p s k = Some res ->
  exists w rest_of, s = w ++ rest_of /\ forallb p w = true /\ k rest_of = Some res.
Proof.
  induction s as [|c s IH]; simpl.
  - destruct (k []) eqn:Hk; [|discriminate].
    intros H. injection H as <-. exists [], []. auto.
  - destruct (k (c :: s)) eqn:Hk.
    + intros H. injection H as <-. exists [], (c :: s). auto.
    + destruct (p c) eqn:Hc; [|discriminate].
      intros H. destruct (IH H) as [w [rest_of [-> [Hw Hk']]]].
      exists (c :: w), rest_of. simpl. rewrite Hc, Hw. auto.
Qed.

Lemma greedy_complete {A : Type} (p : char -> bool) (w rest_of : jsstring)
      (k : jsstring -> option A) :
  forallb p w = true -> k rest_of <> None -> greedy p (w ++ rest_of) k <> None.
Proof.
  induction w as [|c w IH]; simpl; intros Hw Hk.
  - destruct rest_of as [|c r]; simpl; [exact Hk|].
    destruct (p c); [|exact Hk].
    destruct (greedy p r k); [discriminate | exact Hk].
  - apply andb_true_iff in Hw. destruct Hw as [Hc Hw]. rewrite Hc.
    specialize (IH Hw Hk). destruct (greedy p (w ++ rest_of) k); [discriminate|].
    contradiction.
Qed.

Lemma lazy_complete {A : Type} (p : char -> bool) (w rest_of : jsstring)
      (k : jsstring -> option A) :
  forallb p w = true -> k rest_of <> None -> lazy p (w ++ rest_of) k <> None.
Proof.
  induction w as [|c w IH]; simpl; intros Hw Hk.
  - destruct rest_of as [|c r]; simpl.
    + destruct (k []); [discriminate | contradiction].
    + destruct (k (c :: r)); [discriminate | contradiction].
  - apply andb_true_iff in Hw. destruct Hw as [Hc Hw].
    destruct (k (c :: w ++ rest_of)); [discriminate|].
    rewrite Hc. now apply IH.
Qed.

(** Whatever the matcher finds is a word the pattern accepts. *)
Lemma run_sound {A : Type} (r : regex) :
  forall (s : jsstring) (cap : option jsstring) (k : cont A) (res : A),
    run r s cap k = Some res ->
    exists w rest_of after,
      s = w ++ rest_of /\ accepts r w cap after /\ k rest_of after = Some res.
Proof.
  induction r as [c | p | p | p | p | r1 IH1 r2 IH2 | r0 IH0];
    intros s cap k res H; simpl in H.
  - destruct s as [|x s]; [discriminate|].
    destruct (N.eqb x c) eqn:E; [|discriminate]. apply N.eqb_eq in E. subst x.
    exists [c], s, cap. simpl. auto.
  - destruct s as [|x s]; [discriminate|].
    destruct (p x) eqn:E; [|discriminate].
    exists [x], s, cap. simpl. split; [reflexivity|]. split; [|exact H].
    split; [exists x; auto | reflexivity].
  - apply greedy_sound in H. destruct H as [w [rest_of [-> [Hw Hk]]]].
    exists w, rest_of, cap. simpl. auto.
  - apply lazy_sound in H. destruct H as [w [rest_of [-> [Hw Hk]]]].
    exists w, rest_of, cap. simpl. auto.
  - destruct s as [|x s]; [discriminate|].
    destruct (p x) eqn:E; [|discriminate].
    apply greedy_sound in H. destruct H as [w [rest_of [-> [Hw Hk]]]].
    exists (x :: w), rest_of, cap. simpl. rewrite E, Hw.
    repeat split; auto. discriminate.
  - apply IH1 in H. destruct H as [w1 [rest1 [mid [-> [H1 H]]]]].
    apply IH2 in H. destruct H as [w2 [rest2 [after [-> [H2 H]]]]].
    exists (w1 ++ w2), rest2, after. rewrite <- app_assoc.
    split; [reflexivity|]. split; [|exact H].
    simpl. exists w1, w2, mid. auto.
  - apply IH0 in H. destruct H as [w [rest_of [inner [-> [H0 H]]]]].
    rewrite firstn_consumed in H.
    exists w, rest_of, (Some w). simpl. split; [reflexivity|]. split; [|exact H].
    split; [exists inner; exact H0 | reflexivity].
Qed.

Lemma accepts_any_capture (r : regex) :
  forall w before after before',
    accepts r w before after -> exists after', accepts r w before' after'.
Proof.
  induction r as [c | p | p | p | p | r1 IH1 r2 IH2 | r0 IH0];
    intros w before after before' H; simpl in *.
  - destruct H as [-> _]. eauto.
  - destruct H as [Hx _]. eauto.
  - destruct H as [Hw _]. eauto.
  - destruct H as [Hw _]. eauto.
  - destruct H as [Hn [Hw _]]. eauto.
  - destruct H as [w1 [w2 [mid [-> [H1 H2]]]]].
    destruct (IH1 _ _ _ before' H1) as [mid' H1'].
    destruct (IH2 _ _ _ mid' H2) as [after' H2'].
    exists after', w1, w2, mid'. auto.
  - destruct H as [[inner H0] _].
    destruct (IH0 _ _ _ before' H0) as [inner' H0'].
    exists (Some w). split; [exists inner'; exact H0' | reflexivity].
Qed.

(** The matcher misses no word the pattern accepts, as long as what
    follows can go on whatever was captured. *)
Lemma run_complete {A : Type} (r : regex) :
  forall (w rest_of : jsstring) (before after : option jsstring) (k : cont A),
    accepts r w before after ->
    (forall c, k rest_of c <> None) ->
    run r (w ++ rest_of) before k <> None.
Proof.
  induction r as [c | p | p | p | p | r1 IH1 r2 IH2 | r0 IH0];
    intros w rest_of before after k H Hk; simpl in *.
  - destruct H as [-> _]. simpl. rewrite N.eqb_refl. apply Hk.
  - destruct H as [[x [-> Hx]] _]. simpl. rewrite Hx. apply Hk.
  - destruct H as [Hw _]. apply greedy_complete; auto.
  - destruct H as [Hw _]. apply lazy_complete; auto.
  - destruct H as [Hn [Hw _]]. destruct w as [|x w]; [congruence|].
    simpl in *. apply andb_true_iff in Hw. destruct Hw as [Hx Hw]. rewrite Hx.
    apply greedy_complete; auto.
  - destruct H as [w1 [w2 [mid [-> [H1 H2]]]]]. rewrite <- app_assoc.
    apply (IH1 w1 (w2 ++ rest_of) before mid); [exact H1|].
    intros c. destruct (accepts_any_capture r2 _ _ _ c H2) as [after' H2'].
    apply (IH2 w2 rest_of c after'); auto.
  - destruct H as [[inner H0] _].
    apply (IH0 w rest_of before inner); [exact H0|].
    intros c. apply Hk.
Qed.

Lemma matchAt_sound (s : jsstring) (r : regex) (m : found) :
  matchAt s r = Some m ->
  s = whole m ++ rest m /\ accepts r (whole m) None (capture1 m).
Proof.
  unfold matchAt. intros H. apply run_sound in H.
  destruct H as [w [rest_of [after [-> [Hacc H]]]]].
  injection H as <-. simpl. rewrite firstn_consumed. auto.
Qed.

(** [s.match(r)], when it is not null, is a match: the text splits into
    what comes before, the matched word and the rest. *)
Lemma exec_sound (s : jsstring) (r : regex) (m : found) :
  exec s r = Some m ->
  exists before, s = before ++ whole m ++ rest m
                 /\ accepts r (whole m) None (capture1 m).
Proof.
  induction s as [|c s IH]; simpl.
  - destruct (matchAt [] r) as [m'|] eqn:E; [|discriminate].
    intros H. injection H as <-. apply matchAt_sound in E.
    exists []. exact E.
  - destruct (matchAt (c :: s) r) as [m'|] eqn:E.
    + intros H. injection H as <-. apply matchAt_sound in E.
      exists []. exact E.
    + intros H. destruct (IH H) as [before [-> Hacc]].
      exists (c :: before). auto.
Qed.

(** [s.match(r)] is not null as soon as some piece of the text is a word
    the pattern accepts. *)
Lemma exec_complete (r : regex) (before w after_w : jsstring) (c : option jsstring) :
  accepts r w None c -> exec (before ++ w ++ after_w) r <> None.
Proof.
  intros H.
  assert (Hat : matchAt (w ++ after_w) r <> None).
  { unfold matchAt. apply (run_complete r w after_w None c); [exact H|].
    intros c'. discriminate. }
  induction before as [|x before IH].
  - simpl. destruct (w ++ after_w) as [|y t] eqn:E; simpl.
    + destruct (matchAt [] r); [discriminate | contradiction].
    + destruct (matchAt (y :: t) r); [discriminate | contradiction].
  - simpl. destruct (matchAt (x :: before ++ w ++ after_w) r); [discriminate|].
    exact IH.
Qed.

Lemma matches_iff (s : jsstring) (r : regex) :
  matches s r = true <->
  exists before w after_w c, s = before ++ w ++ after_w /\ accepts r w None c.
Proof.
  unfold matches. split.
  - destruct (exec s r) as [m|] eqn:E; [|discriminate]. intros _.
    apply exec_sound in E. destruct E as [before [Hs Hacc]].
    exists before, (whole m), (rest m), (capture1 m). auto.
  - intros [before [w [after_w [c [-> Hacc]]]]].
    pose proof (exec_complete r before w after_w c Hacc) as H.
    destruct (exec _ r); [reflexivity | contradiction].
Qed.

(** A literal accepts itself and nothing else. *)
Lemma accepts_str (lit_text w : jsstring) (before after : option jsstring) :
  accepts (str lit_text) w before after <-> w = lit_text /\ after = before.
Proof.
  revert w before after. induction lit_text as [|c t IH]; intros w before after.
  - simpl. split.
    + intros [Hw ->]. split; [|reflexivity].
      destruct w; [reflexivity | discriminate].
    + intros [-> ->]. auto.
  - destruct t as [|c' t'].
    + simpl. tauto.
    + change (str (c :: c' :: t')) with (Seq (Chr c) (str (c' :: t'))).
      cbn [accepts]. split.
      * intros [w1 [w2 [mid [-> [[-> ->] H2]]]]].
        apply IH in H2. destruct H2 as [-> ->]. auto.
      * intros [-> ->]. exists [c], (c' :: t'), before.
        split; [reflexivity|]. split; [auto|]. apply IH. auto.
Qed.

Lemma accepts_sequence_cons (r : regex) (rs : list regex) (w : jsstring)
      (before after : option jsstring) :
  rs <> [] ->
  (accepts (sequence (r :: rs)) w before after <->
   exists w1 w2 middle,
     w = w1 ++ w2 /\ accepts r w1 before middle
     /\ accepts (sequence rs) w2 middle after).
Proof.
  intros Hrs. destruct rs as [|r' rs']; [congruence|]. reflexivity.
Qed.

End Matcher.

(* ================================================================== *)
(** * Further properties of the detectors and of a run *)
(* ================================================================== *)

Lemma forEachIndexed_invariant {A S : Type} (P : S -> Prop)
      (f : S -> A -> nat -> S) (xs : list A) :
  (forall st x i, P st -> P (f st x i)) ->
  forall k st, P st -> P (forEachIndexed f xs k st).
Proof.
  intros Hstep. induction xs as [|x xs IH]; intros k st H; simpl; [exact H|].
  apply IH. now apply Hstep.
Qed.

Lemma aggregated_issue_origin lower text i :
  In i (AccessibilityChecker.issues
          (AccessibilityChecker.checkAccessibilityIssues lower text)) ->
  exists index l family (d : detector),
    nth_error (split_lf text) index = Some l
    /\ In family (aggregatedFamilies lower) /\ In d family
    /\ d l index text = Some i.
Proof.
  rewrite issues_by_line. intros Hi.
  apply in_flat_map in Hi. destruct Hi as [[index l] [Hin Hi]].
  apply In_indexedFrom in Hin. destruct Hin as [_ Hnth].
  rewrite Nat.sub_0_r in Hnth.
  unfold lineBlock in Hi. apply in_flat_map in Hi.
  destruct Hi as [family [Hf Hi]]. apply In_runFamily in Hi.
  destruct Hi as [d [Hd Hi]]. exists index, l, family, d. auto.
Qed.

Lemma detector_on_blank (toLowerCase : jsstring -> jsstring)
      (family : list detector) (d : detector)
      (l : jsstring) (n : nat) (fullText : jsstring) :
  In family (allFamilies toLowerCase) ->
  In d family ->
  trim l = [] ->
  d l n fullText = None.
Proof.
  unfold allFamilies, aggregatedFamilies, standaloneFamilies.
  cbn [app]. intros Hf Hd H.
  each_detector Hf; each_detector Hd;
    autounfold with detectors; cbv beta zeta; rewrite H; reflexivity.
Qed.

Lemma detector_severity (toLowerCase : jsstring -> jsstring)
      (family : list detector) (d : detector)
      (l : jsstring) (n : nat) (fullText : jsstring) (i : AccessibilityIssue) :
  In family (allFamilies toLowerCase) ->
  In d family ->
  d l n fullText = Some i ->
  severity i = $"HIGH" \/ severity i = $"MEDIUM" \/ severity i = $"LOW".
Proof.
  unfold allFamilies, aggregatedFamilies, standaloneFamilies.
  cbn [app]. intros Hf Hd H.
  each_detector Hf; each_detector Hd;
    returned_issue H; cbn [severity]; auto.
Qed.

(** X1. A line that is empty or all white space makes no detector of any
    family report, whatever the line number and the document text. *)
Theorem blank_line_reports_nothing (toLowerCase : jsstring -> jsstring)
        (family : list detector) (d : detector)
        (l : jsstring) (n : nat) (fullText : jsstring) :
  In family (allFamilies toLowerCase) ->
  In d family ->
  trim l = [] ->
  d l n fullText = None.
Proof.
  exact (detector_on_blank toLowerCase family d l n fullText).
Qed.

Lemma blank_line_reports_nothing_witness :
  AriaLabelRoleChecker.checkMissingAriaLabel [32%N; 9%N; 160%N] 7 = None.
Proof.
  refine (blank_line_reports_nothing
            toLowerCaseBasicLatin (ariaDetectors toLowerCaseBasicLatin)
            (fun l n _ => AriaLabelRoleChecker.checkMissingAriaLabel l n)
            [32%N; 9%N; 160%N] 7 $"<button></button>" _ _ _).
  - unfold allFamilies, aggregatedFamilies. simpl. auto.
  - simpl. auto.
  - reflexivity.
Defined.

(** X2. The severity of whatever a detector reports is one of the three
    strings HIGH, MEDIUM and LOW. *)
Theorem detector_severity_closed (toLowerCase : jsstring -> jsstring)
        (family : list detector) (d : detector)
        (l : jsstring) (n : nat) (fullText : jsstring) (i : AccessibilityIssue) :
  In family (allFamilies toLowerCase) ->
  In d family ->
  d l n fullText = Some i ->
  severity i = $"HIGH" \/ severity i = $"MEDIUM" \/ severity i = $"LOW".
Proof.
  exact (detector_severity toLowerCase family d l n fullText i).
Qed.

Lemma detector_severity_closed_witness :
  severity {| line := 1;
              issue := $"Color styling detected - ensure information is not conveyed by color alone";
              severity := $"LOW";
              range := mkRange 0 0 0 13 |} = $"HIGH"
  \/ severity {| line := 1;
                 issue := $"Color styling detected - ensure information is not conveyed by color alone";
                 severity := $"LOW";
                 range := mkRange 0 0 0 13 |} = $"MEDIUM"
  \/ severity {| line := 1;
                 issue := $"Color styling detected - ensure information is not conveyed by color alone";
                 severity := $"LOW";
                 range := mkRange 0 0 0 13 |} = $"LOW".
Proof.
  refine (detector_severity_closed
            toLowerCaseBasicLatin otherDetectors
            (fun l n _ => OtherAccessibilityChecker.checkColorOnlyInformation l n)
            $"p {color:red}" 0 [] _ _ _ _).
  - unfold allFamilies, aggregatedFamilies. simpl. auto.
  - simpl. auto.
  - reflexivity.
Defined.

Lemma push_all_diagnostics (allIssues : list AccessibilityIssue) st :
  AccessibilityChecker.diagnostics st
  = map diagnosticOf (AccessibilityChecker.issues st) ->
  let st' :=
    fold_left
      (fun st' found_issue =>
         {| AccessibilityChecker.issues :=
              AccessibilityChecker.issues st' ++ [found_issue];
            AccessibilityChecker.diagnostics :=
              AccessibilityChecker.diagnostics st'
              ++ [AccessibilityChecker.createDiagnostic
                    (range found_issue) (issue found_issue)
                    (AccessibilityChecker.getSeverity (severity found_issue))] |})
      allIssues st in
  AccessibilityChecker.diagnostics st'
  = map diagnosticOf (AccessibilityChecker.issues st').
Proof.
  cbv zeta. revert st. induction allIssues as [|i more IH]; intros st H; simpl.
  - exact H.
  - apply IH. simpl. rewrite H, map_app. reflexivity.
Qed.

Lemma diagnostics_of_issues lower text :
  AccessibilityChecker.diagnostics
    (AccessibilityChecker.checkAccessibilityIssues lower text)
  = map diagnosticOf
        (AccessibilityChecker.issues
           (AccessibilityChecker.checkAccessibilityIssues lower text)).
Proof.
  unfold AccessibilityChecker.checkAccessibilityIssues. cbv zeta.
  apply (forEachIndexed_invariant
           (fun st => AccessibilityChecker.diagnostics st
                      = map diagnosticOf (AccessibilityChecker.issues st))).
  - intros st x i H. now apply push_all_diagnostics.
  - reflexivity.
Qed.

(** X3. The diagnostics handed to the editor are the issues of the run,
    one for one and in the same order: same range, same message, the
    constant source tag, and the level Error, Warning or Information
    according to HIGH, MEDIUM or LOW.  No diagnostic has the level Hint. *)
Theorem diagnostics_mirror_issues (toLowerCase : jsstring -> jsstring) (text : jsstring) :
  let out := AccessibilityChecker.checkAccessibilityIssues toLowerCase text in
  AccessibilityChecker.diagnostics out
  = map (fun i =>
           {| diagRange := range i;
              message := issue i;
              diagSeverity := AccessibilityChecker.getSeverity (severity i);
              source := $"MARSA11Y Checker" |})
        (AccessibilityChecker.issues out)
  /\ Forall
       (fun i =>
          (severity i = $"HIGH"
           /\ AccessibilityChecker.getSeverity (severity i) = Error)
          \/ (severity i = $"MEDIUM"
              /\ AccessibilityChecker.getSeverity (severity i) = Warning)
          \/ (severity i = $"LOW"
              /\ AccessibilityChecker.getSeverity (severity i) = Information))
       (AccessibilityChecker.issues out)
  /\ Forall (fun d => diagSeverity d <> Hint) (AccessibilityChecker.diagnostics out).
Proof.
  cbv zeta.
  assert (Hsev :
            Forall
              (fun i =>
                 (severity i = $"HIGH"
                  /\ AccessibilityChecker.getSeverity (severity i) = Error)
                 \/ (severity i = $"MEDIUM"
                     /\ AccessibilityChecker.getSeverity (severity i) = Warning)
                 \/ (severity i = $"LOW"
                     /\ AccessibilityChecker.getSeverity (severity i) = Information))
              (AccessibilityChecker.issues
                 (AccessibilityChecker.checkAccessibilityIssues toLowerCase text))).
  { apply Forall_forall. intros i Hi.
    apply aggregated_issue_origin in Hi.
    destruct Hi as [index [l [family [d [_ [Hf [Hd Hi]]]]]]].
    assert (Hall : In family (allFamilies toLowerCase)).
    { unfold allFamilies. apply in_or_app. now left. }
    destruct (detector_severity toLowerCase family d l index text i Hall Hd Hi)
      as [E | [E | E]]; rewrite E; auto. }
  split; [apply diagnostics_of_issues|]. split; [exact Hsev|].
  rewrite diagnostics_of_issues. apply Forall_forall. intros d Hd.
  apply in_map_iff in Hd. destruct Hd as [i [<- Hi]].
  rewrite Forall_forall in Hsev. specialize (Hsev i Hi).
  unfold diagnosticOf, AccessibilityChecker.createDiagnostic. cbn [diagSeverity].
  destruct Hsev as [[_ E] | [[_ E] | [_ E]]]; rewrite E; discriminate.
Qed.

(** X4. A document all of whose lines are empty or white space -- the
    empty document among them -- gives a run without issues and an empty
    set of diagnostics. *)
Theorem blank_document_is_clean (toLowerCase : jsstring -> jsstring) (text : jsstring) :
  (forall l, In l (split_lf text) -> trim l = []) ->
  AccessibilityChecker.checkAccessibilityIssues toLowerCase text
  = {| AccessibilityChecker.issues := [];
       AccessibilityChecker.diagnostics := [] |}.
Proof.
  intros Hblank.
  assert (Hissues :
            AccessibilityChecker.issues
              (AccessibilityChecker.checkAccessibilityIssues toLowerCase text) = []).
  { destruct (AccessibilityChecker.issues
                (AccessibilityChecker.checkAccessibilityIssues toLowerCase text))
      as [|i more] eqn:E; [reflexivity|].
    assert (Hi : In i (AccessibilityChecker.issues
                         (AccessibilityChecker.checkAccessibilityIssues toLowerCase text)))
      by (rewrite E; now left).
    apply aggregated_issue_origin in Hi.
    destruct Hi as [index [l [family [d [Hl [Hf [Hd Hi]]]]]]].
    assert (Hall : In family (allFamilies toLowerCase)).
    { unfold allFamilies. apply in_or_app. now left. }
    apply nth_error_In in Hl.
    rewrite (detector_on_blank toLowerCase family d l index text Hall Hd
                                        (Hblank l Hl)) in Hi.
    discriminate. }
  pose proof (diagnostics_of_issues toLowerCase text) as Hd.
  rewrite Hissues in Hd.
  destruct (AccessibilityChecker.checkAccessibilityIssues toLowerCase text)
    as [found ds]. simpl in *. now subst.
Qed.

Lemma blank_document_is_clean_witness :
  AccessibilityChecker.checkAccessibilityIssues toLowerCaseBasicLatin []
  = {| AccessibilityChecker.issues := [];
       AccessibilityChecker.diagnostics := [] |}.
Proof.
  apply (blank_document_is_clean toLowerCaseBasicLatin []).
  intros l [<- | []]. reflexivity.
Defined.

Lemma present_length (check : option AccessibilityIssue) :
  List.length (present check) <= 1.
Proof. destruct check; simpl; lia. Qed.

Lemma runFamily_length (family : list detector) l n t :
  List.length (runFamily family l n t) <= List.length family.
Proof.
  unfold runFamily. induction family as [|d ds IH]; simpl; [lia|].
  rewrite length_app. pose proof (present_length (d l n t)). lia.
Qed.

Lemma lineBlock_length lower text entry :
  List.length (lineBlock lower text entry) <= 51.
Proof.
  unfold lineBlock, aggregatedFamilies. cbn [flat_map].
  rewrite !length_app. cbn [List.length].
  pose proof (runFamily_length imageDetectors (snd entry) (fst entry) text).
  pose proof (runFamily_length formDetectors (snd entry) (fst entry) text).
  pose proof (runFamily_length otherDetectors (snd entry) (fst entry) text).
  pose proof (runFamily_length (ariaDetectors lower) (snd entry) (fst entry) text).
  pose proof (runFamily_length tabIndexDetectors (snd entry) (fst entry) text).
  pose proof (runFamily_length semanticDetectors (snd entry) (fst entry) text).
  cbn [List.length imageDetectors formDetectors otherDetectors ariaDetectors
                   tabIndexDetectors semanticDetectors] in *.
  lia.
Qed.

(** X5. A run reports at most 51 issues per line of the document (one per
    detector of the six aggregated families): never more than 51 times
    the number of lines in all, and never more than 51 with the same
    line number. *)
Theorem run_size_bounded (toLowerCase : jsstring -> jsstring) (text : jsstring) :
  let result :=
    AccessibilityChecker.issues
      (AccessibilityChecker.checkAccessibilityIssues toLowerCase text) in
  List.length result <= 51 * List.length (split_lf text)
  /\ forall k, List.length (filter (fun i => Nat.eqb (line i) k) result) <= 51.
Proof.
  cbv zeta. rewrite issues_by_line. split.
  - assert (G : forall lines k,
               List.length (flat_map (lineBlock toLowerCase text) (indexedFrom k lines))
               <= 51 * List.length lines).
    { induction lines as [|l ls IH]; intros k.
      - simpl. lia.
      - rewrite indexedFrom_cons. cbn [flat_map List.length].
        rewrite length_app. specialize (IH (k + 1)).
        pose proof (lineBlock_length toLowerCase text (k, l)). lia. }
    apply G.
  - intros k.
    assert (G : forall lines j,
               List.length
                 (filter (fun i => Nat.eqb (line i) k)
                         (flat_map (lineBlock toLowerCase text) (indexedFrom j lines)))
               <= 51); [|apply G].
    induction lines as [|l ls IH]; intros j.
    + simpl. lia.
    + rewrite indexedFrom_cons. cbn [flat_map].
      rewrite filter_app, length_app.
      destruct (Nat.eq_dec k (j + 1)) as [-> | Hne].
      * (* the block of this line may count; no later block does *)
        assert (Hlater :
                  filter (fun i => Nat.eqb (line i) (j + 1))
                         (flat_map (lineBlock toLowerCase text)
                                   (indexedFrom (j + 1) ls)) = []).
        { destruct (blocks_sorted toLowerCase text ls (j + 1)) as [_ Hb].
          induction (flat_map (lineBlock toLowerCase text) (indexedFrom (j + 1) ls))
            as [|i more IHm]; [reflexivity|].
          simpl. assert (j + 1 + 1 <= line i) by (apply Hb; simpl; auto).
          destruct (Nat.eqb_spec (line i) (j + 1)); [lia|].
          apply IHm. intros x Hx. apply Hb. simpl. auto. }
        rewrite Hlater. simpl.
        pose proof (filter_length_le
                      (fun i => Nat.eqb (line i) (j + 1))
                      (lineBlock toLowerCase text (j, l))).
        pose proof (lineBlock_length toLowerCase text (j, l)). lia.
      * assert (Hhere :
                  filter (fun i => Nat.eqb (line i) k)
                         (lineBlock toLowerCase text (j, l)) = []).
        { assert (Hall : forall i, In i (lineBlock toLowerCase text (j, l)) ->
                                   line i = j + 1).
          { intros i Hi. apply lineBlock_wholeLine in Hi. now destruct Hi. }
          induction (lineBlock toLowerCase text (j, l)) as [|i more IHm];
            [reflexivity|].
          simpl. rewrite (Hall i) by (simpl; auto).
          destruct (Nat.eqb_spec (j + 1) k); [lia|].
          apply IHm. intros x Hx. apply Hall. simpl. auto. }
        rewrite Hhere. simpl. apply IH.
Qed.

(** X6. The image family reports at most one issue on a line: the
    missing-alt and the empty-alt detector never fire together. *)
Theorem image_family_at_most_one (l : jsstring) (n : nat) :
  List.length (ImageChecker.checkImages l n) <= 1
  /\ (ImageChecker.checkImageAltAttributes l n = None
      \/ ImageChecker.checkEmptyAltAttributes l n = None).
Proof.
  assert (H : ImageChecker.checkImageAltAttributes l n = None
              \/ ImageChecker.checkEmptyAltAttributes l n = None).
  { unfold ImageChecker.checkImageAltAttributes, ImageChecker.checkEmptyAltAttributes.
    cbv zeta.
    destruct (includes (trim l) $"alt=") eqn:Ealt.
    - left. now rewrite andb_false_r.
    - right.
      assert (E1 : includes (trim l) $"alt=~~" = false).
      { destruct (includes (trim l) $"alt=~~") eqn:E; [|reflexivity].
        apply (includes_extend _ $"alt=" [] [dquote; dquote]) in E. congruence. }
      assert (E2 : includes (trim l) $"alt=''" = false).
      { destruct (includes (trim l) $"alt=''") eqn:E; [|reflexivity].
        apply (includes_extend _ $"alt=" [] [squote; squote]) in E. congruence. }
      now rewrite E1, E2. }
  split; [|exact H].
  unfold ImageChecker.checkImages. rewrite pushChecks_present. cbn [flat_map].
  rewrite app_nil_r, length_app.
  pose proof (present_length (ImageChecker.checkImageAltAttributes l n)).
  pose proof (present_length (ImageChecker.checkEmptyAltAttributes l n)).
  destruct H as [H | H]; rewrite H in *; simpl in *; lia.
Qed.

(** X7. A role is never reported both as invalid and as redundant: the
    roles the redundant-role detector knows are all valid roles. *)
Theorem role_invalid_or_redundant_not_both
        (toLowerCase : jsstring -> jsstring) (l : jsstring) (n : nat) :
  AriaLabelRoleChecker.checkInvalidRole toLowerCase l n = None
  \/ AriaLabelRoleChecker.checkRedundantRole toLowerCase l n = None.
Proof.
  unfold AriaLabelRoleChecker.checkInvalidRole, AriaLabelRoleChecker.checkRedundantRole.
  cbv zeta.
  destruct (includes (trim l) $"role="); [|now left].
  destruct (exec (trim l) (quotedAttribute $"role")) as [m|]; [|now left].
  set (role := toLowerCase (group1 m)).
  destruct (existsb (jseq role) AriaLabelRoleChecker.VALID_ROLES) eqn:Evalid;
    [now left|].
  right.
  assert (Hno : forall known,
             existsb (jseq known) AriaLabelRoleChecker.VALID_ROLES = true ->
             jseq role known = false).
  { intros known Hk. destruct (jseq role known) eqn:E; [|reflexivity].
    apply jseq_eq in E. rewrite E in Evalid. congruence. }
  rewrite (Hno $"button"), (Hno $"navigation"), (Hno $"main"), (Hno $"banner"),
    (Hno $"contentinfo"), (Hno $"region"), (Hno $"article"), (Hno $"complementary")
    by reflexivity.
  now rewrite !andb_false_r.
Qed.

Lemma exec_literal_includes (s lit_text : jsstring) (rs : list regex) (m : found) :
  rs <> [] ->
  exec s (sequence (str lit_text :: rs)) = Some m ->
  includes s lit_text = true.
Proof.
  intros Hrs H. apply exec_sound in H. destruct H as [before [Hs Hacc]].
  apply (accepts_sequence_cons _ _ _ _ _ Hrs) in Hacc.
  destruct Hacc as [w1 [w2 [mid [Hw [H1 _]]]]].
  apply accepts_str in H1. destruct H1 as [-> _].
  apply includes_iff. exists before, (w2 ++ rest m).
  rewrite Hs, Hw. now rewrite <- !app_assoc.
Qed.

Lemma tabindex_present_silences_missing (l : jsstring) (n : nat) :
  includes (trim l) $"tabindex=" = true ->
  TabIndexChecker.checkMissingTabIndexOnCustomInteractive l n = None
  /\ TabIndexChecker.checkMissingTabIndexOnClickable l n = None
  /\ TabIndexChecker.checkMissingTabIndexOnModalTrigger l n = None
  /\ TabIndexChecker.checkMissingTabIndexOnCustomFormControl l n = None.
Proof.
  intros H.
  unfold TabIndexChecker.checkMissingTabIndexOnCustomInteractive,
    TabIndexChecker.checkMissingTabIndexOnClickable,
    TabIndexChecker.checkMissingTabIndexOnModalTrigger,
    TabIndexChecker.checkMissingTabIndexOnCustomFormControl.
  cbv zeta. rewrite H. cbn [negb].
  rewrite !andb_false_r. cbn [andb]. auto.
Qed.

(** X8. On one line the tab-index family never complains both about the
    value of a tabindex attribute (negative, positive, low positive) and
    about a missing tabindex: when one of the three value detectors
    reports, the four missing-tabindex detectors are silent. *)
Theorem tabindex_value_excludes_missing (l : jsstring) (n : nat) :
  TabIndexChecker.checkNegativeTabIndex l n <> None
  \/ TabIndexChecker.checkPositiveTabIndex l n <> None
  \/ TabIndexChecker.checkInconsistentTabIndexUsage l n <> None ->
  TabIndexChecker.checkMissingTabIndexOnCustomInteractive l n = None
  /\ TabIndexChecker.checkMissingTabIndexOnClickable l n = None
  /\ TabIndexChecker.checkMissingTabIndexOnModalTrigger l n = None
  /\ TabIndexChecker.checkMissingTabIndexOnCustomFormControl l n = None.
Proof.
  intros H. apply tabindex_present_silences_missing.
  destruct H as [H | [H | H]].
  - unfold TabIndexChecker.checkNegativeTabIndex in H. cbv zeta in H.
    destruct (exec (trim l) re_negative_tabindex) as [m|] eqn:E; [|congruence].
    unfold re_negative_tabindex in E.
    apply (exec_literal_includes _ $"tabindex=" _ m) in E; [exact E | discriminate].
  - unfold TabIndexChecker.checkPositiveTabIndex in H. cbv zeta in H.
    destruct (exec (trim l) re_positive_tabindex) as [m|] eqn:E; [|congruence].
    unfold re_positive_tabindex in E.
    apply (exec_literal_includes _ $"tabindex=" _ m) in E; [exact E | discriminate].
  - unfold TabIndexChecker.checkInconsistentTabIndexUsage in H. cbv zeta in H.
    destruct (includes (trim l) $"tabindex="); [reflexivity | congruence].
Qed.

Lemma tabindex_value_excludes_missing_witness :
  TabIndexChecker.checkMissingTabIndexOnCustomInteractive
    $"<div role=~button~ onclick=~f()~ tabindex=~5~>X</div>" 0 = None
  /\ TabIndexChecker.checkMissingTabIndexOnClickable
       $"<div role=~button~ onclick=~f()~ tabindex=~5~>X</div>" 0 = None
  /\ TabIndexChecker.checkMissingTabIndexOnModalTrigger
       $"<div role=~button~ onclick=~f()~ tabindex=~5~>X</div>" 0 = None
  /\ TabIndexChecker.checkMissingTabIndexOnCustomFormControl
       $"<div role=~button~ onclick=~f()~ tabindex=~5~>X</div>" 0 = None.
Proof.
  apply (tabindex_value_excludes_missing
           $"<div role=~button~ onclick=~f()~ tabindex=~5~>X</div>" 0).
  right. left. discriminate.
Defined.

(** X9. A clickable div or span that the "other" family reports is
    reported on the same line by the tab-index family (missing tabindex,
    MEDIUM) and by the semantic family (use a button, HIGH) as well: one
    defect, three issues in a run. *)
Theorem clickable_div_reported_three_times (l : jsstring) (n : nat) :
  OtherAccessibilityChecker.checkKeyboardAccessibility l n <> None ->
  OtherAccessibilityChecker.checkKeyboardAccessibility l n
  = Some {| line := n + 1;
            issue := $"Clickable div/span without keyboard accessibility - add tabindex and role";
            severity := $"HIGH";
            range := mkRange n 0 n (strlen l) |}
  /\ TabIndexChecker.checkMissingTabIndexOnClickable l n
     = Some {| line := n + 1;
               issue := $"Clickable element missing tabindex - add tabindex=~0~ for keyboard accessibility";
               severity := $"MEDIUM";
               range := mkRange n 0 n (strlen l) |}
  /\ SemanticHtmlChecker.checkButtonUsage l n
     = Some {| line := n + 1;
               issue := $"Use semantic button element instead of div/span with onclick for better accessibility";
               severity := $"HIGH";
               range := mkRange n 0 n (strlen l) |}.
Proof.
  unfold OtherAccessibilityChecker.checkKeyboardAccessibility,
    TabIndexChecker.checkMissingTabIndexOnClickable,
    SemanticHtmlChecker.checkButtonUsage, returning.
  cbv zeta. intros H.
  destruct (includes (trim l) $"<div" || includes (trim l) $"<span") eqn:Etag;
    [|now rewrite !andb_false_l in H].
  destruct (includes (trim l) $"onclick") eqn:Eclick;
    [|now rewrite andb_false_r in H].
  destruct (includes (trim l) $"tabindex") eqn:Etab;
    [now rewrite andb_false_r in H|].
  destruct (includes (trim l) $"role=") eqn:Erole;
    [now rewrite andb_false_r in H|].
  assert (E1 : includes (trim l) $"tabindex=" = false).
  { destruct (includes (trim l) $"tabindex=") eqn:E; [|reflexivity].
    apply (includes_extend _ $"tabindex" [] $"=") in E. congruence. }
  assert (E2 : includes (trim l) $"role=~button~" = false).
  { destruct (includes (trim l) $"role=~button~") eqn:E; [|reflexivity].
    apply (includes_extend _ $"role=" [] $"~button~") in E. congruence. }
  rewrite E1, E2. simpl. auto.
Qed.

Lemma clickable_div_reported_three_times_witness :
  SemanticHtmlChecker.checkButtonUsage $"<span onclick=~go()~>Go</span>" 3
  = Some {| line := 4;
            issue := $"Use semantic button element instead of div/span with onclick for better accessibility";
            severity := $"HIGH";
            range := mkRange 3 0 3 30 |}.
Proof.
  apply (clickable_div_reported_three_times $"<span onclick=~go()~>Go</span>" 3).
  discriminate.
Defined.

(** The words of a quoted attribute pattern [name[~'](inner)[~']]. *)
Lemma accepts_quoted (name : jsstring) (inner : regex) (w : jsstring)
      (c : option jsstring) :
  accepts (sequence [str name; Cls quote; Group inner; Cls quote]) w None c <->
  exists q1 v q2,
    w = name ++ [q1] ++ v ++ [q2]
    /\ quote q1 = true /\ quote q2 = true /\ c = Some v
    /\ exists inner_capture, accepts inner v None inner_capture.
Proof.
  set (L := str name). cbn [sequence accepts]. subst L. split.
  - intros [w1 [w2 [m1 [-> [H1 H]]]]].
    destruct H as [w3 [w4 [m2 [-> [Hq H]]]]].
    destruct Hq as [[q1 [-> Hq1]] ->].
    destruct H as [w5 [w6 [m3 [-> [Hg Hq]]]]].
    destruct Hg as [[ic Hin] ->].
    destruct Hq as [[q2 [-> Hq2]] ->].
    apply accepts_str in H1. destruct H1 as [-> ->].
    exists q1, w5, q2. repeat split; auto. now exists ic.
  - intros [q1 [v [q2 [-> [Hq1 [Hq2 [-> [ic Hin]]]]]]]].
    exists name, ([q1] ++ v ++ [q2]), None. split; [reflexivity|].
    split; [apply accepts_str; auto|].
    exists [q1], (v ++ [q2]), None. split; [reflexivity|].
    split; [split; [exists q1; auto | reflexivity]|].
    exists v, [q2], (Some v). split; [reflexivity|].
    split; [split; [exists ic; exact Hin | reflexivity]|].
    split; [exists q2; auto | reflexivity].
Qed.

Lemma accepts_positiveNumeral (v : jsstring) :
  (exists c, accepts (Seq (Cls (between "1" "9")) (Star digit)) v None c)
  <-> positiveNumeral v.
Proof.
  unfold positiveNumeral. cbn [accepts]. split.
  - intros [c [w1 [w2 [m [-> [Hd Hds]]]]]].
    destruct Hd as [[d [-> Hd]] ->]. destruct Hds as [Hds ->].
    exists d, w2. auto.
  - intros [d [ds [-> [Hd Hds]]]].
    exists None, [d], ds, None. split; [reflexivity|].
    split; [split; [exists d; auto | reflexivity] | auto].
Qed.

Lemma checkPositiveTabIndex_fires (l : jsstring) (n : nat)
      (a b v : jsstring) (q1 q2 : char) :
  trim l = a ++ $"tabindex=" ++ [q1] ++ v ++ [q2] ++ b ->
  quote q1 = true -> quote q2 = true -> positiveNumeral v ->
  TabIndexChecker.checkPositiveTabIndex l n <> None.
Proof.
  intros Hs Hq1 Hq2 Hv.
  unfold TabIndexChecker.checkPositiveTabIndex. cbv zeta.
  apply accepts_positiveNumeral in Hv. destruct Hv as [ic Hv].
  assert (Hacc : accepts re_positive_tabindex
                   ($"tabindex=" ++ [q1] ++ v ++ [q2]) None (Some v)).
  { unfold re_positive_tabindex. apply accepts_quoted.
    exists q1, v, q2. repeat split; auto. now exists ic. }
  pose proof (exec_complete _ a _ b _ Hacc) as Hex.
  replace (a ++ ($"tabindex=" ++ [q1] ++ v ++ [q2]) ++ b) with (trim l) in Hex
    by (rewrite Hs; now rewrite <- !app_assoc).
  destruct (exec (trim l) re_positive_tabindex); [discriminate | contradiction].
Qed.

(** X10. The positive-tabindex detector reports exactly the lines whose
    trimmed text holds [tabindex=], a quote, a decimal numeral that starts
    with 1-9, and a quote; the message it returns names such a numeral of
    the line, with severity MEDIUM and the 1-based line number. *)
Theorem checkPositiveTabIndex_characterised (l : jsstring) (n : nat) :
  (TabIndexChecker.checkPositiveTabIndex l n <> None <->
   exists a q1 v q2 b,
     trim l = a ++ $"tabindex=" ++ [q1] ++ v ++ [q2] ++ b
     /\ quote q1 = true /\ quote q2 = true /\ positiveNumeral v)
  /\ (forall i, TabIndexChecker.checkPositiveTabIndex l n = Some i ->
      exists a q1 v q2 b,
        trim l = a ++ $"tabindex=" ++ [q1] ++ v ++ [q2] ++ b
        /\ quote q1 = true /\ quote q2 = true /\ positiveNumeral v
        /\ i = {| line := n + 1;
                  issue := $"Positive tabindex=~" ++ v
                           ++ $"~ disrupts natural tab order - use tabindex=~0~ or negative values only";
                  severity := $"MEDIUM";
                  range := mkRange n 0 n (strlen l) |}).
Proof.
  assert (Hsome : forall i, TabIndexChecker.checkPositiveTabIndex l n = Some i ->
      exists a q1 v q2 b,
        trim l = a ++ $"tabindex=" ++ [q1] ++ v ++ [q2] ++ b
        /\ quote q1 = true /\ quote q2 = true /\ positiveNumeral v
        /\ i = {| line := n + 1;
                  issue := $"Positive tabindex=~" ++ v
                           ++ $"~ disrupts natural tab order - use tabindex=~0~ or negative values only";
                  severity := $"MEDIUM";
                  range := mkRange n 0 n (strlen l) |}).
  { intros i. unfold TabIndexChecker.checkPositiveTabIndex. cbv zeta.
    destruct (exec (trim l) re_positive_tabindex) as [m|] eqn:E; [|discriminate].
    intros H. injection H as <-.
    apply exec_sound in E. destruct E as [a [Hs Hacc]].
    unfold re_positive_tabindex in Hacc. apply accepts_quoted in Hacc.
    destruct Hacc as [q1 [v [q2 [Hw [Hq1 [Hq2 [Hc Hin]]]]]]].
    apply accepts_positiveNumeral in Hin.
    exists a, q1, v, q2, (rest m). unfold group1. rewrite Hc.
    repeat split; auto.
    rewrite Hs, Hw. now rewrite <- !app_assoc. }
  split; [|exact Hsome]. split.
  - intros H. destruct (TabIndexChecker.checkPositiveTabIndex l n) as [i|] eqn:E;
      [|congruence].
    destruct (Hsome i eq_refl) as [a [q1 [v [q2 [b [H1 [H2 [H3 [H4 _]]]]]]]]].
    exists a, q1, v, q2, b. auto.
  - intros [a [q1 [v [q2 [b [Hs [Hq1 [Hq2 Hv]]]]]]]].
    exact (checkPositiveTabIndex_fires l n a b v q1 q2 Hs Hq1 Hq2 Hv).
Qed.

(** X11. Whenever the low-positive-tabindex detector (values 1, 2 and 3)
    reports a line, the positive-tabindex detector reports it too: such a
    line carries both issues. *)
Theorem low_positive_tabindex_reported_twice (l : jsstring) (n : nat) :
  TabIndexChecker.checkInconsistentTabIndexUsage l n <> None ->
  TabIndexChecker.checkPositiveTabIndex l n <> None.
Proof.
  unfold TabIndexChecker.checkInconsistentTabIndexUsage. cbv zeta.
  destruct (includes (trim l) $"tabindex="); [|congruence].
  destruct (exec (trim l) (quotedAttribute $"tabindex")) as [m|] eqn:E; [|congruence].
  intros H.
  apply exec_sound in E. destruct E as [a [Hs Hacc]].
  unfold quotedAttribute in Hacc. apply accepts_quoted in Hacc.
  destruct Hacc as [q1 [v [q2 [Hw [Hq1 [Hq2 [Hc _]]]]]]].
  unfold group1 in H. rewrite Hc in H.
  apply (checkPositiveTabIndex_fires l n a (rest m) v q1 q2);
    [rewrite Hs, Hw; now rewrite <- !app_assoc | exact Hq1 | exact Hq2 |].
  destruct (jseq v $"1") eqn:E1;
    [apply jseq_eq in E1; subst v; exists 49%N, []; auto|].
  destruct (jseq v $"2") eqn:E2;
    [apply jseq_eq in E2; subst v; exists 50%N, []; auto|].
  destruct (jseq v $"3") eqn:E3;
    [apply jseq_eq in E3; subst v; exists 51%N, []; auto|].
  simpl in H. congruence.
Qed.

Lemma low_positive_tabindex_reported_twice_witness :
  TabIndexChecker.checkPositiveTabIndex $"<div tabindex='2'>x</div>" 0 <> None.
Proof.
  apply (low_positive_tabindex_reported_twice $"<div tabindex='2'>x</div>" 0).
  discriminate.
Defined.

(* ================================================================== *)
(** * Further properties of the repair workflow *)
(* ================================================================== *)

Lemma includes_length (s p : jsstring) :
  includes s p = true -> List.length p <= List.length s.
Proof.
  rewrite includes_iff. intros [a [b ->]]. rewrite !length_app. lia.
Qed.

Lemma startsWith_false_prefix (s p more : jsstring) :
  startsWith (s ++ more) p = false -> startsWith s p = false.
Proof.
  intros H. destruct (startsWith s p) eqn:E; [|reflexivity].
  apply startsWith_iff in E. destruct E as [b ->].
  assert (startsWith ((p ++ b) ++ more) p = true).
  { apply startsWith_iff. exists (b ++ more). now rewrite app_assoc. }
  congruence.
Qed.

(** [indexOf] finds the first occurrence: the text before it, even with
    all of the pattern but its last unit appended, holds no occurrence. *)
Lemma indexOf_nat_first (p s : jsstring) (i : nat) :
  p <> [] ->
  (indexOf_nat s p i = (-1)%Z /\ includes s p = false)
  \/ exists a b, s = a ++ p ++ b
                 /\ indexOf_nat s p i = Z.of_nat (i + List.length a)
                 /\ includes (a ++ removelast p) p = false.
Proof.
  intros Hp. revert i. induction s as [|c s IH]; intros i.
  - simpl. destruct (startsWith [] p) eqn:E.
    + apply startsWith_iff in E. destruct E as [b E].
      destruct p; [contradiction | discriminate].
    + left. auto.
  - cbn [indexOf_nat includes]. destruct (startsWith (c :: s) p) eqn:E.
    + right. apply startsWith_iff in E. destruct E as [b E].
      exists [], b. split; [exact E|]. split; [f_equal; simpl; lia|].
      simpl. destruct (includes (removelast p) p) eqn:Ei; [|reflexivity].
      apply includes_length in Ei.
      pose proof (f_equal (@List.length char) (app_removelast_last 0%N Hp)) as Hl.
      rewrite length_app in Hl. cbn [List.length] in Hl.
      unfold char in *. lia.
    + destruct (IH (S i)) as [[Hidx Hinc] | [a [b [Hs [Hidx Hfirst]]]]].
      * left. simpl. auto.
      * right. exists (c :: a), b. split; [simpl; now rewrite Hs|].
        split; [rewrite Hidx; f_equal; simpl; lia|].
        change ((c :: a) ++ removelast p) with (c :: (a ++ removelast p)).
        cbn [includes]. rewrite Hfirst, orb_false_r.
        apply (startsWith_false_prefix _ p ([last p 0%N] ++ b)).
        rewrite Hs in E.
        rewrite (app_removelast_last 0%N Hp) in E at 1.
        simpl. simpl in E. rewrite <- !app_assoc in *. simpl in E. exact E.
Qed.

Lemma indexOf_from_start (s p : jsstring) :
  indexOf s p 0 = indexOf_nat s p 0.
Proof. reflexivity. Qed.

Lemma indexOf_from_inside (a s p : jsstring) :
  indexOf (a ++ s) p (Z.of_nat (List.length a)) = indexOf_nat s p (List.length a).
Proof.
  unfold indexOf. rewrite Nat2Z.id.
  assert (E : Nat.ltb (strlen (a ++ s)) (List.length a) = false).
  { apply Nat.ltb_ge. unfold strlen. rewrite length_app. lia. }
  rewrite E. now rewrite skipn_app, skipn_all, Nat.sub_diag.
Qed.

(** Where the two workflows put the attribute: before the first [>] that
    follows the first [<img] of the line.  When either search fails the
    position pair is not usable. *)
Lemma insertion_point (line : jsstring) :
  let imgTagStart := indexOf line $"<img" 0 in
  let imgTagEnd := indexOf line $">" imgTagStart in
  (Z.eqb imgTagStart (-1) || Z.eqb imgTagEnd (-1) = true)
  \/ exists head tag tail,
       line = head ++ $"<img" ++ tag ++ $">" ++ tail
       /\ includes (head ++ $"<im") $"<img" = false
       /\ includes tag $">" = false
       /\ Z.eqb imgTagStart (-1) = false /\ Z.eqb imgTagEnd (-1) = false
       /\ substring2 line 0 imgTagEnd = head ++ $"<img" ++ tag
       /\ substring1 line imgTagEnd = $">" ++ tail.
Proof.
  cbv zeta. rewrite indexOf_from_start.
  destruct (indexOf_nat_first $"<img" line 0) as [[H _] | [head [r [Hs [Hi Hfirst]]]]];
    [discriminate | left; now rewrite H |].
  rewrite Hi. simpl Nat.add. rewrite Hs. rewrite indexOf_from_inside.
  destruct (indexOf_nat_first $">" ($"<img" ++ r) (List.length head))
    as [[H _] | [a [tail [Hr [He Hnone]]]]];
    [discriminate | left; rewrite H; apply orb_true_r |].
  right. rewrite He. rewrite app_nil_r in Hnone.
  assert (Ha : exists tag, a = $"<img" ++ tag).
  { destruct a as [|c1 [|c2 [|c3 [|c4 tag]]]];
      try (injection Hr; intros; subst; discriminate).
    injection Hr as <- <- <- <- _. now exists tag. }
  destruct Ha as [tag ->].
  assert (Hr' : r = tag ++ $">" ++ tail).
  { rewrite <- app_assoc in Hr. apply app_inv_head in Hr. exact Hr. }
  exists head, tag, tail. subst r.
  split; [reflexivity|]. split; [exact Hfirst|].
  split.
  { destruct (includes tag $">") eqn:E; [|reflexivity].
    assert (includes ($"<img" ++ tag) $">" = true).
    { apply includes_iff in E. destruct E as [x [y ->]].
      apply includes_iff. exists ($"<img" ++ x), y. now rewrite <- app_assoc. }
    congruence. }
  split; [apply Z.eqb_neq; lia|]. split; [apply Z.eqb_neq; lia|].
  replace (head ++ $"<img" ++ tag ++ $">" ++ tail)
    with ((head ++ $"<img" ++ tag) ++ $">" ++ tail)
    by (now rewrite <- !app_assoc).
  assert (Hclamp : clampIndex ((head ++ $"<img" ++ tag) ++ $">" ++ tail)
                     (Z.of_nat (List.length head + List.length ($"<img" ++ tag)))
                   = List.length (head ++ $"<img" ++ tag)).
  { unfold clampIndex, strlen. rewrite Nat2Z.id.
    rewrite !length_app. unfold char in *. lia. }
  split.
  - unfold substring2. rewrite Hclamp.
    replace (clampIndex _ 0) with 0 by (unfold clampIndex; simpl; lia).
    rewrite Nat.min_0_l, Nat.max_0_l, Nat.sub_0_r. simpl skipn.
    now rewrite firstn_app, firstn_all, Nat.sub_diag, firstn_O, app_nil_r.
  - unfold substring1. rewrite Hclamp.
    now rewrite skipn_app, skipn_all, Nat.sub_diag.
Qed.

Section RepairOutcomes.

Import AltTagAutoFixer.

Variable service : Service.

Lemma initializeOpenAI_cases (st : Session) :
  (fst (initializeOpenAI service st) = true
   /\ openai (snd (initializeOpenAI service st)) = true
   /\ errorMessages (snd (initializeOpenAI service st)) = errorMessages st)
  \/ (fst (initializeOpenAI service st) = false
      /\ openai st = false
      /\ openai (snd (initializeOpenAI service st)) = false
      /\ exists message,
          errorMessages (snd (initializeOpenAI service st))
          = errorMessages st ++ [message]).
Proof.
  unfold initializeOpenAI. destruct (openai st) eqn:E.
  - left. simpl. auto.
  - destruct (negb (truthy (openaiApiKey service))).
    + right. simpl. repeat split; auto. eauto.
    + destruct (newOpenAI service _).
      * right. simpl. repeat split; auto. eauto.
      * left. simpl. auto.
Qed.

Lemma generateAltText_session (imageSrc : jsstring) (context : option jsstring)
      (st : Session) :
  snd (generateAltText service imageSrc context st)
  = snd (initializeOpenAI service st).
Proof.
  unfold generateAltText.
  destruct (initializeOpenAI service st) as [initialized st1].
  destruct initialized; simpl; [|reflexivity].
  destruct (createCompletion service _) as [reason | content]; [reflexivity|].
  now destruct (negb (truthy (option_map trim content))).
Qed.

Lemma generateAltText_cases (imageSrc : jsstring) (context : option jsstring)
      (st : Session) :
  (exists reply,
      createCompletion service (buildPrompt imageSrc context) = Fulfilled (Some reply)
      /\ trim reply <> []
      /\ fst (generateAltText service imageSrc context st)
         = {| success := true; altText := Some (trim reply); error := None |}
      /\ fst (initializeOpenAI service st) = true)
  \/ (exists e,
         fst (generateAltText service imageSrc context st)
         = {| success := false; altText := None; error := Some e |}
         /\ ((e = $"OpenAI not initialized"
              /\ fst (initializeOpenAI service st) = false)
             \/ (e = $"No alt text generated"
                 /\ fst (initializeOpenAI service st) = true)
             \/ (exists reason, e = $"OpenAI API error: " ++ reason)
                /\ fst (initializeOpenAI service st) = true)).
Proof.
  unfold generateAltText.
  destruct (initializeOpenAI service st) as [initialized st1].
  destruct initialized; simpl.
  - destruct (createCompletion service _) as [reason | [reply|]]; simpl.
    + right. eexists. split; [reflexivity|]. right. right. eauto.
    + destruct (trim reply) as [|c t] eqn:E; simpl.
      * right. eexists. split; [reflexivity|]. auto.
      * left. exists reply. rewrite E. repeat split; auto. discriminate.
    + right. eexists. split; [reflexivity|]. auto.
  - right. eexists. split; [reflexivity|]. auto.
Qed.

Lemma fixable_guards (lineText : jsstring) :
  fixable lineText = true <->
  (negb (includes (trim lineText) $"<img") || includes (trim lineText) $"alt=" = false
   /\ exists m, exec (trim lineText) re_img_src = Some m).
Proof.
  unfold fixable, matches.
  destruct (includes (trim lineText) $"<img"), (includes (trim lineText) $"alt="),
    (exec (trim lineText) re_img_src) as [m|]; simpl; split;
    try discriminate; try (intros [H1 [m' H2]]; discriminate); eauto.
Qed.

(** What a returned edit looks like, and what had to happen for it. *)
Lemma fixSpecificImageTag_returns (documentUri : jsstring) (n : nat)
      (lineText : jsstring) (st st' : Session) (edit : WorkspaceEdit) :
  fixSpecificImageTag service documentUri n lineText st = (Some edit, st') ->
  exists m reply text,
    exec (trim lineText) re_img_src = Some m
    /\ fixable lineText = true
    /\ createCompletion service (buildPrompt (group1 m) None) = Fulfilled (Some reply)
    /\ trim reply <> []
    /\ insertedBeforeTagEnd lineText (altAttribute (trim reply)) text
    /\ edit = [{| uri := documentUri;
                  replaced := mkRange n 0 n (strlen lineText);
                  newText := text |}]
    /\ st' = snd (initializeOpenAI service st)
    /\ fst (initializeOpenAI service st) = true.
Proof.
  unfold fixSpecificImageTag. cbv zeta.
  destruct (negb (includes (trim lineText) $"<img") || includes (trim lineText) $"alt=")
    eqn:Eguard; [discriminate|].
  destruct (exec (trim lineText) re_img_src) as [m|] eqn:Em; [|discriminate].
  pose proof (generateAltText_session (group1 m) None st) as Hst.
  pose proof (generateAltText_cases (group1 m) None st) as Hcases.
  destruct (generateAltText service (group1 m) None st) as [result st1].
  simpl in Hst, Hcases. subst st1.
  destruct Hcases as [[reply [Hc [Hne [-> Hinit]]]] | [e [-> _]]];
    [|simpl; discriminate].
  cbn [success altText negb orb truthy].
  destruct (trim reply) as [|c t] eqn:Ereply; [contradiction|].
  cbn [negb orb showOptional].
  pose proof (insertion_point lineText) as Hpoint. cbv zeta in Hpoint.
  destruct Hpoint as [Hbad | [head [tag [tail [Hl [Hfirst [Htag [H1 [H2 [Hb Ha]]]]]]]]]].
  - rewrite Hbad. discriminate.
  - rewrite H1, H2. cbn [orb]. intros H. injection H as <- <-.
    exists m, reply, (head ++ $"<img" ++ tag ++ altAttribute (c :: t) ++ $">" ++ tail).
    split; [reflexivity|].
    split; [apply fixable_guards; eauto|].
    split; [exact Hc|]. rewrite Ereply.
    split; [discriminate|].
    split; [exists head, tag, tail; auto|].
    split; [|auto].
    rewrite Hb, Ha. unfold altAttribute. now rewrite <- !app_assoc.
Qed.

Lemma getSpecificImagePreview_returns (n : nat) (lineText : jsstring)
      (st st' : Session) (p : SpecificPreview) :
  getSpecificImagePreview service n lineText st = (Some p, st') ->
  exists m reply,
    exec (trim lineText) re_img_src = Some m
    /\ fixable lineText = true
    /\ createCompletion service (buildPrompt (group1 m) None) = Fulfilled (Some reply)
    /\ trim reply <> []
    /\ p = {| specificImageSrc := group1 m; specificAltText := trim reply |}
    /\ st' = snd (initializeOpenAI service st)
    /\ fst (initializeOpenAI service st) = true.
Proof.
  unfold getSpecificImagePreview. cbv zeta.
  destruct (negb (includes (trim lineText) $"<img") || includes (trim lineText) $"alt=")
    eqn:Eguard; [discriminate|].
  destruct (exec (trim lineText) re_img_src) as [m|] eqn:Em; [|discriminate].
  pose proof (generateAltText_session (group1 m) None st) as Hst.
  pose proof (generateAltText_cases (group1 m) None st) as Hcases.
  destruct (generateAltText service (group1 m) None st) as [result st1].
  simpl in Hst, Hcases. subst st1.
  destruct Hcases as [[reply [Hc [Hne [-> Hinit]]]] | [e [-> _]]];
    [|simpl; discriminate].
  cbn [success altText negb orb truthy].
  destruct (trim reply) as [|c t] eqn:Ereply; [contradiction|].
  cbn [negb orb showOptional]. intros H. injection H as <- <-.
  exists m, reply. rewrite Ereply.
  split; [reflexivity|].
  split; [apply fixable_guards; eauto|].
  split; [exact Hc|]. split; [discriminate|]. auto.
Qed.

End RepairOutcomes.

(** X12. The result of the alt-text generation is well formed: it is a
    success exactly when it carries a non-empty alt text, exactly when it
    carries no error; a failure carries no alt text and one of the three
    error texts; a success means that a client is cached afterwards, that
    no error message was shown and that the alt text is the trimmed reply
    of the endpoint to the built prompt. *)
Theorem generateAltText_result_wellformed
        (service : AltTagAutoFixer.Service) (imageSrc : jsstring)
        (context : option jsstring) (st : AltTagAutoFixer.Session) :
  let outcome := AltTagAutoFixer.generateAltText service imageSrc context st in
  let result := fst outcome in
  (AltTagAutoFixer.success result = true
   <-> truthy (AltTagAutoFixer.altText result) = true)
  /\ (AltTagAutoFixer.success result = true
      <-> AltTagAutoFixer.error result = None)
  /\ (AltTagAutoFixer.success result = false ->
      AltTagAutoFixer.altText result = None
      /\ (AltTagAutoFixer.error result = Some $"OpenAI not initialized"
          \/ AltTagAutoFixer.error result = Some $"No alt text generated"
          \/ exists reason,
              AltTagAutoFixer.error result = Some ($"OpenAI API error: " ++ reason)))
  /\ (AltTagAutoFixer.success result = true ->
      AltTagAutoFixer.openai (snd outcome) = true
      /\ AltTagAutoFixer.errorMessages (snd outcome)
         = AltTagAutoFixer.errorMessages st
      /\ exists reply,
          AltTagAutoFixer.createCompletion service
            (AltTagAutoFixer.buildPrompt imageSrc context)
          = AltTagAutoFixer.Fulfilled (Some reply)
          /\ AltTagAutoFixer.altText result = Some (trim reply)).
Proof.
  cbv zeta. rewrite generateAltText_session.
  destruct (generateAltText_cases service imageSrc context st)
    as [[reply [Hc [Hne [-> Hinit]]]] | [e [-> He]]]; simpl.
  - destruct (trim reply) as [|c t] eqn:E; [contradiction|].
    split; [tauto|]. split; [tauto|]. split; [discriminate|]. intros _.
    destruct (initializeOpenAI_cases service st) as [[_ [H1 H2]] | [H _]];
      [|congruence].
    split; [exact H1|]. split; [exact H2|]. exists reply. now rewrite E.
  - split; [split; discriminate|]. split; [split; discriminate|].
    split; [|discriminate]. intros _. split; [reflexivity|].
    destruct He as [[-> _] | [[-> _] | [[reason ->] _]]];
      [now left | now right; left | right; right; now exists reason].
Qed.

(** X13. Without an API key and without a cached client the endpoint is
    never consulted: on a line with a fixable image the edit computation
    returns null and shows two error messages (key not found, then failed
    to generate), and the preview returns null and shows the first only. *)
Theorem missing_key_is_reported
        (service : AltTagAutoFixer.Service) (documentUri : jsstring) (n : nat)
        (lineText : jsstring) (st : AltTagAutoFixer.Session) :
  AltTagAutoFixer.openai st = false ->
  truthy (AltTagAutoFixer.openaiApiKey service) = false ->
  fixable lineText = true ->
  AltTagAutoFixer.fixSpecificImageTag service documentUri n lineText st
  = (None,
     {| AltTagAutoFixer.openai := false;
        AltTagAutoFixer.errorMessages :=
          AltTagAutoFixer.errorMessages st
          ++ [$"OpenAI API key not found. Please set marsa11yfix.openaiApiKey in your VS Code settings.";
              $"Failed to generate alt text: OpenAI not initialized"];
        AltTagAutoFixer.documentLines := AltTagAutoFixer.documentLines st |})
  /\ AltTagAutoFixer.getSpecificImagePreview service n lineText st
     = (None,
        {| AltTagAutoFixer.openai := false;
           AltTagAutoFixer.errorMessages :=
             AltTagAutoFixer.errorMessages st
             ++ [$"OpenAI API key not found. Please set marsa11yfix.openaiApiKey in your VS Code settings."];
           AltTagAutoFixer.documentLines := AltTagAutoFixer.documentLines st |}).
Proof.
  intros Hclient Hkey Hfix. apply fixable_guards in Hfix.
  destruct Hfix as [Hguard [m Hm]].
  unfold AltTagAutoFixer.fixSpecificImageTag, AltTagAutoFixer.getSpecificImagePreview,
    AltTagAutoFixer.generateAltText, AltTagAutoFixer.initializeOpenAI.
  cbv zeta. rewrite Hguard, Hm, Hclient, Hkey. simpl.
  unfold AltTagAutoFixer.showErrorMessage. simpl.
  rewrite Hclient, <- app_assoc. auto.
Qed.

Lemma missing_key_is_reported_witness :
  AltTagAutoFixer.fixSpecificImageTag
    {| AltTagAutoFixer.openaiApiKey := None;
       AltTagAutoFixer.newOpenAI := fun _ => None;
       AltTagAutoFixer.createCompletion :=
         fun _ => AltTagAutoFixer.Fulfilled (Some $"A red bicycle") |}
    $"file:///page.html" 4 $"  <img src=~bike.png~>"
    {| AltTagAutoFixer.openai := false;
       AltTagAutoFixer.errorMessages := [];
       AltTagAutoFixer.documentLines := [] |}
  = (None,
     {| AltTagAutoFixer.openai := false;
        AltTagAutoFixer.errorMessages :=
          [] ++ [$"OpenAI API key not found. Please set marsa11yfix.openaiApiKey in your VS Code settings.";
                 $"Failed to generate alt text: OpenAI not initialized"];
        AltTagAutoFixer.documentLines := [] |})
  /\ AltTagAutoFixer.getSpecificImagePreview
       {| AltTagAutoFixer.openaiApiKey := None;
          AltTagAutoFixer.newOpenAI := fun _ => None;
          AltTagAutoFixer.createCompletion :=
            fun _ => AltTagAutoFixer.Fulfilled (Some $"A red bicycle") |}
       4 $"  <img src=~bike.png~>"
       {| AltTagAutoFixer.openai := false;
          AltTagAutoFixer.errorMessages := [];
          AltTagAutoFixer.documentLines := [] |}
     = (None,
        {| AltTagAutoFixer.openai := false;
           AltTagAutoFixer.errorMessages :=
             [] ++ [$"OpenAI API key not found. Please set marsa11yfix.openaiApiKey in your VS Code settings."];
           AltTagAutoFixer.documentLines := [] |}).
Proof.
  apply (missing_key_is_reported
           {| AltTagAutoFixer.openaiApiKey := None;
              AltTagAutoFixer.newOpenAI := fun _ => None;
              AltTagAutoFixer.createCompletion :=
                fun _ => AltTagAutoFixer.Fulfilled (Some $"A red bicycle") |}
           $"file:///page.html" 4 $"  <img src=~bike.png~>"
           {| AltTagAutoFixer.openai := false;
              AltTagAutoFixer.errorMessages := [];
              AltTagAutoFixer.documentLines := [] |});
    reflexivity.
Defined.

(** X14. An edit the edit computation returns is one replacement of the
    whole target line by the line with [ alt=~...~] inserted just before
    the first [>] after the first [<img]; the inserted alt text is the
    non-empty trimmed reply of the endpoint, the line was fixable, a
    client is cached and no error message was shown. *)
Theorem fixSpecificImageTag_inserts_alt
        (service : AltTagAutoFixer.Service) (documentUri : jsstring) (n : nat)
        (lineText : jsstring) (st st' : AltTagAutoFixer.Session)
        (edit : AltTagAutoFixer.WorkspaceEdit) :
  AltTagAutoFixer.fixSpecificImageTag service documentUri n lineText st
  = (Some edit, st') ->
  exists alt text,
    alt <> []
    /\ (exists m reply,
           exec (trim lineText) re_img_src = Some m
           /\ AltTagAutoFixer.createCompletion service
                (AltTagAutoFixer.buildPrompt (group1 m) None)
              = AltTagAutoFixer.Fulfilled (Some reply)
           /\ alt = trim reply)
    /\ insertedBeforeTagEnd lineText (altAttribute alt) text
    /\ edit = [{| AltTagAutoFixer.uri := documentUri;
                  AltTagAutoFixer.replaced := mkRange n 0 n (strlen lineText);
                  AltTagAutoFixer.newText := text |}]
    /\ fixable lineText = true
    /\ AltTagAutoFixer.openai st' = true
    /\ AltTagAutoFixer.errorMessages st' = AltTagAutoFixer.errorMessages st
    /\ AltTagAutoFixer.documentLines st' = AltTagAutoFixer.documentLines st.
Proof.
  intros H. apply fixSpecificImageTag_returns in H.
  destruct H as [m [reply [text [Hm [Hfix [Hc [Hne [Hins [-> [-> Hinit]]]]]]]]]].
  exists (trim reply), text.
  split; [exact Hne|]. split; [eauto|]. split; [exact Hins|].
  split; [reflexivity|]. split; [exact Hfix|].
  destruct (initializeOpenAI_cases service st) as [[_ [H1 H2]] | [H _]];
    [|congruence].
  split; [exact H1|]. split; [exact H2|]. apply initializeOpenAI_document.
Qed.

Lemma fixSpecificImageTag_inserts_alt_witness :
  exists alt text,
    alt <> []
    /\ (exists m reply,
           exec (trim $"  <img src=~bike.png~ class=~hero~> <b>x</b>") re_img_src = Some m
           /\ AltTagAutoFixer.createCompletion
                {| AltTagAutoFixer.openaiApiKey := Some $"sk-test";
                   AltTagAutoFixer.newOpenAI := fun _ => None;
                   AltTagAutoFixer.createCompletion :=
                     fun _ => AltTagAutoFixer.Fulfilled (Some $" A red bicycle ") |}
                (AltTagAutoFixer.buildPrompt (group1 m) None)
              = AltTagAutoFixer.Fulfilled (Some reply)
           /\ alt = trim reply)
    /\ insertedBeforeTagEnd $"  <img src=~bike.png~ class=~hero~> <b>x</b>"
                            (altAttribute alt) text
    /\ [{| AltTagAutoFixer.uri := $"file:///page.html";
           AltTagAutoFixer.replaced := mkRange 4 0 4 44;
           AltTagAutoFixer.newText :=
             $"  <img src=~bike.png~ class=~hero~ alt=~A red bicycle~> <b>x</b>" |}]
       = [{| AltTagAutoFixer.uri := $"file:///page.html";
             AltTagAutoFixer.replaced :=
               mkRange 4 0 4 (strlen $"  <img src=~bike.png~ class=~hero~> <b>x</b>");
             AltTagAutoFixer.newText := text |}]
    /\ fixable $"  <img src=~bike.png~ class=~hero~> <b>x</b>" = true
    /\ AltTagAutoFixer.openai
         {| AltTagAutoFixer.openai := true;
            AltTagAutoFixer.errorMessages := [];
            AltTagAutoFixer.documentLines := [] |} = true
    /\ AltTagAutoFixer.errorMessages
         {| AltTagAutoFixer.openai := true;
            AltTagAutoFixer.errorMessages := [];
            AltTagAutoFixer.documentLines := [] |} = []
    /\ AltTagAutoFixer.documentLines
         {| AltTagAutoFixer.openai := true;
            AltTagAutoFixer.errorMessages := [];
            AltTagAutoFixer.documentLines := [] |} = [].
Proof.
  apply (fixSpecificImageTag_inserts_alt
           {| AltTagAutoFixer.openaiApiKey := Some $"sk-test";
              AltTagAutoFixer.newOpenAI := fun _ => None;
              AltTagAutoFixer.createCompletion :=
                fun _ => AltTagAutoFixer.Fulfilled (Some $" A red bicycle ") |}
           $"file:///page.html" 4 $"  <img src=~bike.png~ class=~hero~> <b>x</b>"
           {| AltTagAutoFixer.openai := false;
              AltTagAutoFixer.errorMessages := [];
              AltTagAutoFixer.documentLines := [] |}
           {| AltTagAutoFixer.openai := true;
              AltTagAutoFixer.errorMessages := [];
              AltTagAutoFixer.documentLines := [] |}
           [{| AltTagAutoFixer.uri := $"file:///page.html";
               AltTagAutoFixer.replaced := mkRange 4 0 4 44;
               AltTagAutoFixer.newText :=
                 $"  <img src=~bike.png~ class=~hero~ alt=~A red bicycle~> <b>x</b>" |}]).
  vm_compute. reflexivity.
Defined.

Lemma accepts_ci_capture (a : ascii) (w : jsstring) (before after : option jsstring) :
  accepts (ci a) w before after -> after = before.
Proof.
  unfold ci. cbv zeta.
  destruct (N.leb 97 (chr a) && N.leb (chr a) 122);
    [simpl; tauto|].
  destruct (N.leb 65 (chr a) && N.leb (chr a) 90); simpl; tauto.
Qed.

Lemma accepts_str_ci_capture (s : list ascii) (w : jsstring)
      (before after : option jsstring) :
  accepts (str_ci s) w before after -> after = before.
Proof.
  revert w before after. induction s as [|a s IH]; intros w before after.
  - simpl. tauto.
  - destruct s as [|a' s'].
    + apply accepts_ci_capture.
    + change (str_ci (a :: a' :: s')) with (Seq (ci a) (str_ci (a' :: s'))).
      cbn [accepts]. intros [w1 [w2 [mid [_ [H1 H2]]]]].
      apply accepts_ci_capture in H1. apply IH in H2. congruence.
Qed.

(** What the image pattern captures: a non-empty, quote-free text that
    stands between two quotes inside the match. *)
Lemma re_img_src_capture (w : jsstring) (c : option jsstring) :
  accepts re_img_src w None c ->
  exists v q1 q2 x y,
    c = Some v /\ v <> []
    /\ forallb (fun u => negb (quote u)) v = true
    /\ quote q1 = true /\ quote q2 = true
    /\ w = x ++ [q1] ++ v ++ [q2] ++ y.
Proof.
  unfold re_img_src.
  set (A := str_ci (list_ascii_of_string "<img")).
  set (B := str_ci (list_ascii_of_string "src=")).
  cbn [sequence accepts].
  intros [w1 [r1 [m1 [-> [H1 H]]]]].
  destruct H as [w2 [r2 [m2 [-> [[_ ->] H]]]]].
  destruct H as [w3 [r3 [m3 [-> [H3 H]]]]].
  destruct H as [w4 [r4 [m4 [-> [[[q1 [-> Hq1]] ->] H]]]]].
  destruct H as [v [r5 [m5 [-> [[[inner [Hv [Hall _]]] ->] H]]]]].
  destruct H as [w6 [r6 [m6 [-> [[[q2 [-> Hq2]] ->] H]]]]].
  destruct H as [w7 [r7 [m7 [-> [[_ ->] [-> ->]]]]]].
  exists v, q1, q2, (w1 ++ w2 ++ w3), (w7 ++ [chr ">"]).
  repeat split; auto. now rewrite <- !app_assoc.
Qed.





Lemma inserted_has_alt (line alt text : jsstring) :
  insertedBeforeTagEnd line (altAttribute alt) text ->
  includes (trim text) $"alt=" = true /\ includes text $"<img" = true.
Proof.
  intros [head [tag [tail [_ [_ [_ ->]]]]]]. split.
  - apply includes_line_trim; [split; [discriminate | reflexivity]|].
    apply includes_iff. unfold altAttribute.
    exists (head ++ $"<img" ++ tag ++ $" "), ($"~" ++ alt ++ $"~" ++ $">" ++ tail).
    now rewrite <- !app_assoc.
  - apply includes_iff. eauto.
Qed.

(** X15. The fix settles the line: the line was reported by the
    missing-alt detector; the new text of a returned replacement still
    holds [<img], is not reported by that detector on any line number,
    and both the edit computation and the preview decline on it without
    touching the session, whatever the service. *)
Theorem fixed_line_is_settled
        (service : AltTagAutoFixer.Service) (documentUri : jsstring) (n : nat)
        (lineText : jsstring) (st st' : AltTagAutoFixer.Session)
        (edit : AltTagAutoFixer.WorkspaceEdit) :
  AltTagAutoFixer.fixSpecificImageTag service documentUri n lineText st
  = (Some edit, st') ->
  ImageChecker.checkImageAltAttributes lineText n <> None
  /\ Forall
       (fun r =>
          includes (AltTagAutoFixer.newText r) $"<img" = true
          /\ (forall k,
                 ImageChecker.checkImageAltAttributes (AltTagAutoFixer.newText r) k
                 = None)
          /\ (forall service2 documentUri2 k st2,
                 AltTagAutoFixer.fixSpecificImageTag
                   service2 documentUri2 k (AltTagAutoFixer.newText r) st2
                 = (None, st2))
          /\ (forall service2 k st2,
                 AltTagAutoFixer.getSpecificImagePreview
                   service2 k (AltTagAutoFixer.newText r) st2
                 = (None, st2)))
       edit.
Proof.
  intros H. apply fixSpecificImageTag_returns in H.
  destruct H as [m [reply [text [Hm [Hfix [_ [_ [Hins [-> _]]]]]]]]].
  split.
  - apply fixable_guards in Hfix. destruct Hfix as [Hguard _].
    unfold ImageChecker.checkImageAltAttributes. cbv zeta.
    destruct (includes (trim lineText) $"<img"); [|discriminate].
    destruct (includes (trim lineText) $"alt="); [discriminate|].
    discriminate.
  - constructor; [|constructor]. cbn [AltTagAutoFixer.newText].
    destruct (inserted_has_alt _ _ _ Hins) as [Halt Himg].
    split; [exact Himg|]. split; [|split].
    + intros k. unfold ImageChecker.checkImageAltAttributes. cbv zeta.
      now rewrite Halt, andb_false_r.
    + intros service2 documentUri2 k st2.
      unfold AltTagAutoFixer.fixSpecificImageTag. cbv zeta.
      now rewrite Halt, orb_true_r.
    + intros service2 k st2.
      unfold AltTagAutoFixer.getSpecificImagePreview. cbv zeta.
      now rewrite Halt, orb_true_r.
Qed.

Lemma fixed_line_is_settled_witness :
  ImageChecker.checkImageAltAttributes $"<img src='a.png'/>" 0 <> None
  /\ Forall
       (fun r =>
          includes (AltTagAutoFixer.newText r) $"<img" = true
          /\ (forall k,
                 ImageChecker.checkImageAltAttributes (AltTagAutoFixer.newText r) k
                 = None)
          /\ (forall service2 documentUri2 k st2,
                 AltTagAutoFixer.fixSpecificImageTag
                   service2 documentUri2 k (AltTagAutoFixer.newText r) st2
                 = (None, st2))
          /\ (forall service2 k st2,
                 AltTagAutoFixer.getSpecificImagePreview
                   service2 k (AltTagAutoFixer.newText r) st2
                 = (None, st2)))
       [{| AltTagAutoFixer.uri := $"file:///page.html";
           AltTagAutoFixer.replaced := mkRange 0 0 0 18;
           AltTagAutoFixer.newText := $"<img src='a.png'/ alt=~Logo~>" |}].
Proof.
  apply (fixed_line_is_settled
           {| AltTagAutoFixer.openaiApiKey := Some $"sk-test";
              AltTagAutoFixer.newOpenAI := fun _ => None;
              AltTagAutoFixer.createCompletion :=
                fun _ => AltTagAutoFixer.Fulfilled (Some $"Logo") |}
           $"file:///page.html" 0 $"<img src='a.png'/>"
           {| AltTagAutoFixer.openai := false;
              AltTagAutoFixer.errorMessages := [];
              AltTagAutoFixer.documentLines := [$"<img src='a.png'/>"] |}
           {| AltTagAutoFixer.openai := true;
              AltTagAutoFixer.errorMessages := [];
              AltTagAutoFixer.documentLines := [$"<img src='a.png'/>"] |}).
  vm_compute. reflexivity.
Defined.



(** X17. What the repair workflow never does to the session: it never
    removes or reorders an error message (it adds at most one in the
    generation and in the preview, at most two in the edit computation),
    never drops a cached client, never writes to the document; with a
    cached client the generation and the preview leave the session as it
    is. *)
Theorem repair_session_only_grows
        (service : AltTagAutoFixer.Service) (documentUri : jsstring) (n : nat)
        (lineText imageSrc : jsstring) (context : option jsstring)
        (st : AltTagAutoFixer.Session) :
  let generated := snd (AltTagAutoFixer.generateAltText service imageSrc context st) in
  let fixed :=
    snd (AltTagAutoFixer.fixSpecificImageTag service documentUri n lineText st) in
  let previewed :=
    snd (AltTagAutoFixer.getSpecificImagePreview service n lineText st) in
  Forall
    (fun s =>
       extends (AltTagAutoFixer.errorMessages st) (AltTagAutoFixer.errorMessages s)
       /\ (AltTagAutoFixer.openai st = true -> AltTagAutoFixer.openai s = true)
       /\ AltTagAutoFixer.documentLines s = AltTagAutoFixer.documentLines st)
    [generated; fixed; previewed]
  /\ List.length (AltTagAutoFixer.errorMessages generated)
     <= List.length (AltTagAutoFixer.errorMessages st) + 1
  /\ List.length (AltTagAutoFixer.errorMessages previewed)
     <= List.length (AltTagAutoFixer.errorMessages st) + 1
  /\ List.length (AltTagAutoFixer.errorMessages fixed)
     <= List.length (AltTagAutoFixer.errorMessages st) + 2
  /\ (AltTagAutoFixer.openai st = true -> generated = st /\ previewed = st).
Proof.
  cbv zeta.
  assert (Hinit :
            extends (AltTagAutoFixer.errorMessages st)
                    (AltTagAutoFixer.errorMessages
                       (snd (AltTagAutoFixer.initializeOpenAI service st)))
            /\ (AltTagAutoFixer.openai st = true ->
                snd (AltTagAutoFixer.initializeOpenAI service st) = st)
            /\ List.length (AltTagAutoFixer.errorMessages
                              (snd (AltTagAutoFixer.initializeOpenAI service st)))
               <= List.length (AltTagAutoFixer.errorMessages st) + 1).
  { split; [|split].
    - destruct (initializeOpenAI_cases service st) as [[_ [_ H]] | [_ [_ [_ [msg H]]]]];
        rewrite H; [exists []; now rewrite app_nil_r | now exists [msg]].
    - intros Hc. unfold AltTagAutoFixer.initializeOpenAI. now rewrite Hc.
    - destruct (initializeOpenAI_cases service st) as [[_ [_ H]] | [_ [_ [_ [msg H]]]]];
        rewrite H; [lia | rewrite length_app; simpl; lia]. }
  destruct Hinit as [Hext [Hkeep Hlen]].
  set (s0 := snd (AltTagAutoFixer.initializeOpenAI service st)) in *.
  assert (Hdoc0 : AltTagAutoFixer.documentLines s0 = AltTagAutoFixer.documentLines st)
    by apply initializeOpenAI_document.
  assert (Hprev :
            snd (AltTagAutoFixer.getSpecificImagePreview service n lineText st) = st
            \/ snd (AltTagAutoFixer.getSpecificImagePreview service n lineText st) = s0).
  { unfold AltTagAutoFixer.getSpecificImagePreview. cbv zeta.
    destruct (negb (includes (trim lineText) $"<img") || includes (trim lineText) $"alt=");
      [now left|].
    destruct (exec (trim lineText) re_img_src) as [m|]; [|now left].
    pose proof (generateAltText_session service (group1 m) None st) as Hs.
    destruct (AltTagAutoFixer.generateAltText service (group1 m) None st)
      as [result s1]. simpl in Hs. right.
    now destruct (negb (AltTagAutoFixer.success result)
                  || negb (truthy (AltTagAutoFixer.altText result))). }
  assert (Hfix :
            snd (AltTagAutoFixer.fixSpecificImageTag service documentUri n lineText st) = st
            \/ snd (AltTagAutoFixer.fixSpecificImageTag service documentUri n lineText st) = s0
            \/ exists message,
                snd (AltTagAutoFixer.fixSpecificImageTag service documentUri n lineText st)
                = AltTagAutoFixer.showErrorMessage message s0).
  { unfold AltTagAutoFixer.fixSpecificImageTag. cbv zeta.
    destruct (negb (includes (trim lineText) $"<img") || includes (trim lineText) $"alt=");
      [now left|].
    destruct (exec (trim lineText) re_img_src) as [m|]; [|now left].
    pose proof (generateAltText_session service (group1 m) None st) as Hs.
    destruct (AltTagAutoFixer.generateAltText service (group1 m) None st)
      as [result s1]. simpl in Hs. subst s1. fold s0. right.
    destruct (negb (AltTagAutoFixer.success result)
              || negb (truthy (AltTagAutoFixer.altText result)));
      [right; eexists; reflexivity|].
    left. now destruct (_ || _). }
  rewrite generateAltText_session. fold s0.
  assert (Hst : extends (AltTagAutoFixer.errorMessages st)
                        (AltTagAutoFixer.errorMessages st))
    by (exists []; now rewrite app_nil_r).
  split; [|split; [exact Hlen|split; [|split]]].
  - repeat constructor; auto.
    + intros Hc. now rewrite (Hkeep Hc).
    + destruct Hfix as [-> | [-> | [message ->]]]; auto.
      destruct Hext as [more Hmore]. simpl. rewrite Hmore.
      exists (more ++ [message]). now rewrite app_assoc.
    + destruct Hfix as [-> | [-> | [message ->]]]; auto;
        intros Hc; [now rewrite (Hkeep Hc) | simpl; now rewrite (Hkeep Hc)].
    + destruct Hfix as [-> | [-> | [message ->]]]; auto.
    + destruct Hprev as [-> | ->]; auto.
    + destruct Hprev as [-> | ->]; auto. intros Hc. now rewrite (Hkeep Hc).
    + destruct Hprev as [-> | ->]; auto.
  - destruct Hprev as [-> | ->]; [lia | exact Hlen].
  - destruct Hfix as [-> | [-> | [message ->]]]; [lia | lia |].
    simpl. rewrite length_app. simpl. lia.
  - intros Hc. split; [exact (Hkeep Hc)|].
    destruct Hprev as [-> | ->]; [reflexivity | exact (Hkeep Hc)].
Qed.

(** X18. A preview that is not null names the image source the pattern
    captured and a non-empty alt text: the source is not empty, holds no
    quote and stands between two quotes in the line; the line is fixable;
    no error message was shown. *)
Theorem preview_names_captured_source
        (service : AltTagAutoFixer.Service) (n : nat) (lineText : jsstring)
        (st st' : AltTagAutoFixer.Session) (p : AltTagAutoFixer.SpecificPreview) :
  AltTagAutoFixer.getSpecificImagePreview service n lineText st = (Some p, st') ->
  AltTagAutoFixer.specificImageSrc p <> []
  /\ forallb (fun u => negb (quote u)) (AltTagAutoFixer.specificImageSrc p) = true
  /\ (exists q1 q2,
         quote q1 = true /\ quote q2 = true
         /\ includes lineText ([q1] ++ AltTagAutoFixer.specificImageSrc p ++ [q2])
            = true)
  /\ AltTagAutoFixer.specificAltText p <> []
  /\ fixable lineText = true
  /\ AltTagAutoFixer.errorMessages st' = AltTagAutoFixer.errorMessages st.
Proof.
  intros H. apply getSpecificImagePreview_returns in H.
  destruct H as [m [reply [Hm [Hfix [_ [Hne [-> [-> Hinit]]]]]]]].
  cbn [AltTagAutoFixer.specificImageSrc AltTagAutoFixer.specificAltText].
  apply exec_sound in Hm. destruct Hm as [before [Hs Hacc]].
  apply re_img_src_capture in Hacc.
  destruct Hacc as [v [q1 [q2 [x [y [Hc [Hv [Hall [Hq1 [Hq2 Hw]]]]]]]]]].
  unfold group1. rewrite Hc.
  split; [exact Hv|]. split; [exact Hall|]. split.
  - exists q1, q2. split; [exact Hq1|]. split; [exact Hq2|].
    apply includes_trim_line. apply includes_iff.
    exists (before ++ x), (y ++ rest m). rewrite Hs, Hw.
    now rewrite <- !app_assoc.
  - split; [exact Hne|]. split; [exact Hfix|].
    destruct (initializeOpenAI_cases service st) as [[_ [_ H]] | [H _]];
      [exact H | congruence].
Qed.

Lemma preview_names_captured_source_witness :
  $"a.png" <> []
  /\ forallb (fun u => negb (quote u)) $"a.png" = true
  /\ (exists q1 q2,
         quote q1 = true /\ quote q2 = true
         /\ includes $"<IMG SRC='a.png'> <img>" ([q1] ++ $"a.png" ++ [q2]) = true)
  /\ $"Logo" <> []
  /\ fixable $"<IMG SRC='a.png'> <img>" = true
  /\ AltTagAutoFixer.errorMessages
       {| AltTagAutoFixer.openai := true;
          AltTagAutoFixer.errorMessages := [$"earlier"];
          AltTagAutoFixer.documentLines := [] |} = [$"earlier"].
Proof.
  apply (preview_names_captured_source
           {| AltTagAutoFixer.openaiApiKey := Some $"sk-test";
              AltTagAutoFixer.newOpenAI := fun _ => None;
              AltTagAutoFixer.createCompletion :=
                fun _ => AltTagAutoFixer.Fulfilled (Some $"Logo") |}
           2 $"<IMG SRC='a.png'> <img>"
           {| AltTagAutoFixer.openai := false;
              AltTagAutoFixer.errorMessages := [$"earlier"];
              AltTagAutoFixer.documentLines := [] |}
           {| AltTagAutoFixer.openai := true;
              AltTagAutoFixer.errorMessages := [$"earlier"];
              AltTagAutoFixer.documentLines := [] |}
           {| AltTagAutoFixer.specificImageSrc := $"a.png";
              AltTagAutoFixer.specificAltText := $"Logo" |}).
  vm_compute. reflexivity.
Defined.

Lemma forEachIndexed_indexed {A St : Type} (P : nat -> St -> Prop)
      (f : St -> A -> nat -> St) (xs : list A) :
  forall k st,
    (forall j x s, nth_error xs j = Some x ->
                   P (k + j) s -> P (k + j + 1) (f s x (k + j))) ->
    P k st -> P (k + List.length xs) (forEachIndexed f xs k st).
Proof.
  induction xs as [|x xs IH]; intros k st Hstep H; simpl.
  - now rewrite Nat.add_0_r.
  - replace (k + S (List.length xs)) with ((k + 1) + List.length xs) by lia.
    apply IH.
    + intros j y s Hj Hs.
      replace (k + 1 + j) with (k + S j) in * by lia.
      apply (Hstep (S j) y s); [exact Hj | exact Hs].
    + specialize (Hstep 0 x st eq_refl).
      rewrite !Nat.add_0_r in Hstep. now apply Hstep.
Qed.

Lemma ascending_snoc (xs : list nat) (k : nat) :
  StronglySorted lt xs -> Forall (fun x => x < k) xs ->
  StronglySorted lt (xs ++ [k]).
Proof.
  induction xs as [|x xs IH]; intros Hs Hall; simpl.
  - repeat constructor.
  - inversion Hs as [|? ? Hs' Hx]; subst.
    inversion Hall as [|? ? Hk Hall']; subst.
    constructor; [now apply IH|].
    apply Forall_app. split; [exact Hx | repeat constructor; exact Hk].
Qed.

Section BatchLoops.

Import AltTagAutoFixer.

Variable serviceAt : nat -> Service.
Variable documentUri : jsstring.
Variable text : jsstring.
Variable st : Session.

(** The loop of [autoFixMissingAltTags], one line at a time: a line that
    is not fixable leaves the locals alone; a fixable line costs a
    generation, and pushes a replacement only after a successful one. *)
Lemma autoFixMissingAltTags_loop (P : nat -> FixRun -> Prop) :
  P 0 {| edit := []; hasChanges := false; fixSession := st |} ->
  (forall i line run,
      nth_error (split_lf text) i = Some line -> P i run ->
      fixable line = false -> P (i + 1) run) ->
  (forall i line run,
      nth_error (split_lf text) i = Some line -> P i run ->
      fixable line = true ->
      P (i + 1) {| edit := edit run; hasChanges := hasChanges run;
                   fixSession := snd (initializeOpenAI (serviceAt i) (fixSession run)) |}) ->
  (forall i line run m reply newLine,
      nth_error (split_lf text) i = Some line -> P i run ->
      fixable line = true ->
      exec (trim line) re_img_src = Some m ->
      createCompletion (serviceAt i)
        (buildPrompt (group1 m) (Some (contextAround (split_lf text) i)))
      = Fulfilled (Some reply) ->
      trim reply <> [] ->
      fst (initializeOpenAI (serviceAt i) (fixSession run)) = true ->
      insertedBeforeTagEnd line (altAttribute (trim reply)) newLine ->
      P (i + 1)
        {| edit := edit run
                   ++ [{| uri := documentUri;
                          replaced := mkRange i 0 i (strlen line);
                          newText := newLine |}];
           hasChanges := true;
           fixSession := snd (initializeOpenAI (serviceAt i) (fixSession run)) |}) ->
  exists final,
    P (List.length (split_lf text)) final
    /\ autoFixMissingAltTags serviceAt documentUri text st
       = (if hasChanges final then Some (edit final) else None, fixSession final).
Proof.
  intros Hinit Hskip Hfail Hfix.
  unfold autoFixMissingAltTags. cbv zeta.
  match goal with
  | |- context [forEachIndexed ?f ?xs 0 ?s0] =>
      exists (forEachIndexed f xs 0 s0); split; [|reflexivity];
      apply (forEachIndexed_indexed P f xs 0 s0); [|exact Hinit]
  end.
  intros j line run Hj HP. simpl Nat.add. cbv beta.
  destruct (includes (trim line) $"<img" && negb (includes (trim line) $"alt="))
    eqn:Eguard;
    [|apply (Hskip j line run Hj HP); unfold fixable; now rewrite Eguard].
  destruct (exec (trim line) re_img_src) as [m|] eqn:Em;
    [|apply (Hskip j line run Hj HP); unfold fixable, matches;
      now rewrite Eguard, Em].
  assert (Hfixable : fixable line = true)
    by (unfold fixable, matches; now rewrite Eguard, Em).
  pose proof (generateAltText_session (serviceAt j) (group1 m)
                (Some (contextAround (split_lf text) j)) (fixSession run)) as Hst.
  pose proof (generateAltText_cases (serviceAt j) (group1 m)
                (Some (contextAround (split_lf text) j)) (fixSession run)) as Hcases.
  destruct (generateAltText (serviceAt j) (group1 m)
              (Some (contextAround (split_lf text) j)) (fixSession run))
    as [result st1].
  simpl in Hst, Hcases. subst st1.
  destruct Hcases as [[reply [Hc [Hne [-> Hok]]]] | [e [-> _]]];
    [|simpl; now apply (Hfail j line run)].
  cbn [success altText andb truthy].
  destruct (trim reply) as [|c t] eqn:Ereply; [contradiction|].
  cbn [showOptional].
  pose proof (insertion_point line) as Hpoint. cbv zeta in Hpoint.
  destruct Hpoint as [Hbad | [head [tag [tail [Hl [Hfirst [Htag [H1 [H2 [Hb Ha]]]]]]]]]].
  - apply orb_true_iff in Hbad.
    assert (E : negb (Z.eqb (indexOf line $"<img" 0) (-1))
                && negb (Z.eqb (indexOf line $">" (indexOf line $"<img" 0)) (-1))
                = false).
    { destruct Hbad as [-> | ->]; [reflexivity | apply andb_false_r]. }
    rewrite E. now apply (Hfail j line run).
  - rewrite H1, H2. cbn [negb andb]. rewrite Hb, Ha.
    replace ((head ++ $"<img" ++ tag) ++ $" alt=~" ++ (c :: t) ++ $"~" ++ $">" ++ tail)
      with (head ++ $"<img" ++ tag ++ altAttribute (c :: t) ++ $">" ++ tail)
      by (unfold altAttribute; now rewrite <- !app_assoc).
    apply (Hfix j line run m reply); auto.
    + rewrite Ereply. discriminate.
    + rewrite Ereply. exists head, tag, tail. auto.
Qed.

(** The loop of [getMissingAltTagsPreview], in the same way. *)
Lemma getMissingAltTagsPreview_loop (P : nat -> PreviewRun -> Prop) :
  P 0 {| previews := []; previewSession := st |} ->
  (forall i line run,
      nth_error (split_lf text) i = Some line -> P i run ->
      fixable line = false -> P (i + 1) run) ->
  (forall i line run,
      nth_error (split_lf text) i = Some line -> P i run ->
      fixable line = true ->
      P (i + 1) {| previews := previews run;
                   previewSession :=
                     snd (initializeOpenAI (serviceAt i) (previewSession run)) |}) ->
  (forall i line run m reply,
      nth_error (split_lf text) i = Some line -> P i run ->
      fixable line = true ->
      exec (trim line) re_img_src = Some m ->
      createCompletion (serviceAt i)
        (buildPrompt (group1 m) (Some (contextAround (split_lf text) i)))
      = Fulfilled (Some reply) ->
      trim reply <> [] ->
      fst (initializeOpenAI (serviceAt i) (previewSession run)) = true ->
      P (i + 1)
        {| previews := previews run
                       ++ [{| previewLineNumber := i;
                              previewImageSrc := group1 m;
                              previewAltText := trim reply |}];
           previewSession :=
             snd (initializeOpenAI (serviceAt i) (previewSession run)) |}) ->
  exists final,
    P (List.length (split_lf text)) final
    /\ getMissingAltTagsPreview serviceAt text st
       = (previews final, previewSession final).
Proof.
  intros Hinit Hskip Hfail Hfix.
  unfold getMissingAltTagsPreview. cbv zeta.
  match goal with
  | |- context [forEachIndexed ?f ?xs 0 ?s0] =>
      exists (forEachIndexed f xs 0 s0); split; [|reflexivity];
      apply (forEachIndexed_indexed P f xs 0 s0); [|exact Hinit]
  end.
  intros j line run Hj HP. simpl Nat.add. cbv beta.
  destruct (includes (trim line) $"<img" && negb (includes (trim line) $"alt="))
    eqn:Eguard;
    [|apply (Hskip j line run Hj HP); unfold fixable; now rewrite Eguard].
  destruct (exec (trim line) re_img_src) as [m|] eqn:Em;
    [|apply (Hskip j line run Hj HP); unfold fixable, matches;
      now rewrite Eguard, Em].
  assert (Hfixable : fixable line = true)
    by (unfold fixable, matches; now rewrite Eguard, Em).
  pose proof (generateAltText_session (serviceAt j) (group1 m)
                (Some (contextAround (split_lf text) j)) (previewSession run)) as Hst.
  pose proof (generateAltText_cases (serviceAt j) (group1 m)
                (Some (contextAround (split_lf text) j)) (previewSession run)) as Hcases.
  destruct (generateAltText (serviceAt j) (group1 m)
              (Some (contextAround (split_lf text) j)) (previewSession run))
    as [result st1].
  simpl in Hst, Hcases. subst st1.
  destruct Hcases as [[reply [Hc [Hne [-> Hok]]]] | [e [-> _]]];
    [|simpl; now apply (Hfail j line run)].
  cbn [success altText andb truthy].
  destruct (trim reply) as [|c t] eqn:Ereply; [contradiction|].
  cbn [showOptional]. rewrite <- Ereply.
  apply (Hfix j line run m reply); auto.
  rewrite Ereply. discriminate.
Qed.

End BatchLoops.

Lemma firstn_succ_nth {A : Type} (xs : list A) (i : nat) (x : A) :
  nth_error xs i = Some x -> firstn (i + 1) xs = firstn i xs ++ [x].
Proof.
  revert i. induction xs as [|y xs IH]; intros [|i] H; simpl in *; try discriminate.
  - now injection H as ->.
  - f_equal. now apply IH.
Qed.

(** X19. An edit the batch workflow returns is never empty; each of its
    replacements rewrites one whole fixable line of the document into the
    line with a non-empty alt attribute inserted before the end of the
    image tag; the replacements come in strictly ascending line order, so
    no line is replaced twice. *)
Theorem autoFixMissingAltTags_edit_shape
        (serviceAt : nat -> AltTagAutoFixer.Service) (documentUri text : jsstring)
        (st st' : AltTagAutoFixer.Session) (edit : AltTagAutoFixer.WorkspaceEdit) :
  AltTagAutoFixer.autoFixMissingAltTags serviceAt documentUri text st
  = (Some edit, st') ->
  edit <> []
  /\ Forall
       (fun r =>
          exists i line alt,
            nth_error (split_lf text) i = Some line
            /\ fixable line = true
            /\ alt <> []
            /\ insertedBeforeTagEnd line (altAttribute alt) (AltTagAutoFixer.newText r)
            /\ AltTagAutoFixer.uri r = documentUri
            /\ AltTagAutoFixer.replaced r = mkRange i 0 i (strlen line))
       edit
  /\ StronglySorted lt
       (map (fun r => startLine (AltTagAutoFixer.replaced r)) edit).
Proof.
  intros H.
  destruct (autoFixMissingAltTags_loop serviceAt documentUri text st
              (fun k run =>
                 (AltTagAutoFixer.hasChanges run = true -> AltTagAutoFixer.edit run <> [])
                 /\ Forall
                      (fun r =>
                         exists i line alt,
                           nth_error (split_lf text) i = Some line
                           /\ fixable line = true
                           /\ alt <> []
                           /\ insertedBeforeTagEnd line (altAttribute alt)
                                                   (AltTagAutoFixer.newText r)
                           /\ AltTagAutoFixer.uri r = documentUri
                           /\ AltTagAutoFixer.replaced r = mkRange i 0 i (strlen line))
                      (AltTagAutoFixer.edit run)
                 /\ Forall (fun x => x < k)
                      (map (fun r => startLine (AltTagAutoFixer.replaced r))
                           (AltTagAutoFixer.edit run))
                 /\ StronglySorted lt
                      (map (fun r => startLine (AltTagAutoFixer.replaced r))
                           (AltTagAutoFixer.edit run))))
    as [final [[Hchg [Hall [_ Hsorted]]] Hrun]].
  - simpl. repeat split; try constructor. discriminate.
  - intros i line run _ [H1 [H2 [H3 H4]]] _. repeat split; auto.
    eapply Forall_impl; [|exact H3]. simpl. intros; lia.
  - intros i line run _ [H1 [H2 [H3 H4]]] _. simpl. repeat split; auto.
    eapply Forall_impl; [|exact H3]. simpl. intros; lia.
  - intros i line run m reply newLine Hi [H1 [H2 [H3 H4]]] Hfix Hm Hc Hne Hok Hins.
    simpl. split; [intros _ E; destruct (AltTagAutoFixer.edit run); discriminate|].
    split; [|split].
    + apply Forall_app. split; [exact H2|]. constructor; [|constructor].
      exists i, line, (trim reply). simpl. repeat split; auto.
    + rewrite map_app. apply Forall_app. split.
      * eapply Forall_impl; [|exact H3]. simpl. intros; lia.
      * simpl. constructor; [lia | constructor].
    + rewrite map_app. simpl. now apply ascending_snoc.
  - rewrite Hrun in H.
    destruct (AltTagAutoFixer.hasChanges final) eqn:E; [|discriminate].
    injection H as <- _. auto.
Qed.

Lemma autoFixMissingAltTags_edit_shape_witness :
  let edit :=
    [{| AltTagAutoFixer.uri := $"file:///page.html";
        AltTagAutoFixer.replaced := mkRange 1 0 1 17;
        AltTagAutoFixer.newText := $"<img src='a.png' alt=~Logo~>" |};
     {| AltTagAutoFixer.uri := $"file:///page.html";
        AltTagAutoFixer.replaced := mkRange 3 0 3 19;
        AltTagAutoFixer.newText := $"  <img src=~b.png~ alt=~Logo~>" |}] in
  let text :=
    $"<p>" ++ LF ++ $"<img src='a.png'>" ++ LF ++ $"<img alt=~x~ src=~c.png~>"
           ++ LF ++ $"  <img src=~b.png~>" in
  edit <> []
  /\ Forall
       (fun r =>
          exists i line alt,
            nth_error (split_lf text) i = Some line
            /\ fixable line = true
            /\ alt <> []
            /\ insertedBeforeTagEnd line (altAttribute alt) (AltTagAutoFixer.newText r)
            /\ AltTagAutoFixer.uri r = $"file:///page.html"
            /\ AltTagAutoFixer.replaced r = mkRange i 0 i (strlen line))
       edit
  /\ StronglySorted lt
       (map (fun r => startLine (AltTagAutoFixer.replaced r)) edit).
Proof.
  cbv zeta.
  apply (autoFixMissingAltTags_edit_shape
           (fun _ =>
              {| AltTagAutoFixer.openaiApiKey := Some $"sk-test";
                 AltTagAutoFixer.newOpenAI := fun _ => None;
                 AltTagAutoFixer.createCompletion :=
                   fun _ => AltTagAutoFixer.Fulfilled (Some $"Logo") |})
           $"file:///page.html"
           ($"<p>" ++ LF ++ $"<img src='a.png'>" ++ LF ++ $"<img alt=~x~ src=~c.png~>"
                   ++ LF ++ $"  <img src=~b.png~>")
           {| AltTagAutoFixer.openai := false;
              AltTagAutoFixer.errorMessages := [];
              AltTagAutoFixer.documentLines := [] |}
           {| AltTagAutoFixer.openai := true;
              AltTagAutoFixer.errorMessages := [];
              AltTagAutoFixer.documentLines := [] |}).
  vm_compute. reflexivity.
Defined.

(** X20. On a document without a fixable line (no line has [<img]
    without [alt=] and a quoted source) the batch workflow and the batch
    preview consult no service: the results are null and the empty list,
    and the session is what it was. *)
Theorem batch_without_fixable_line
        (serviceAt : nat -> AltTagAutoFixer.Service) (documentUri text : jsstring)
        (st : AltTagAutoFixer.Session) :
  (forall line, In line (split_lf text) -> fixable line = false) ->
  AltTagAutoFixer.autoFixMissingAltTags serviceAt documentUri text st = (None, st)
  /\ AltTagAutoFixer.getMissingAltTagsPreview serviceAt text st = ([], st).
Proof.
  intros Hnone. split.
  - destruct (autoFixMissingAltTags_loop serviceAt documentUri text st
                (fun _ run =>
                   run = {| AltTagAutoFixer.edit := [];
                            AltTagAutoFixer.hasChanges := false;
                            AltTagAutoFixer.fixSession := st |}))
      as [final [-> Hrun]]; auto.
    + intros i line run Hi _ Hfix. apply nth_error_In in Hi.
      rewrite (Hnone line Hi) in Hfix. discriminate.
    + intros i line run m reply newLine Hi _ Hfix. apply nth_error_In in Hi.
      rewrite (Hnone line Hi) in Hfix. discriminate.
  - destruct (getMissingAltTagsPreview_loop serviceAt text st
                (fun _ run =>
                   run = {| AltTagAutoFixer.previews := [];
                            AltTagAutoFixer.previewSession := st |}))
      as [final [-> Hrun]]; auto.
    + intros i line run Hi _ Hfix. apply nth_error_In in Hi.
      rewrite (Hnone line Hi) in Hfix. discriminate.
    + intros i line run m reply Hi _ Hfix. apply nth_error_In in Hi.
      rewrite (Hnone line Hi) in Hfix. discriminate.
Qed.

Lemma batch_without_fixable_line_witness :
  let serviceAt :=
    fun _ : nat =>
      {| AltTagAutoFixer.openaiApiKey := None;
         AltTagAutoFixer.newOpenAI := fun _ => None;
         AltTagAutoFixer.createCompletion :=
           fun _ => AltTagAutoFixer.Fulfilled (Some $"Logo") |} in
  let text := $"<img src=~a.png~ alt=~A~>" ++ LF ++ $"<img>" ++ LF ++ $"<p>x</p>" in
  let st :=
    {| AltTagAutoFixer.openai := false;
       AltTagAutoFixer.errorMessages := [];
       AltTagAutoFixer.documentLines := [] |} in
  AltTagAutoFixer.autoFixMissingAltTags serviceAt $"file:///page.html" text st
  = (None, st)
  /\ AltTagAutoFixer.getMissingAltTagsPreview serviceAt text st = ([], st).
Proof.
  cbv zeta.
  apply (batch_without_fixable_line
           (fun _ : nat =>
              {| AltTagAutoFixer.openaiApiKey := None;
                 AltTagAutoFixer.newOpenAI := fun _ => None;
                 AltTagAutoFixer.createCompletion :=
                   fun _ => AltTagAutoFixer.Fulfilled (Some $"Logo") |})
           $"file:///page.html"
           ($"<img src=~a.png~ alt=~A~>" ++ LF ++ $"<img>" ++ LF ++ $"<p>x</p>")
           {| AltTagAutoFixer.openai := false;
              AltTagAutoFixer.errorMessages := [];
              AltTagAutoFixer.documentLines := [] |}).
  intros line Hin. vm_compute in Hin.
  destruct Hin as [<- | [<- | [<- | []]]]; reflexivity.
Defined.

(** X21. Without an API key and without a cached client the batch
    workflow returns null and shows the key-not-found message once for
    every fixable line of the document; nothing else in the session
    changes. *)
Theorem batch_without_key
        (serviceAt : nat -> AltTagAutoFixer.Service) (documentUri text : jsstring)
        (st : AltTagAutoFixer.Session) :
  AltTagAutoFixer.openai st = false ->
  (forall i, truthy (AltTagAutoFixer.openaiApiKey (serviceAt i)) = false) ->
  AltTagAutoFixer.autoFixMissingAltTags serviceAt documentUri text st
  = (None,
     {| AltTagAutoFixer.openai := false;
        AltTagAutoFixer.errorMessages :=
          AltTagAutoFixer.errorMessages st
          ++ repeat
               $"OpenAI API key not found. Please set marsa11yfix.openaiApiKey in your VS Code settings."
               (List.length (filter fixable (split_lf text)));
        AltTagAutoFixer.documentLines := AltTagAutoFixer.documentLines st |}).
Proof.
  intros Hclient Hkey.
  destruct (autoFixMissingAltTags_loop serviceAt documentUri text st
              (fun k run =>
                 AltTagAutoFixer.hasChanges run = false
                 /\ AltTagAutoFixer.fixSession run
                    = {| AltTagAutoFixer.openai := false;
                         AltTagAutoFixer.errorMessages :=
                           AltTagAutoFixer.errorMessages st
                           ++ repeat
                                $"OpenAI API key not found. Please set marsa11yfix.openaiApiKey in your VS Code settings."
                                (List.length (filter fixable (firstn k (split_lf text))));
                         AltTagAutoFixer.documentLines :=
                           AltTagAutoFixer.documentLines st |}))
    as [final [[Hchg Hst] Hrun]].
  - simpl. rewrite app_nil_r. split; [reflexivity|].
    destruct st; simpl in *. now rewrite Hclient.
  - intros i line run Hi [H1 H2] Hfix. split; [exact H1|].
    rewrite (firstn_succ_nth _ _ _ Hi), filter_app. simpl. rewrite Hfix.
    now rewrite app_nil_r.
  - intros i line run Hi [H1 H2] Hfix. simpl. split; [exact H1|].
    rewrite (firstn_succ_nth _ _ _ Hi), filter_app. simpl. rewrite Hfix.
    rewrite length_app. simpl. rewrite repeat_app. simpl.
    unfold AltTagAutoFixer.initializeOpenAI. rewrite H2. simpl.
    rewrite Hkey. simpl. unfold AltTagAutoFixer.showErrorMessage. simpl.
    now rewrite <- app_assoc.
  - intros i line run m reply newLine Hi [H1 H2] Hfix Hm Hc Hne Hok Hins.
    exfalso.
    assert (Hno : AltTagAutoFixer.openai (AltTagAutoFixer.fixSession run) = false)
      by (now rewrite H2).
    pose proof (initializeOpenAI_no_client (serviceAt i) _ Hno (or_introl (Hkey i))).
    congruence.
  - rewrite Hrun, Hchg, Hst. now rewrite firstn_all.
Qed.

Lemma batch_without_key_witness :
  AltTagAutoFixer.autoFixMissingAltTags
    (fun _ : nat =>
       {| AltTagAutoFixer.openaiApiKey := Some [];
          AltTagAutoFixer.newOpenAI := fun _ => None;
          AltTagAutoFixer.createCompletion :=
            fun _ => AltTagAutoFixer.Fulfilled (Some $"Logo") |})
    $"file:///page.html"
    ($"<img src=~a.png~>" ++ LF ++ $"<p>x</p>" ++ LF ++ $"<img src=~b.png~>")
    {| AltTagAutoFixer.openai := false;
       AltTagAutoFixer.errorMessages := [$"earlier"];
       AltTagAutoFixer.documentLines := [] |}
  = (None,
     {| AltTagAutoFixer.openai := false;
        AltTagAutoFixer.errorMessages :=
          [$"earlier"]
          ++ repeat
               $"OpenAI API key not found. Please set marsa11yfix.openaiApiKey in your VS Code settings."
               (List.length
                  (filter fixable
                     (split_lf ($"<img src=~a.png~>" ++ LF ++ $"<p>x</p>" ++ LF
                                                     ++ $"<img src=~b.png~>"))));
        AltTagAutoFixer.documentLines := [] |}).
Proof.
  apply (batch_without_key
           (fun _ : nat =>
              {| AltTagAutoFixer.openaiApiKey := Some [];
                 AltTagAutoFixer.newOpenAI := fun _ => None;
                 AltTagAutoFixer.createCompletion :=
                   fun _ => AltTagAutoFixer.Fulfilled (Some $"Logo") |})
           $"file:///page.html"
           ($"<img src=~a.png~>" ++ LF ++ $"<p>x</p>" ++ LF ++ $"<img src=~b.png~>")
           {| AltTagAutoFixer.openai := false;
              AltTagAutoFixer.errorMessages := [$"earlier"];
              AltTagAutoFixer.documentLines := [] |});
    reflexivity.
Defined.

(** X22. When the endpoint never has a usable answer (the call fails, or
    the content is missing or blank), the batch workflow returns null and
    the batch preview is empty, whatever the document. *)
Theorem batch_with_unusable_endpoint
        (serviceAt : nat -> AltTagAutoFixer.Service) (documentUri text : jsstring)
        (st : AltTagAutoFixer.Session) :
  (forall i prompt,
      unusable (AltTagAutoFixer.createCompletion (serviceAt i) prompt)) ->
  fst (AltTagAutoFixer.autoFixMissingAltTags serviceAt documentUri text st) = None
  /\ fst (AltTagAutoFixer.getMissingAltTagsPreview serviceAt text st) = [].
Proof.
  intros Hbad. split.
  - destruct (autoFixMissingAltTags_loop serviceAt documentUri text st
                (fun _ run => AltTagAutoFixer.hasChanges run = false))
      as [final [Hchg Hrun]]; auto.
    + intros i line run m reply newLine _ _ _ _ Hc Hne _ _. exfalso.
      specialize (Hbad i (AltTagAutoFixer.buildPrompt
                            (group1 m)
                            (Some (AltTagAutoFixer.contextAround (split_lf text) i)))).
      rewrite Hc in Hbad. simpl in Hbad. contradiction.
    + rewrite Hrun, Hchg. reflexivity.
  - destruct (getMissingAltTagsPreview_loop serviceAt text st
                (fun _ run => AltTagAutoFixer.previews run = []))
      as [final [Hnone Hrun]]; auto.
    + intros i line run m reply _ _ _ _ Hc Hne _. exfalso.
      specialize (Hbad i (AltTagAutoFixer.buildPrompt
                            (group1 m)
                            (Some (AltTagAutoFixer.contextAround (split_lf text) i)))).
      rewrite Hc in Hbad. simpl in Hbad. contradiction.
    + rewrite Hrun. exact Hnone.
Qed.

Lemma batch_with_unusable_endpoint_witness :
  let serviceAt :=
    fun i : nat =>
      {| AltTagAutoFixer.openaiApiKey := Some $"sk-test";
         AltTagAutoFixer.newOpenAI := fun _ => None;
         AltTagAutoFixer.createCompletion :=
           fun _ =>
             match i with
             | O => AltTagAutoFixer.Rejected $"Error: 429"
             | S O => AltTagAutoFixer.Fulfilled None
             | _ => AltTagAutoFixer.Fulfilled (Some $"   ")
             end |} in
  let text := $"<img src=~a.png~>" ++ LF ++ $"<img src=~b.png~>" ++ LF
                                   ++ $"<img src=~c.png~>" in
  let st :=
    {| AltTagAutoFixer.openai := false;
       AltTagAutoFixer.errorMessages := [];
       AltTagAutoFixer.documentLines := [] |} in
  fst (AltTagAutoFixer.autoFixMissingAltTags serviceAt $"file:///page.html" text st)
  = None
  /\ fst (AltTagAutoFixer.getMissingAltTagsPreview serviceAt text st) = [].
Proof.
  cbv zeta.
  apply (batch_with_unusable_endpoint
           (fun i : nat =>
              {| AltTagAutoFixer.openaiApiKey := Some $"sk-test";
                 AltTagAutoFixer.newOpenAI := fun _ => None;
                 AltTagAutoFixer.createCompletion :=
                   fun _ =>
                     match i with
                     | O => AltTagAutoFixer.Rejected $"Error: 429"
                     | S O => AltTagAutoFixer.Fulfilled None
                     | _ => AltTagAutoFixer.Fulfilled (Some $"   ")
                     end |})
           $"file:///page.html"
           ($"<img src=~a.png~>" ++ LF ++ $"<img src=~b.png~>" ++ LF
                                 ++ $"<img src=~c.png~>")
           {| AltTagAutoFixer.openai := false;
              AltTagAutoFixer.errorMessages := [];
              AltTagAutoFixer.documentLines := [] |}).
  intros [|[|i]] prompt; simpl; auto.
Defined.

(** X23. The batch preview lists fixable lines only, in strictly
    ascending line order and at most one entry per fixable line; each
    entry carries the captured image source and a non-empty alt text. *)
Theorem getMissingAltTagsPreview_shape
        (serviceAt : nat -> AltTagAutoFixer.Service) (text : jsstring)
        (st : AltTagAutoFixer.Session) :
  let previews := fst (AltTagAutoFixer.getMissingAltTagsPreview serviceAt text st) in
  Forall
    (fun p =>
       exists line m,
         nth_error (split_lf text) (AltTagAutoFixer.previewLineNumber p) = Some line
         /\ fixable line = true
         /\ exec (trim line) re_img_src = Some m
         /\ AltTagAutoFixer.previewImageSrc p = group1 m
         /\ AltTagAutoFixer.previewAltText p <> [])
    previews
  /\ StronglySorted lt (map AltTagAutoFixer.previewLineNumber previews)
  /\ List.length previews <= List.length (filter fixable (split_lf text)).
Proof.
  cbv zeta.
  destruct (getMissingAltTagsPreview_loop serviceAt text st
              (fun k run =>
                 Forall
                   (fun p =>
                      exists line m,
                        nth_error (split_lf text) (AltTagAutoFixer.previewLineNumber p)
                        = Some line
                        /\ fixable line = true
                        /\ exec (trim line) re_img_src = Some m
                        /\ AltTagAutoFixer.previewImageSrc p = group1 m
                        /\ AltTagAutoFixer.previewAltText p <> [])
                   (AltTagAutoFixer.previews run)
                 /\ Forall (fun x => x < k)
                      (map AltTagAutoFixer.previewLineNumber (AltTagAutoFixer.previews run))
                 /\ StronglySorted lt
                      (map AltTagAutoFixer.previewLineNumber (AltTagAutoFixer.previews run))
                 /\ List.length (AltTagAutoFixer.previews run)
                    <= List.length (filter fixable (firstn k (split_lf text)))))
    as [final [[Hall [_ [Hsorted Hlen]]] Hrun]].
  - simpl. repeat split; try constructor.
  - intros i line run Hi [H1 [H2 [H3 H4]]] Hfix. repeat split; auto.
    + eapply Forall_impl; [|exact H2]. simpl. intros; lia.
    + rewrite (firstn_succ_nth _ _ _ Hi), filter_app, length_app. lia.
  - intros i line run Hi [H1 [H2 [H3 H4]]] Hfix. simpl. repeat split; auto.
    + eapply Forall_impl; [|exact H2]. simpl. intros; lia.
    + rewrite (firstn_succ_nth _ _ _ Hi), filter_app, length_app. lia.
  - intros i line run m reply Hi [H1 [H2 [H3 H4]]] Hfix Hm Hc Hne Hok.
    simpl. split; [|split; [|split]].
    + apply Forall_app. split; [exact H1|]. constructor; [|constructor].
      exists line, m. simpl. repeat split; auto.
    + rewrite map_app. apply Forall_app. split.
      * eapply Forall_impl; [|exact H2]. simpl. intros; lia.
      * simpl. constructor; [lia | constructor].
    + rewrite map_app. simpl. now apply ascending_snoc.
    + rewrite (firstn_succ_nth _ _ _ Hi), filter_app, !length_app. simpl.
      rewrite Hfix. simpl. lia.
  - rewrite Hrun. simpl. rewrite firstn_all in Hlen. auto.
Qed.

Lemma aggregated_issue_present lower text index l family (d : detector) i :
  nth_error (split_lf text) index = Some l ->
  In family (aggregatedFamilies lower) -> In d family ->
  d l index text = Some i ->
  In i (AccessibilityChecker.issues
          (AccessibilityChecker.checkAccessibilityIssues lower text)).
Proof.
  intros Hl Hf Hd Hi. rewrite issues_by_line. apply in_flat_map.
  exists (index, l). split.
  - apply In_indexedFrom. split; [lia|]. now rewrite Nat.sub_0_r.
  - unfold lineBlock. apply in_flat_map. exists family. split; [exact Hf|].
    apply In_runFamily. eauto.
Qed.

(** X24. The two aggregated families that look at the html tag agree on
    every line, so a run reports an [<html] line without [lang=] twice:
    once by the "other" family and once, under a longer message, by the
    semantic family, both HIGH and both on that line. *)
Theorem html_without_lang_reported_twice
        (toLowerCase : jsstring -> jsstring) (text : jsstring)
        (index : nat) (l : jsstring) :
  nth_error (split_lf text) index = Some l ->
  (OtherAccessibilityChecker.checkHtmlLangAttribute l index = None
   <-> SemanticHtmlChecker.checkHtmlLangAttribute l index = None)
  /\ (includes (trim l) $"<html" = true -> includes (trim l) $"lang=" = false ->
      In {| line := index + 1;
            issue := $"Missing lang attribute on html tag";
            severity := $"HIGH";
            range := mkRange index 0 index (strlen l) |}
         (AccessibilityChecker.issues
            (AccessibilityChecker.checkAccessibilityIssues toLowerCase text))
      /\ In {| line := index + 1;
               issue := $"Missing lang attribute on html tag - required for screen readers and language detection";
               severity := $"HIGH";
               range := mkRange index 0 index (strlen l) |}
            (AccessibilityChecker.issues
               (AccessibilityChecker.checkAccessibilityIssues toLowerCase text))).
Proof.
  intros Hl. split.
  - unfold OtherAccessibilityChecker.checkHtmlLangAttribute,
      SemanticHtmlChecker.checkHtmlLangAttribute. cbv zeta.
    destruct (includes (trim l) $"<html" && negb (includes (trim l) $"lang="));
      split; auto; discriminate.
  - intros Hhtml Hlang. split.
    + apply (aggregated_issue_present toLowerCase text index l otherDetectors
               (fun l n _ => OtherAccessibilityChecker.checkHtmlLangAttribute l n));
        [exact Hl | unfold aggregatedFamilies; simpl; auto 10 | simpl; auto 10 |].
      cbv beta. unfold OtherAccessibilityChecker.checkHtmlLangAttribute.
      cbv zeta. now rewrite Hhtml, Hlang.
    + apply (aggregated_issue_present toLowerCase text index l semanticDetectors
               (fun l n _ => SemanticHtmlChecker.checkHtmlLangAttribute l n));
        [exact Hl | unfold aggregatedFamilies; simpl; auto 10 | simpl; auto 10 |].
      cbv beta. unfold SemanticHtmlChecker.checkHtmlLangAttribute.
      cbv zeta. now rewrite Hhtml, Hlang.
Qed.

Lemma html_without_lang_reported_twice_witness :
  (OtherAccessibilityChecker.checkHtmlLangAttribute $"<html>" 1 = None
   <-> SemanticHtmlChecker.checkHtmlLangAttribute $"<html>" 1 = None)
  /\ (includes (trim $"<html>") $"<html" = true ->
      includes (trim $"<html>") $"lang=" = false ->
      In {| line := 1 + 1;
            issue := $"Missing lang attribute on html tag";
            severity := $"HIGH";
            range := mkRange 1 0 1 (strlen $"<html>") |}
         (AccessibilityChecker.issues
            (AccessibilityChecker.checkAccessibilityIssues
               toLowerCaseBasicLatin ($"<!DOCTYPE html>" ++ LF ++ $"<html>")))
      /\ In {| line := 1 + 1;
               issue := $"Missing lang attribute on html tag - required for screen readers and language detection";
               severity := $"HIGH";
               range := mkRange 1 0 1 (strlen $"<html>") |}
            (AccessibilityChecker.issues
               (AccessibilityChecker.checkAccessibilityIssues
                  toLowerCaseBasicLatin ($"<!DOCTYPE html>" ++ LF ++ $"<html>")))).
Proof.
  apply (html_without_lang_reported_twice
           toLowerCaseBasicLatin ($"<!DOCTYPE html>" ++ LF ++ $"<html>") 1 $"<html>").
  reflexivity.
Defined.

Lemma present_severity (level : jsstring) (check : option AccessibilityIssue) :
  (forall i, check = Some i -> severity i = level) ->
  Forall (fun i => severity i = level) (present check).
Proof.
  intros H. destruct check as [i|]; simpl; constructor; auto.
Qed.

(** X25. The tab-index family reports its issues from most to least
    severe: its result is a block of at most six HIGH issues, then at most
    seven MEDIUM issues, then at most three LOW issues. *)
Theorem checkTabIndex_by_severity (l : jsstring) (n : nat) :
  exists high medium low,
    TabIndexChecker.checkTabIndex l n = high ++ medium ++ low
    /\ Forall (fun i => severity i = $"HIGH") high
    /\ Forall (fun i => severity i = $"MEDIUM") medium
    /\ Forall (fun i => severity i = $"LOW") low
    /\ List.length high <= 6 /\ List.length medium <= 7 /\ List.length low <= 3.
Proof.
  unfold TabIndexChecker.checkTabIndex. cbv zeta.
  rewrite pushChecks_present. cbn [flat_map]. rewrite app_nil_r.
  exists (present (TabIndexChecker.checkNegativeTabIndex l n)
          ++ present (TabIndexChecker.checkTabIndexZeroOnNonInteractive l n)
          ++ present (TabIndexChecker.checkMissingTabIndexOnCustomInteractive l n)
          ++ present (TabIndexChecker.checkTabIndexOnPresentationRole l n)
          ++ present (TabIndexChecker.checkTabIndexOnNoneRole l n)
          ++ present (TabIndexChecker.checkTabIndexOnAriaHidden l n)),
         (present (TabIndexChecker.checkRedundantTabIndexOnFocusable l n)
          ++ present (TabIndexChecker.checkPositiveTabIndex l n)
          ++ present (TabIndexChecker.checkMissingTabIndexOnClickable l n)
          ++ present (TabIndexChecker.checkDisabledElementWithTabIndex l n)
          ++ present (TabIndexChecker.checkTabIndexOnHiddenElement l n)
          ++ present (TabIndexChecker.checkMissingTabIndexOnModalTrigger l n)
          ++ present (TabIndexChecker.checkMissingTabIndexOnCustomFormControl l n)),
         (present (TabIndexChecker.checkTabIndexOnDecorativeElement l n)
          ++ present (TabIndexChecker.checkInconsistentTabIndexUsage l n)
          ++ present (TabIndexChecker.checkTabIndexOnNonInteractiveElement l n)).
  split; [now rewrite <- !app_assoc|].
  split; [|split; [|split]].
  - repeat (apply Forall_app; split);
      apply present_severity; intros i H; returned_issue H; reflexivity.
  - repeat (apply Forall_app; split);
      apply present_severity; intros i H; returned_issue H; reflexivity.
  - repeat (apply Forall_app; split);
      apply present_severity; intros i H; returned_issue H; reflexivity.
  - rewrite !length_app.
    repeat match goal with
           | |- context [List.length (present ?c)] =>
               let H := fresh in
               pose proof (present_length c) as H;
               generalize dependent (List.length (present c)); intros
           end; lia.
Qed.
